(** * A shallow embedding of the stock-trading decision and lifecycle engine

    The Python sources embedded here are

    - [modules/trading_strategy.py]  (class [TradingStrategy]),
    - [options_strategies.py]        (class [OptionsStrategy]),
    - [modules/portfolio_manager.py] (class [PortfolioManager]).

    Python objects are modelled by the type [value]; a [dict] is a finite
    map from keys to values, so that a missing key, a [None] operand and a
    missing attribute raise as they do in Python.  Evaluation lives in the
    exception monad [py].  Floating-point numbers are modelled by exact
    rationals kept in lowest terms, plus one not-a-number value: the
    arithmetic of the code wherever no operation rounds.  The functions
    whose properties depend on the rounding of a double are embedded a
    second time in double precision (modules [Float64] and
    [OptionsStrategy64]). *)

From Stdlib Require Import QArith Qround Qminmax Qabs Lqa ZArith.
From stdpp Require Import gmap strings list fin_maps.

Set Warnings "-register-all".

(** ** Python values and exceptions *)

Module Py.

Inductive exn : Type :=
| KeyError (key : string)
| NameError (name : string)
| AttributeError (attr : string)
| IndexError
| TypeError
| ValueError (msg : string)
| ZeroDivisionError.

Inductive py (A : Type) : Type :=
| Ret (a : A)
| Raise (e : exn).
Arguments Ret {A} a.
Arguments Raise {A} e.

#[global] Instance py_ret : MRet py := fun A a => Ret a.
#[global] Instance py_bind : MBind py := fun A B f m =>
  match m with
  | Ret a => f a
  | Raise e => Raise e
  end.

(** [try: body except Exception: handler] *)
Definition try_except {A} (body : py A) (handler : exn -> py A) : py A :=
  match body with
  | Ret a => Ret a
  | Raise e => handler e
  end.

Inductive value : Type :=
| VNone
| VBool (b : bool)
| VNum (q : Q)
| VNaN
| VStr (s : string)
| VList (l : list value)
| VDict (d : gmap string value).

Abbreviation dict := (gmap string value).

(** Truth value of an object, as [if x:] computes it. *)
Definition truthy (v : value) : bool :=
  match v with
  | VNone => false
  | VBool b => b
  | VNum q => negb (Qeq_bool q 0)
  | VNaN => true
  | VStr s => negb (String.eqb s "")
  | VList l => match l with [] => false | _ => true end
  | VDict d => match map_to_list d with [] => false | _ => true end
  end.

(** [d[k]] *)
Definition getitem (d : value) (k : string) : py value :=
  match d with
  | VDict m => match m !! k with
               | Some v => Ret v
               | None => Raise (KeyError k)
               end
  | _ => Raise TypeError
  end.

(** [d.get(k, default)] *)
Definition dict_get (d : value) (k : string) (default : value) : py value :=
  match d with
  | VDict m => Ret (match m !! k with Some v => v | None => default end)
  | _ => Raise (AttributeError "get")
  end.

(** [d[k] = v] *)
Definition setitem (d : value) (k : string) (v : value) : py value :=
  match d with
  | VDict m => Ret (VDict (<[k := v]> m))
  | _ => Raise TypeError
  end.

(** [x == 'literal'] for a string literal. *)
Definition is_str (v : value) (s : string) : bool :=
  match v with
  | VStr s' => String.eqb s' s
  | _ => false
  end.

(** [x is None] *)
Definition is_none (v : value) : bool :=
  match v with
  | VNone => true
  | _ => false
  end.

(** The operand of an arithmetic operator or of an ordering: a float,
    [None] for not-a-number.  [bool] is a subclass of [int]; every other
    object raises [TypeError] against a float. *)
Definition as_float (v : value) : py (option Q) :=
  match v with
  | VNum q => Ret (Some q)
  | VBool b => Ret (Some (if b then 1 else 0)%Q)
  | VNaN => Ret None
  | _ => Raise TypeError
  end.

Definition of_float (x : option Q) : value :=
  match x with
  | Some q => VNum (Qred q)
  | None => VNaN
  end.

Definition arith (op : Q -> Q -> Q) (a b : value) : py value :=
  x ← as_float a;
  y ← as_float b;
  mret (of_float (q1 ← x; q2 ← y; Some (op q1 q2))).

Definition v_add : value -> value -> py value := arith Qplus.
Definition v_sub : value -> value -> py value := arith Qminus.
Definition v_mul : value -> value -> py value := arith Qmult.

(** [a / b]; a zero divisor raises. *)
Definition v_div (a b : value) : py value :=
  x ← as_float a;
  y ← as_float b;
  match y with
  | Some q => if Qeq_bool q 0 then Raise ZeroDivisionError
              else mret (of_float (q1 ← x; Some (q1 / q)%Q))
  | None => mret VNaN
  end.

(** [-a] *)
Definition v_neg (a : value) : py value :=
  x ← as_float a;
  mret (of_float (Qopp <$> x)).

Definition Qlt_bool (x y : Q) : bool := negb (Qle_bool y x).

(** Orderings; any comparison with not-a-number is [False]. *)
Definition compare_with (rel : Q -> Q -> bool) (a b : value) : py bool :=
  x ← as_float a;
  y ← as_float b;
  mret (match x, y with
        | Some q1, Some q2 => rel q1 q2
        | _, _ => false
        end).

Definition v_lt : value -> value -> py bool := compare_with Qlt_bool.
Definition v_le : value -> value -> py bool := compare_with Qle_bool.
Definition v_gt (a b : value) : py bool := compare_with (fun x y => Qlt_bool y x) a b.
Definition v_ge (a b : value) : py bool := compare_with (fun x y => Qle_bool y x) a b.

(** [x != 0] and [x == number]: equality never raises. *)
Definition v_eq_num (a : value) (q : Q) : bool :=
  match a with
  | VNum q' => Qeq_bool q' q
  | VBool b => Qeq_bool (if b then 1 else 0) q
  | _ => false
  end.

(** Short-circuit [a or b] and [a and b] in a condition. *)
Definition p_or (a b : py bool) : py bool :=
  a ≫= fun x : bool => if x then mret true else b.
Definition p_and (a b : py bool) : py bool :=
  a ≫= fun x : bool => if x then b else mret false.

(** [not a] in a condition. *)
Definition p_not (a : py bool) : py bool :=
  a ≫= fun x : bool => mret (negb x).

(** [d[k]] read in a condition. *)
Definition item_truth (d : value) (k : string) : py bool :=
  v ← getitem d k; mret (truthy v).

(** [int(x)]: truncation toward zero. *)
Definition Qtruncate (q : Q) : Z := Z.quot (Qnum q) (Zpos (Qden q)).

Definition v_int (a : value) : py value :=
  match a with
  | VNum q => Ret (VNum (inject_Z (Qtruncate q)))
  | VBool b => Ret (VNum (if b then 1 else 0))
  | VNaN => Raise (ValueError "cannot convert float NaN to integer")
  | VStr _ => Raise (ValueError "invalid literal for int()")
  | _ => Raise TypeError
  end.

(** [f"{x:.2f}"]: formatting a non-number raises. *)
Definition format_2f (a : value) : py unit :=
  as_float a ≫= fun _ => mret tt.

(** A name that is bound neither in the function nor in its module. *)
Definition unbound_name {A : Type} (name : string) : py A := Raise (NameError name).

(** A float computed by the program, and a dict literal. *)
Definition num (q : Q) : value := VNum (Qred q).

Definition mkdict (entries : list (string * value)) : value :=
  VDict (list_to_map entries).

End Py.
Export Py.

(** ** The options chain

    [get_options_chain] returns a data frame with one row per contract;
    only the columns read by the engine are kept. *)

Record quote : Type := {
  strike : Q;
  optionType : string;
  expiration : string;
  lastPrice : Q
}.

(** What the market-data collaborator answers during one call of a
    method: the frame of [get_options_chain(symbol, num_expiries=1)]
    ([None] for the empty frame without columns that is returned when
    there is no data), the expiry dates of
    [get_options_chain(symbol, num_expiries=12)] with their number of
    days to expiry, and the clock. *)
Record market : Type := {
  options_df : option (list quote);
  expiry_dates : list (string * Z);
  now : string
}.

(** The rows of the frame, and the rows once the column [name] has been
    read: a frame without columns raises. *)
Definition rows (m : market) : list quote :=
  match options_df m with
  | Some rs => rs
  | None => []
  end.

Definition column (m : market) (name : string) : py (list quote) :=
  match options_df m with
  | Some rs => Ret rs
  | None => Raise (KeyError name)
  end.

(** ** options_strategies.py *)

Module OptionsStrategy.

(** [get_expiry_dates(min_days=30, max_days=60)] *)
Definition get_expiry_dates (m : market) : list string :=
  (List.filter (fun d => (30 <=? d.2)%Z && (d.2 <=? 60)%Z) (expiry_dates m)).*1.

Fixpoint unique (l : list Q) : list Q :=
  match l with
  | [] => []
  | x :: l' => x :: List.filter (fun y => negb (Qeq_bool x y)) (unique l')
  end.

Fixpoint insert_sorted (x : Q) (l : list Q) : list Q :=
  match l with
  | [] => [x]
  | y :: l' => if Qle_bool x y then x :: l else y :: insert_sorted x l'
  end.

Definition sorted (l : list Q) : list Q := foldr insert_sorted [] l.

(** [options_df['strike'] >= bound] and [options_df['strike'] <= bound],
    row by row, for a bound that is a float. *)
Definition strike_ge (r : quote) (bound : value) : bool :=
  match bound with
  | VNum b => Qle_bool b (strike r)
  | _ => false
  end.
Definition strike_le (r : quote) (bound : value) : bool :=
  match bound with
  | VNum b => Qle_bool (strike r) b
  | _ => false
  end.

(** [find_strike_prices(current_price, width_percentage)] *)
Definition find_strike_prices (m : market) (current_price : value)
    (width_percentage : Q) : py (list Q) :=
  lower_bound ← v_mul current_price (num (1 - width_percentage)%Q);
  upper_bound ← v_mul current_price (num (1 + width_percentage)%Q);
  options_df ← column m "strike";
  let valid_strikes :=
    List.filter (fun r => strike_ge r lower_bound && strike_le r upper_bound)
                options_df in
  mret (sorted (unique (strike <$> valid_strikes))).

(** [options_df[(options_df['strike'] == k) & (options_df['optionType'] == ty)].iloc[0]] *)
Definition select_row (df : list quote) (k : Q) (ty : string) : py quote :=
  match List.filter (fun r => Qeq_bool (strike r) k && String.eqb (optionType r) ty) df with
  | r :: _ => Ret r
  | [] => Raise IndexError
  end.

(** [options_df[options_df['expiration'] == expiry_date]] *)
Definition at_expiry (m : market) (expiry_date : string) : py (list quote) :=
  options_df ← column m "expiration";
  mret (List.filter (fun r => String.eqb (expiration r) expiry_date) options_df).

Definition option_leg (ty : string) (k premium : Q) : value :=
  mkdict [("type", VStr ty); ("strike", num k); ("premium", num premium)].

Definition strike_premium (k premium : Q) : value :=
  mkdict [("strike", num k); ("premium", num premium)].

(** [create_vertical_spread(spread_type, expiry_date, current_price, width=0.05)];
    the result is [None] or the dict describing the spread. *)
Definition create_vertical_spread (m : market) (spread_type : string)
    (expiry_date : string) (current_price : value) (width : Q) : py value :=
  options_df ← at_expiry m expiry_date;
  strikes ← find_strike_prices m current_price width;
  if (length strikes <? 2)%nat then mret VNone else
  if String.eqb spread_type "bull_call" then
    let long_strike := hd 0%Q strikes in
    let short_strike := List.last strikes 0%Q in
    long_call ← select_row options_df long_strike "CALL";
    short_call ← select_row options_df short_strike "CALL";
    let max_loss := ((lastPrice long_call - lastPrice short_call) * 100)%Q in
    let max_profit := ((short_strike - long_strike - max_loss / 100) * 100)%Q in
    mret (mkdict [
      ("strategy", VStr "bull_call_spread");
      ("long_option", option_leg "CALL" long_strike (lastPrice long_call));
      ("short_option", option_leg "CALL" short_strike (lastPrice short_call));
      ("expiry", VStr expiry_date);
      ("max_loss", num max_loss);
      ("max_profit", num max_profit);
      ("break_even", num (long_strike + max_loss / 100))])
  else if String.eqb spread_type "bear_put" then
    let long_strike := List.last strikes 0%Q in
    let short_strike := hd 0%Q strikes in
    long_put ← select_row options_df long_strike "PUT";
    short_put ← select_row options_df short_strike "PUT";
    let max_loss := ((lastPrice long_put - lastPrice short_put) * 100)%Q in
    let max_profit := ((long_strike - short_strike - max_loss / 100) * 100)%Q in
    mret (mkdict [
      ("strategy", VStr "bear_put_spread");
      ("long_option", option_leg "PUT" long_strike (lastPrice long_put));
      ("short_option", option_leg "PUT" short_strike (lastPrice short_put));
      ("expiry", VStr expiry_date);
      ("max_loss", num max_loss);
      ("max_profit", num max_profit);
      ("break_even", num (long_strike - max_loss / 100))])
  else mret VNone.

(** [create_iron_condor(expiry_date, current_price, width=0.05)] *)
Definition create_iron_condor (m : market) (expiry_date : string)
    (current_price : value) (width : Q) : py value :=
  options_df ← at_expiry m expiry_date;
  strikes ← find_strike_prices m current_price width;
  if (length strikes <? 4)%nat then mret VNone else
  let put_strikes := take 2 strikes in
  let call_strikes := drop (length strikes - 2) strikes in
  let put0 := nth 0 put_strikes 0%Q in
  let put1 := nth 1 put_strikes 0%Q in
  let call0 := nth 0 call_strikes 0%Q in
  let call1 := nth 1 call_strikes 0%Q in
  long_put ← select_row options_df put0 "PUT";
  short_put ← select_row options_df put1 "PUT";
  short_call ← select_row options_df call0 "CALL";
  long_call ← select_row options_df call1 "CALL";
  let net_credit := (lastPrice short_put + lastPrice short_call
                     - lastPrice long_put - lastPrice long_call)%Q in
  let max_profit := (net_credit * 100)%Q in
  let max_loss := (Qmin (call1 - call0) (put1 - put0) * 100 - max_profit)%Q in
  mret (mkdict [
    ("strategy", VStr "iron_condor");
    ("put_spread", mkdict [
       ("long", strike_premium put0 (lastPrice long_put));
       ("short", strike_premium put1 (lastPrice short_put))]);
    ("call_spread", mkdict [
       ("short", strike_premium call0 (lastPrice short_call));
       ("long", strike_premium call1 (lastPrice long_call))]);
    ("expiry", VStr expiry_date);
    ("max_loss", num max_loss);
    ("max_profit", num max_profit);
    ("break_even_lower", num (put1 - net_credit));
    ("break_even_upper", num (call0 + net_credit))]).

(** [create_butterfly(expiry_date, current_price, width=0.05)] *)
Definition create_butterfly (m : market) (expiry_date : string)
    (current_price : value) (width : Q) : py value :=
  options_df ← at_expiry m expiry_date;
  strikes ← find_strike_prices m current_price width;
  if (length strikes <? 3)%nat then mret VNone else
  let lower_strike := hd 0%Q strikes in
  let middle_strike := nth (length strikes / 2) strikes 0%Q in
  let upper_strike := List.last strikes 0%Q in
  lower_call ← select_row options_df lower_strike "CALL";
  middle_call ← select_row options_df middle_strike "CALL";
  upper_call ← select_row options_df upper_strike "CALL";
  let net_debit := (lastPrice lower_call - 2 * lastPrice middle_call
                    + lastPrice upper_call)%Q in
  let max_loss := (net_debit * 100)%Q in
  let max_profit := ((middle_strike - lower_strike) * 100 - max_loss)%Q in
  mret (mkdict [
    ("strategy", VStr "butterfly");
    ("lower_call", strike_premium lower_strike (lastPrice lower_call));
    ("middle_calls", strike_premium middle_strike (lastPrice middle_call));
    ("upper_call", strike_premium upper_strike (lastPrice upper_call));
    ("expiry", VStr expiry_date);
    ("max_loss", num max_loss);
    ("max_profit", num max_profit);
    ("break_even_lower", num (lower_strike + net_debit));
    ("break_even_upper", num (upper_strike - net_debit))]).

(** The key of [max] in [select_best_strategy]:
    [abs(x['max_profit']/x['max_loss']) if x['max_loss'] != 0 else 0] *)
Definition risk_reward (x : value) : py Q :=
  max_loss ← getitem x "max_loss";
  if v_eq_num max_loss 0 then mret 0%Q else
  max_profit ← getitem x "max_profit";
  ratio ← v_div max_profit max_loss;
  r ← as_float ratio;
  mret (match r with Some q => Qabs q | None => 0%Q end).

(** [max(strategies, key=...)] on a non-empty list: the first maximal
    element, the key being evaluated on every element. *)
Fixpoint max_by_key (best : value) (best_key : Q) (rest : list value) : py value :=
  match rest with
  | [] => mret best
  | x :: rest' =>
      k ← risk_reward x;
      if Qlt_bool best_key k then max_by_key x k rest'
      else max_by_key best best_key rest'
  end.

Definition best_strategy (strategies : list value) : py value :=
  match strategies with
  | [] => mret VNone
  | x :: rest => k ← risk_reward x; max_by_key x k rest
  end.

(** [if strategy: strategies.append(strategy)] on an empty list. *)
Definition appended (strategy : value) : list value :=
  if truthy strategy then [strategy] else [].

(** [select_best_strategy(current_price, technicals, options_flow)] *)
Definition select_best_strategy (m : market)
    (current_price technicals options_flow : value) : py value :=
  match get_expiry_dates m with
  | [] => mret VNone
  | expiry_date :: _ =>
    is_trending ←
      p_or (p_or (item_truth technicals "uptrend")
                 (item_truth technicals "near_support"))
           (item_truth technicals "near_resistance");
    is_volatile ←
      p_or (rsi ← getitem technicals "rsi"; v_gt rsi (num 70))
           (rsi ← getitem technicals "rsi"; v_lt rsi (num 30));
    is_bullish ←
      p_and (p_and (item_truth technicals "uptrend")
                   (item_truth technicals "near_support"))
            (item_truth options_flow "bullish_flow");
    is_bearish ←
      p_and (p_and (p_not (item_truth technicals "uptrend"))
                   (item_truth technicals "near_resistance"))
            (p_not (item_truth options_flow "bullish_flow"));
    strategies ←
      (if is_bullish && negb is_volatile then
         strategy ← create_vertical_spread m "bull_call" expiry_date current_price 0.05;
         mret (appended strategy)
       else if is_bearish && negb is_volatile then
         strategy ← create_vertical_spread m "bear_put" expiry_date current_price 0.05;
         mret (appended strategy)
       else if is_volatile then
         strategy ← create_butterfly m expiry_date current_price 0.05;
         mret (appended strategy)
       else if negb is_trending then
         strategy ← create_iron_condor m expiry_date current_price 0.05;
         mret (appended strategy)
       else mret []);
    best_strategy strategies
  end.

(** [d[k1][k2]] and [d[k1][k2][k3]] *)
Definition getitem2 (d : value) (k1 k2 : string) : py value :=
  x ← getitem d k1; getitem x k2.
Definition getitem3 (d : value) (k1 k2 k3 : string) : py value :=
  x ← getitem2 d k1 k2; getitem x k3.

(** [execute_strategy(strategy_details)] of the strategy of [symbol] *)
Definition execute_strategy (m : market) (symbol : string)
    (strategy_details : value) : py value :=
  if negb (truthy strategy_details) then mret VNone else
  strategy ← getitem strategy_details "strategy";
  expiry ← getitem strategy_details "expiry";
  max_loss ← getitem strategy_details "max_loss";
  max_profit ← getitem strategy_details "max_profit";
  let trade (legs : list value) := mkdict [
    ("symbol", VStr symbol);
    ("type", VStr "options_strategy");
    ("strategy_type", strategy);
    ("entry_date", VStr (now m));
    ("expiry", expiry);
    ("max_loss", max_loss);
    ("max_profit", max_profit);
    ("status", VStr "open");
    ("legs", VList legs)] in
  strategy ← getitem strategy_details "strategy";
  if is_str strategy "bull_call_spread" || is_str strategy "bear_put_spread" then
    ty1 ← getitem2 strategy_details "long_option" "type";
    k1 ← getitem2 strategy_details "long_option" "strike";
    p1 ← getitem2 strategy_details "long_option" "premium";
    ty2 ← getitem2 strategy_details "short_option" "type";
    k2 ← getitem2 strategy_details "short_option" "strike";
    p2 ← getitem2 strategy_details "short_option" "premium";
    mret (trade [
      mkdict [("type", ty1); ("action", VStr "buy"); ("strike", k1); ("premium", p1)];
      mkdict [("type", ty2); ("action", VStr "sell"); ("strike", k2); ("premium", p2)]])
  else
  strategy ← getitem strategy_details "strategy";
  if is_str strategy "iron_condor" then
    k1 ← getitem3 strategy_details "put_spread" "long" "strike";
    p1 ← getitem3 strategy_details "put_spread" "long" "premium";
    k2 ← getitem3 strategy_details "put_spread" "short" "strike";
    p2 ← getitem3 strategy_details "put_spread" "short" "premium";
    k3 ← getitem3 strategy_details "call_spread" "short" "strike";
    p3 ← getitem3 strategy_details "call_spread" "short" "premium";
    k4 ← getitem3 strategy_details "call_spread" "long" "strike";
    p4 ← getitem3 strategy_details "call_spread" "long" "premium";
    mret (trade [
      mkdict [("type", VStr "PUT"); ("action", VStr "buy"); ("strike", k1); ("premium", p1)];
      mkdict [("type", VStr "PUT"); ("action", VStr "sell"); ("strike", k2); ("premium", p2)];
      mkdict [("type", VStr "CALL"); ("action", VStr "sell"); ("strike", k3); ("premium", p3)];
      mkdict [("type", VStr "CALL"); ("action", VStr "buy"); ("strike", k4); ("premium", p4)]])
  else
  strategy ← getitem strategy_details "strategy";
  if is_str strategy "butterfly" then
    k1 ← getitem2 strategy_details "lower_call" "strike";
    p1 ← getitem2 strategy_details "lower_call" "premium";
    k2 ← getitem2 strategy_details "middle_calls" "strike";
    p2 ← getitem2 strategy_details "middle_calls" "premium";
    k3 ← getitem2 strategy_details "upper_call" "strike";
    p3 ← getitem2 strategy_details "upper_call" "premium";
    mret (trade [
      mkdict [("type", VStr "CALL"); ("action", VStr "buy"); ("strike", k1); ("premium", p1)];
      mkdict [("type", VStr "CALL"); ("action", VStr "sell"); ("strike", k2); ("premium", p2);
              ("quantity", num 2)];
      mkdict [("type", VStr "CALL"); ("action", VStr "buy"); ("strike", k3); ("premium", p3)]])
  else mret (trade []).

End OptionsStrategy.

(** ** modules/trading_strategy.py *)

Module TradingStrategy.

(** *** Price history

    A pandas [Series] is a list of cells, a [DataFrame] an index with
    named columns.  The rolling-window computations of
    [modules/technical_analysis.py] are left abstract: what is proved
    about [get_technical_signals] holds whatever they compute, and
    whether or not they raise. *)

Definition series := list value.

Record DataFrame : Type := {
  index_length : nat;
  columns : gmap string series
}.

Record indicators : Type := {
  calculate_rsi : series -> py series;
  calculate_sma : series -> nat -> py series;
  rolling_max : nat -> series -> py series;
  rolling_min : nat -> series -> py series
}.

(** [df[col]] *)
Definition df_getitem (df : DataFrame) (col : string) : py series :=
  match columns df !! col with
  | Some s => Ret s
  | None => Raise (KeyError col)
  end.

(** [df[col] = s] *)
Definition df_setitem (df : DataFrame) (col : string) (s : series) : DataFrame :=
  {| index_length := index_length df; columns := <[col := s]> (columns df) |}.

(** [df.empty] and [len(df)] *)
Definition df_empty (df : DataFrame) : bool :=
  (index_length df =? 0)%nat
  || match map_to_list (columns df) with [] => true | _ => false end.
Definition df_len (df : DataFrame) : nat := index_length df.

Definition is_nan (v : value) : bool :=
  match v with
  | VNaN => true
  | _ => false
  end.

(** [s.isna().all()], [s.empty] and [s.iloc[-1]] *)
Definition isna_all (s : series) : bool := forallb is_nan s.
Definition series_empty (s : series) : bool :=
  match s with [] => true | _ => false end.
Definition iloc_last (s : series) : py value :=
  match last s with
  | Some v => Ret v
  | None => Raise IndexError
  end.

(** [calculate_support_resistance(df, window=20)] *)
Definition calculate_support_resistance (ind : indicators) (df : DataFrame)
    : py (series * series) :=
  highs ← (high ← df_getitem df "High"; rolling_max ind 20 high);
  lows ← (low ← df_getitem df "Low"; rolling_min ind 20 low);
  mret (lows, highs).

(** The snapshot returned by the guard clause and by the exception
    handler of [get_technical_signals]. *)
Definition null_snapshot : value :=
  mkdict [
    ("price", VNone);
    ("rsi", VNone);
    ("oversold", VBool false);
    ("overbought", VBool false);
    ("uptrend", VBool false);
    ("support", VNone);
    ("resistance", VNone);
    ("near_support", VBool false);
    ("near_resistance", VBool false);
    ("sma_20", VNone);
    ("sma_50", VNone)].

(** [s.iloc[-1] if not s.empty else None] *)
Definition last_or_none (s : py series) : py value :=
  c ← s;
  if negb (series_empty c) then c' ← s; iloc_last c' else mret VNone.

(** The [try] block of [get_technical_signals]; [history] is what
    [get_historical_data(self.symbol)] answers. *)
Definition technical_signals_try (ind : indicators)
    (history : py (option DataFrame)) : py value :=
  df ← history;
  match df with
  | None => mret null_snapshot
  | Some df =>
    if df_empty df || (df_len df <? 50)%nat then mret null_snapshot else
    rsi ← (close ← df_getitem df "Close"; calculate_rsi ind close);
    let df := df_setitem df "RSI" rsi in
    rsi ← df_getitem df "RSI";
    if isna_all rsi then Raise (ValueError "RSI calculation failed") else
    sma ← (close ← df_getitem df "Close"; calculate_sma ind close 20);
    let df := df_setitem df "SMA_20" sma in
    sma ← (close ← df_getitem df "Close"; calculate_sma ind close 50);
    let df := df_setitem df "SMA_50" sma in
    sma_failed ←
      p_or (s ← df_getitem df "SMA_20"; mret (isna_all s))
           (s ← df_getitem df "SMA_50"; mret (isna_all s));
    if (sma_failed : bool) then Raise (ValueError "SMA calculation failed") else
    '(support, resistance) ← calculate_support_resistance ind df;
    if series_empty support || series_empty resistance
    then Raise (ValueError "Support/Resistance calculation failed") else
    current_price ← last_or_none (df_getitem df "Close");
    current_rsi ← last_or_none (df_getitem df "RSI");
    sma_20 ← last_or_none (df_getitem df "SMA_20");
    sma_50 ← last_or_none (df_getitem df "SMA_50");
    current_macd ← (s ← df_getitem df "MACD"; iloc_last s);
    current_signal ← (s ← df_getitem df "MACD_signal"; iloc_last s);
    current_upper ← (s ← df_getitem df "Bollinger_Upper"; iloc_last s);
    current_lower ← (s ← df_getitem df "Bollinger_Lower"; iloc_last s);
    current_atr ← (s ← df_getitem df "ATR"; iloc_last s);
    if existsb is_none [current_price; current_rsi; sma_20; sma_50]
    then Raise (ValueError "Failed to get current indicator values") else
    (* signals = { ... }, the entries in source order *)
    oversold ← v_lt current_rsi (num 30);
    overbought ← v_gt current_rsi (num 70);
    uptrend ← v_gt sma_20 sma_50;
    support_last ← last_or_none (mret support);
    resistance_last ← last_or_none (mret resistance);
    near_support ←
      (if negb (series_empty support)
       then s ← iloc_last support; b ← v_mul s (num 1.02); v_le current_price b
       else mret false);
    near_resistance ←
      (if negb (series_empty resistance)
       then r ← iloc_last resistance; b ← v_mul r (num 0.98); v_ge current_price b
       else mret false);
    macd_bullish ← v_gt current_macd current_signal;
    bollinger_width ←
      (rolling_mean ← unbound_name "rolling_mean";
       middle ← iloc_last rolling_mean;
       if negb (v_eq_num middle 0)
       then d ← v_sub current_upper current_lower;
            rolling_mean ← unbound_name "rolling_mean";
            middle ← iloc_last rolling_mean;
            v_div d middle
       else mret (num 0));
    below_bollinger ← v_lt current_price current_lower;
    above_bollinger ← v_gt current_price current_upper;
    atr_percent ←
      (if negb (v_eq_num current_price 0)
       then r ← v_div current_atr current_price; v_mul r (num 100)
       else mret (num 0));
    let signals := mkdict [
      ("price", current_price);
      ("rsi", current_rsi);
      ("oversold", VBool oversold);
      ("overbought", VBool overbought);
      ("uptrend", VBool uptrend);
      ("support", support_last);
      ("resistance", resistance_last);
      ("near_support", VBool near_support);
      ("near_resistance", VBool near_resistance);
      ("sma_20", sma_20);
      ("sma_50", sma_50);
      ("macd", current_macd);
      ("macd_signal_line", current_signal);
      ("macd_bullish", VBool macd_bullish);
      ("bollinger_upper", current_upper);
      ("bollinger_lower", current_lower);
      ("bollinger_width", bollinger_width);
      ("below_bollinger", VBool below_bollinger);
      ("above_bollinger", VBool above_bollinger);
      ("atr", current_atr);
      ("atr_percent", atr_percent)] in
    (* the log record formats price, RSI, support and resistance *)
    _ ← format_2f current_price;
    _ ← format_2f current_rsi;
    _ ← format_2f support_last;
    _ ← format_2f resistance_last;
    mret signals
  end.

(** [get_technical_signals()] *)
Definition get_technical_signals (ind : indicators)
    (history : py (option DataFrame)) : value :=
  match technical_signals_try ind history with
  | Ret signals => signals
  | Raise _ => null_snapshot
  end.

(** *** The strategy object *)

(** The attribute [ml_model] of a strategy: never assigned, assigned
    [None], or a model whose [predict_proba([features])[0][1]] is the
    given function. *)
Inductive ml_attribute : Type :=
| NoAttribute
| MlNone
| Model (predict_proba : list value -> py value).

Record strategy : Type := {
  symbol : string;
  initial_capital : Q;
  current_capital : Q;
  max_loss_pct : Q;
  ml_model : ml_attribute
}.

(** [TradingStrategy(symbol, initial_capital)] *)
Definition init (symbol : string) (initial_capital : Q) : strategy :=
  {| symbol := symbol;
     initial_capital := initial_capital;
     current_capital := initial_capital;
     max_loss_pct := 0.20;
     ml_model := NoAttribute |}.

(** What the collaborators of one strategy answer during one method
    call: the price history, [self.get_options_signals()],
    [self.get_analyst_signals()] and the options market. *)
Record feed : Type := {
  history : py (option DataFrame);
  options_signals : py value;
  analyst_signals : py value;
  mkt : market
}.

(** [hasattr(self, 'ml_model') and self.ml_model] *)
Definition has_model (self : strategy) : bool :=
  match ml_model self with
  | Model _ => true
  | _ => false
  end.

(** [self.ml_model.predict_proba([features])[0][1]]; the attribute is
    looked up before the argument is evaluated. *)
Definition predict (self : strategy) (features : option (list value)) : py value :=
  match ml_model self with
  | NoAttribute => Raise (AttributeError "ml_model")
  | MlNone => Raise (AttributeError "predict_proba")
  | Model predict_proba =>
      match features with
      | Some fs => predict_proba fs
      | None => unbound_name "features"
      end
  end.

(** The [try] block of [should_enter_trade], from the snapshot
    [tech_signals] that [self.get_technical_signals()] returned. *)
Definition should_enter_trade_try (self : strategy) (tech_signals : value)
    (f : feed) : py value :=
  price ← getitem tech_signals "price";
  if is_none price then mret VNone else
  options_signals ← options_signals f;
  analyst_signals ← analyst_signals f;
  features ←
    (if has_model self then
       rsi ← getitem tech_signals "rsi";
       trend ← (a ← getitem tech_signals "sma_20";
                b ← getitem tech_signals "sma_50"; v_sub a b);
       hist ← (a ← getitem tech_signals "macd";
               b ← getitem tech_signals "macd_signal_line"; v_sub a b);
       pcr ← getitem options_signals "put_call_ratio";
       flow ← item_truth options_signals "bullish_flow";
       rating ← getitem analyst_signals "mean_rating";
       mret (Some [rsi; trend; hist; pcr; num (if (flow : bool) then 1 else 0); rating])
     else mret None);
  prob ← predict self features;
  _ ← format_2f prob;
  low ← v_lt prob (num 0.5);
  if (low : bool) then mret VNone else
  current_price ← getitem tech_signals "price";
  _ ← format_2f current_price;
  _ ← (rsi ← getitem tech_signals "rsi"; format_2f rsi);
  _ ← getitem tech_signals "uptrend";
  _ ← getitem options_signals "bullish_flow";
  _ ← getitem analyst_signals "recommendation";
  equity_conditions ←
    p_and (p_and (p_and
      (p_or (item_truth tech_signals "oversold")
            (rsi ← getitem tech_signals "rsi"; v_lt rsi (num 40)))
      (p_or (item_truth tech_signals "near_support")
            (s ← getitem tech_signals "support";
             b ← v_mul s (num 1.05); v_le current_price b)))
      (p_or (item_truth tech_signals "uptrend")
            (p ← getitem tech_signals "price";
             s ← dict_get tech_signals "sma_20" (num 0); v_gt p s)))
      (item_truth analyst_signals "bullish");
  options_conditions ←
    p_and (p_and (p_and (p_and
      (p_or (item_truth tech_signals "oversold")
            (rsi ← getitem tech_signals "rsi"; v_lt rsi (num 45)))
      (item_truth options_signals "bullish_flow"))
      (p_or (item_truth options_signals "strong_flow")
            (r ← getitem options_signals "put_call_ratio"; v_lt r (num 0.8))))
      (item_truth options_signals "high_activity"))
      (item_truth analyst_signals "bullish");
  if (equity_conditions : bool) then mret (VStr "equity")
  else if (options_conditions : bool) then mret (VStr "options")
  else mret VNone.

(** [should_enter_trade()] once the snapshot is known: every exception
    of the [try] block ends in [return None]. *)
Definition should_enter_trade_on (self : strategy) (tech_signals : value)
    (f : feed) : value :=
  match should_enter_trade_try self tech_signals f with
  | Ret trade_type => trade_type
  | Raise _ => VNone
  end.

(** [should_enter_trade()] *)
Definition should_enter_trade (ind : indicators) (self : strategy) (f : feed) : value :=
  should_enter_trade_on self (get_technical_signals ind (history f)) f.

(** The two assignments [trade['stop_loss'] = trade['max_loss'] * a] and
    [trade['take_profit'] = trade['max_profit'] * b]. *)
Definition set_risk_bands (trade : value) (a b : Q) : py value :=
  stop ← (x ← getitem trade "max_loss"; v_mul x (num a));
  trade ← setitem trade "stop_loss" stop;
  target ← (x ← getitem trade "max_profit"; v_mul x (num b));
  setitem trade "take_profit" target.

(** [execute_trade(trade_type)] from the snapshot [tech_signals] that
    [self.get_technical_signals()] returned; [trades] is the content of
    the trade store, and the result carries the store as it is left. *)
Definition execute_trade_on (self : strategy) (tech_signals : value) (f : feed)
    (trade_type : value) (trades : list value) : py (value * list value) :=
  current_price ← getitem tech_signals "price";
  let risk_amount := num (current_capital self * 0.02) in
  atr_available ←
    p_and (item_truth tech_signals "atr")
          (a ← getitem tech_signals "atr"; v_gt a (num 0));
  '(stop_loss_price, take_profit_price) ←
    (if (atr_available : bool) then
       stop ← (a ← getitem tech_signals "atr";
               x ← v_mul (num 1.5) a; v_sub current_price x);
       target ← (a ← getitem tech_signals "atr";
                 x ← v_mul (num 3.0) a; v_add current_price x);
       mret (stop, target)
     else
       stop ← v_mul current_price (num 0.95);
       target ← v_mul current_price (num 1.15);
       mret (stop, target));
  options ← options_signals f;
  analyst ← analyst_signals f;
  let signal_data := mkdict [
    ("technical", tech_signals);
    ("options", options);
    ("analyst", analyst);
    ("timestamp", VStr (now (mkt f)))] in
  if is_str trade_type "equity" then
    quantity ← (x ← v_div risk_amount current_price; v_int x);
    too_small ← v_lt quantity (num 1);
    if (too_small : bool) then mret (VNone, trades) else
    stop_loss ← unbound_name "stop_loss";
    take_profit ← unbound_name "take_profit";
    let trade := mkdict [
      ("symbol", VStr (symbol self));
      ("type", VStr "equity");
      ("action", VStr "buy");
      ("quantity", quantity);
      ("entry_price", current_price);
      ("stop_loss", stop_loss);
      ("take_profit", take_profit);
      ("status", VStr "open");
      ("entry_date", VStr (now (mkt f)));
      ("exit_date", VNone);
      ("exit_price", VNone);
      ("profit", VNone);
      ("signals", signal_data)] in
    mret (trade, trades ++ [trade])
  else if is_str trade_type "options" then
    options_signals ← options_signals f;
    strategy_details ←
      OptionsStrategy.select_best_strategy (mkt f) current_price
        tech_signals options_signals;
    if negb (truthy strategy_details) then mret (VNone, trades) else
    trade ← OptionsStrategy.execute_strategy (mkt f) (symbol self) strategy_details;
    trade ←
      (if truthy trade then
         trade ← setitem trade "signals" signal_data;
         bullish ← p_and (item_truth tech_signals "uptrend")
                         (item_truth options_signals "bullish_flow");
         if (bullish : bool) then set_risk_bands trade 1.0 0.7 else
         volatile ← p_and (item_truth tech_signals "bollinger_width")
                          (w ← getitem tech_signals "bollinger_width";
                           v_gt w (num 0.10));
         if (volatile : bool) then set_risk_bands trade 0.7 0.4
         else set_risk_bands trade 0.8 0.5
       else mret trade);
    if negb (truthy trade) then mret (VNone, trades) else
    trade ← setitem trade "signals" signal_data;
    trade ← set_risk_bands trade 0.8 0.5;
    mret (trade, trades ++ [trade])
  else
    (* neither branch binds [trade], which is then read *)
    unbound_name "trade".

(** [execute_trade(trade_type)] *)
Definition execute_trade (ind : indicators) (self : strategy) (f : feed)
    (trade_type : value) (trades : list value) : py (value * list value) :=
  execute_trade_on self (get_technical_signals ind (history f)) f trade_type trades.

(** *** Monitoring *)

(** The rows of the chain kept by
    [(options_df['strike'] == k) & (options_df['optionType'] == ty)
     & (options_df['expiration'] == e)] for three Python objects. *)
Definition matches (k ty e : value) (r : quote) : bool :=
  v_eq_num k (strike r)
  && is_str ty (optionType r)
  && is_str e (expiration r).

(** One turn of [for leg in trade['legs']], on the running
    [current_value]. *)
Definition revalue_leg (m : market) (trade leg current_value : value) : py value :=
  k ← getitem leg "strike";
  ty ← getitem leg "type";
  e ← getitem trade "expiration";
  match List.filter (matches k ty e) (rows m) with
  | [] => mret current_value
  | current_option :: _ =>
      quantity ← dict_get leg "quantity" (num 1);
      action ← getitem leg "action";
      amount ← v_mul (num (lastPrice current_option * 100)) quantity;
      if is_str action "buy" then v_sub current_value amount
      else v_add current_value amount
  end.

Fixpoint revalue (m : market) (trade : value) (legs : list value)
    (current_value : value) : py value :=
  match legs with
  | [] => mret current_value
  | leg :: legs' =>
      current_value ← revalue_leg m trade leg current_value;
      revalue m trade legs' current_value
  end.

(** One term of the sum [initial_value]. *)
Definition entry_value (leg : value) : py value :=
  quantity ← dict_get leg "quantity" (num 1);
  premium ← getitem leg "premium";
  x ← v_mul quantity premium;
  x ← v_mul x (num 100);
  action ← getitem leg "action";
  v_mul x (num (if is_str action "sell" then 1 else -1)).

Fixpoint initial_value (legs : list value) (acc : value) : py value :=
  match legs with
  | [] => mret acc
  | leg :: legs' =>
      x ← entry_value leg;
      acc ← v_add acc x;
      initial_value legs' acc
  end.

(** [for leg in trade['legs']] iterates a list. *)
Definition legs_of (trade : value) : py (list value) :=
  legs ← getitem trade "legs";
  match legs with
  | VList l => mret l
  | _ => Raise TypeError
  end.

(** [# Update trailing stop-loss if profit exceeds 10%] *)
Definition trail_stop_loss (current_price pnl_percent trade : value) : py value :=
  profitable ← v_gt pnl_percent (num 10);
  if (profitable : bool) then
    new_stop ← v_mul current_price (num 0.95);
    higher ← (s ← getitem trade "stop_loss"; v_gt new_stop s);
    if (higher : bool) then setitem trade "stop_loss" new_stop else mret trade
  else mret trade.

(** [# Exit conditions: hit stop-loss or take-profit or max loss threshold] *)
Definition exit_equity (self : strategy) (m : market)
    (current_price entry pnl_percent trade : value) : py value :=
  exit ←
    p_or (p_or (s ← getitem trade "stop_loss"; v_le current_price s)
               (t ← getitem trade "take_profit"; v_ge current_price t))
         (v_le pnl_percent (num (- (max_loss_pct self * 100))));
  if (exit : bool) then
    trade ← setitem trade "status" (VStr "closed");
    trade ← setitem trade "exit_date" (VStr (now m));
    trade ← setitem trade "exit_price" current_price;
    profit ← (d ← v_sub current_price entry;
              q ← getitem trade "quantity"; v_mul d q);
    setitem trade "profit" profit
  else mret trade.

(** The equity branch of the loop of [monitor_positions]. *)
Definition monitor_equity (self : strategy) (tech_signals : value) (m : market)
    (trade : value) : py value :=
  current_price ← getitem tech_signals "price";
  entry ← getitem trade "entry_price";
  pnl_percent ← (d ← v_sub current_price entry;
                 r ← v_div d entry; v_mul r (num 100));
  trade ← trail_stop_loss current_price pnl_percent trade;
  exit_equity self m current_price entry pnl_percent trade.

(** [# Calculate current value of the strategy] and
    [# Calculate unrealized P&L] *)
Definition unrealized_pnl (m : market) (trade : value) : py value :=
  legs ← legs_of trade;
  current_value ← revalue m trade legs (num 0);
  legs ← legs_of trade;
  initial_value ← initial_value legs (num 0);
  v_sub current_value initial_value.

(** [# Check exit conditions] of an options position *)
Definition exit_options (m : market) (unrealized_pnl trade : value) : py value :=
  exit ←
    p_or (s ← getitem trade "stop_loss"; b ← v_neg s; v_le unrealized_pnl b)
         (t ← getitem trade "take_profit"; v_ge unrealized_pnl t);
  if (exit : bool) then
    trade ← setitem trade "status" (VStr "closed");
    trade ← setitem trade "exit_date" (VStr (now m));
    setitem trade "profit" unrealized_pnl
  else mret trade.

(** The options branch of the loop of [monitor_positions]. *)
Definition monitor_options (m : market) (trade : value) : py value :=
  match rows m with
  | [] => mret trade
  | _ =>
    unrealized_pnl ← unrealized_pnl m trade;
    exit_options m unrealized_pnl trade
  end.

(** The body of [for trade in trades] in [monitor_positions], up to
    [updated_trades.append(trade)]; line 343 is read at the indentation
    of its [elif]. *)
Definition monitor_trade (self : strategy) (tech_signals : value) (m : market)
    (trade : value) : py value :=
  status ← getitem trade "status";
  if is_str status "open" then
    current_price ← getitem tech_signals "price";
    status ← getitem trade "status";
    is_equity ←
      (if is_str status "open"
       then ty ← getitem trade "type"; mret (is_str ty "equity")
       else mret false);
    if (is_equity : bool) then monitor_equity self tech_signals m trade
    else
      ty ← getitem trade "type";
      if is_str ty "options" then monitor_options m trade
      else mret trade
  else mret trade.

Fixpoint monitor_loop (self : strategy) (tech_signals : value) (m : market)
    (trades : list value) : py (list value) :=
  match trades with
  | [] => mret []
  | trade :: trades' =>
      trade ← monitor_trade self tech_signals m trade;
      updated_trades ← monitor_loop self tech_signals m trades';
      mret (trade :: updated_trades)
  end.

(** [monitor_positions()] from the snapshot [tech_signals]: the list
    that is saved to the store and returned. *)
Definition monitor_positions_on (self : strategy) (tech_signals : value)
    (m : market) (trades : list value) : py (list value) :=
  monitor_loop self tech_signals m trades.

(** [monitor_positions()] *)
Definition monitor_positions (ind : indicators) (self : strategy) (f : feed)
    (trades : list value) : py (list value) :=
  monitor_positions_on self (get_technical_signals ind (history f)) (mkt f) trades.

(** *** The class as the portfolio manager sees it

    [PortfolioManager] calls its strategies by attribute name.  [methods]
    lists the attributes it reads: three that it expects to be total, and
    two that a class may or may not define. *)
Record methods : Type := {
  m_get_technical_signals : strategy -> feed -> value;
  m_should_enter_trade : strategy -> feed -> py value;
  m_execute_trade :
    strategy -> feed -> value -> list value -> py (value * list value);
  m_monitor_position : option (strategy -> feed -> value -> py value);
  m_calculate_options_pnl : option (strategy -> feed -> value -> py value)
}.

(** The class [TradingStrategy] of the source: it defines
    [monitor_positions] but neither [monitor_position] nor
    [calculate_options_pnl]. *)
Definition class (ind : indicators) : methods := {|
  m_get_technical_signals := fun self f => get_technical_signals ind (history f);
  m_should_enter_trade := fun self f => Ret (should_enter_trade ind self f);
  m_execute_trade := execute_trade ind;
  m_monitor_position := None;
  m_calculate_options_pnl := None
|}.

(** [obj.name(x)] for an attribute that may be missing. *)
Definition call_attr {A B : Type} (name : string) (attr : option (A -> py B))
    (x : A) : py B :=
  match attr with
  | Some method => method x
  | None => Raise (AttributeError name)
  end.

End TradingStrategy.

(** ** modules/portfolio_manager.py *)

Module PortfolioManager.

Import TradingStrategy.

Record manager : Type := {
  initial_capital : Q;
  available_capital : value;
  max_position_size : value;
  trading_strategies : list (string * strategy)
}.

(** The manager object together with the trade store on disk. *)
Record state : Type := {
  self : manager;
  store : list value
}.

(** What the collaborators answer for each symbol during one call. *)
Definition world := string -> feed.

(** [PortfolioManager(initial_capital)], the strategies being created
    for [symbols] with the attached [model]. *)
Definition init (initial_capital : Q) (symbols : list string)
    (model : ml_attribute) : manager :=
  let max_position_size := (initial_capital * 0.02)%Q in
  {| initial_capital := initial_capital;
     available_capital := num initial_capital;
     max_position_size := num max_position_size;
     trading_strategies :=
       (fun symbol =>
          (symbol,
           {| symbol := symbol;
              TradingStrategy.initial_capital := Qred max_position_size;
              current_capital := Qred max_position_size;
              max_loss_pct := 0.20;
              ml_model := model |})) <$> symbols |}.

Definition set_available (g : manager) (a : value) : manager :=
  {| initial_capital := initial_capital g;
     available_capital := a;
     max_position_size := max_position_size g;
     trading_strategies := trading_strategies g |}.

Definition set_max_position_size (g : manager) (x : value) : manager :=
  {| initial_capital := initial_capital g;
     available_capital := available_capital g;
     max_position_size := x;
     trading_strategies := trading_strategies g |}.

(** The strategy filed under [symbol], if any. *)
Fixpoint strategy_of (strategies : list (string * strategy)) (symbol : value)
    : option strategy :=
  match strategies with
  | [] => None
  | (name, strategy) :: rest =>
      if is_str symbol name then Some strategy else strategy_of rest symbol
  end.

(** [self.trading_strategies.get(symbol)]: a list or a dict is not
    hashable and cannot be looked up. *)
Definition get_strategy (strategies : list (string * strategy)) (symbol : value)
    : py (option strategy) :=
  match symbol with
  | VList _ | VDict _ => Raise TypeError
  | _ => Ret (strategy_of strategies symbol)
  end.

(** [[t for t in trades if t['status'] == status]] *)
Fixpoint with_status (status : string) (trades : list value) : py (list value) :=
  match trades with
  | [] => mret []
  | t :: trades' =>
      s ← getitem t "status";
      rest ← with_status status trades';
      mret (if is_str s status then t :: rest else rest)
  end.

(** [sum(t['profit'] for t in closed_trades if t['profit'] is not None)] *)
Fixpoint sum_profit (closed_trades : list value) (acc : value) : py value :=
  match closed_trades with
  | [] => mret acc
  | t :: rest =>
      p ← getitem t "profit";
      if is_none p then sum_profit rest acc
      else p ← getitem t "profit"; acc ← v_add acc p; sum_profit rest acc
  end.

(** [len([t for t in closed_trades if t.get('profit', 0) > 0])] *)
Fixpoint count_winning (closed_trades : list value) : py nat :=
  match closed_trades with
  | [] => mret 0%nat
  | t :: rest =>
      won ← (p ← dict_get t "profit" (num 0); v_gt p (num 0));
      n ← count_winning rest;
      mret (if (won : bool) then S n else n)
  end.

(** The loop of [get_portfolio_stats] over the open trades. *)
Fixpoint unrealized (cls : methods) (w : world) (g : manager)
    (open_trades : list value) (unrealized_pnl : value) : py value :=
  match open_trades with
  | [] => mret unrealized_pnl
  | trade :: rest =>
      strategy ← (symbol ← getitem trade "symbol";
                  get_strategy (trading_strategies g) symbol);
      match strategy with
      | None => unrealized cls w g rest unrealized_pnl
      | Some strategy =>
          ty ← getitem trade "type";
          pnl ←
            (if is_str ty "equity" then
               current_price ←
                 getitem (m_get_technical_signals cls strategy
                            (w (TradingStrategy.symbol strategy))) "price";
               d ← (e ← getitem trade "entry_price"; v_sub current_price e);
               x ← (q ← getitem trade "quantity"; v_mul d q);
               v_add unrealized_pnl x
             else
               x ← call_attr "calculate_options_pnl"
                     ((fun method => method strategy
                                       (w (TradingStrategy.symbol strategy)))
                        <$> m_calculate_options_pnl cls) trade;
               v_add unrealized_pnl x);
          unrealized cls w g rest pnl
      end
  end.

Definition of_nat (n : nat) : value := num (inject_Z (Z.of_nat n)).

(** [get_portfolio_stats()] *)
Definition get_portfolio_stats (cls : methods) (w : world) (st : state) : py value :=
  let g := self st in
  let trades := store st in
  match trades with
  | [] =>
      mret (mkdict [
        ("total_trades", num 0);
        ("win_rate", num 0);
        ("total_profit", num 0);
        ("max_drawdown", num 0);
        ("current_capital", num (initial_capital g));
        ("available_capital", available_capital g)])
  | _ =>
      closed_trades ← with_status "closed" trades;
      open_trades ← with_status "open" trades;
      total_profit ← sum_profit closed_trades (num 0);
      winning_trades ← count_winning closed_trades;
      unrealized_pnl ← unrealized cls w g open_trades (num 0);
      win_rate ←
        match closed_trades with
        | [] => mret (num 0)
        | _ => r ← v_div (of_nat winning_trades) (of_nat (length closed_trades));
               v_mul r (num 100)
        end;
      current_capital ←
        (x ← v_add (num (initial_capital g)) total_profit; v_add x unrealized_pnl);
      mret (mkdict [
        ("total_trades", of_nat (length trades));
        ("open_positions", of_nat (length open_trades));
        ("win_rate", win_rate);
        ("total_profit", total_profit);
        ("unrealized_pnl", unrealized_pnl);
        ("current_capital", current_capital);
        ("available_capital", available_capital g)])
  end.

(** [any(t for t in trades if t['symbol'] == symbol and t['status'] == 'open')];
    a trade that passes the filter is a non-empty dict, hence true. *)
Fixpoint holds_open (trades : list value) (symbol : string) : py bool :=
  match trades with
  | [] => mret false
  | t :: rest =>
      same ← (s ← getitem t "symbol"; mret (is_str s symbol));
      is_open ←
        (if (same : bool) then s ← getitem t "status"; mret (is_str s "open")
         else mret false);
      if (is_open : bool) then mret true else holds_open rest symbol
  end.

(** [trade['entry_price'] * trade.get('quantity', 1)
     if trade['type'] == 'equity' else trade['max_loss']] *)
Definition cost (trade : value) : py value :=
  ty ← getitem trade "type";
  if is_str ty "equity" then
    p ← getitem trade "entry_price";
    q ← dict_get trade "quantity" (num 1);
    v_mul p q
  else getitem trade "max_loss".

(** How one turn of the loop of [check_signals] ends. *)
Inductive flow : Type := Continue | Break.

(** The [try] block of one turn of the loop of [check_signals].  Effects
    on the manager and on the store stay when the block raises, so the
    state is returned beside the outcome. *)
Definition check_symbol (cls : methods) (w : world) (trades : list value)
    (symbol : string) (strategy : strategy) (st : state) (signals : list value)
    : py flow * (state * list value) :=
  match holds_open trades symbol with
  | Raise e => (Raise e, (st, signals))
  | Ret true => (Ret Continue, (st, signals))
  | Ret false =>
  match v_lt (available_capital (self st)) (max_position_size (self st)) with
  | Raise e => (Raise e, (st, signals))
  | Ret true => (Ret Break, (st, signals))
  | Ret false =>
  match m_should_enter_trade cls strategy (w symbol) with
  | Raise e => (Raise e, (st, signals))
  | Ret trade_type =>
  if negb (truthy trade_type) then (Ret Continue, (st, signals)) else
  match m_execute_trade cls strategy (w symbol) trade_type (store st) with
  | Raise e => (Raise e, (st, signals))
  | Ret (trade, saved) =>
  let st := {| self := self st; store := saved |} in
  if negb (truthy trade) then (Ret Continue, (st, signals)) else
  match (c ← cost trade; v_sub (available_capital (self st)) c) with
  | Raise e => (Raise e, (st, signals))
  | Ret available =>
      (Ret Continue,
       ({| self := set_available (self st) available; store := store st |},
        signals ++ [trade]))
  end end end end end.

(** [for symbol, strategy in self.trading_strategies.items()], every
    exception of a turn being logged and skipped. *)
Fixpoint check_loop (cls : methods) (w : world) (trades : list value)
    (strategies : list (string * strategy)) (st : state) (signals : list value)
    : state * list value :=
  match strategies with
  | [] => (st, signals)
  | (symbol, strategy) :: rest =>
      match check_symbol cls w trades symbol strategy st signals with
      | (Ret Break, (st, signals)) => (st, signals)
      | (_, (st, signals)) => check_loop cls w trades rest st signals
      end
  end.

(** [check_signals()]: the signals returned, or the exception of
    [get_portfolio_stats], and the state that is left. *)
Definition check_signals (cls : methods) (w : world) (st : state)
    : py (list value) * state :=
  match (stats ← get_portfolio_stats cls w st;
         c ← getitem stats "current_capital"; v_mul c (num 0.02)) with
  | Raise e => (Raise e, st)
  | Ret size =>
      let st := {| self := set_max_position_size (self st) size;
                   store := store st |} in
      let trades := store st in
      let '(st, signals) :=
        check_loop cls w trades (trading_strategies (self st)) st [] in
      (Ret signals, st)
  end.

(** The dict [portfolio_summary]. *)
Record summary : Type := {
  total_positions : nat;
  total_profit_loss : value;
  open_positions : list value;
  closed_positions : list value
}.

(** [updated_trade['exit_price'] * updated_trade['quantity']
     if updated_trade['type'] == 'equity' else updated_trade['profit']] *)
Definition released (updated_trade : value) : py value :=
  ty ← getitem updated_trade "type";
  if is_str ty "equity" then
    p ← getitem updated_trade "exit_price";
    q ← getitem updated_trade "quantity";
    v_mul p q
  else getitem updated_trade "profit".

(** One turn of the loop of [monitor_portfolio] on [trade]: the outcome
    and the manager, the summary and [updated_trades] as they are left. *)
Definition monitor_turn (cls : methods) (w : world) (trade : value)
    (g : manager) (sm : summary) (updated_trades : list value)
    : py unit * (manager * summary * list value) :=
  match (symbol ← getitem trade "symbol";
         get_strategy (trading_strategies g) symbol) with
  | Raise e => (Raise e, (g, sm, updated_trades))
  | Ret None => (Ret tt, (g, sm, updated_trades))
  | Ret (Some strategy) =>
  match getitem trade "status" with
  | Raise e => (Raise e, (g, sm, updated_trades))
  | Ret status =>
  if is_str status "open" then
    let sm := {| total_positions := S (total_positions sm);
                 total_profit_loss := total_profit_loss sm;
                 open_positions := open_positions sm;
                 closed_positions := closed_positions sm |} in
    match call_attr "monitor_position"
            ((fun method => method strategy (w (TradingStrategy.symbol strategy)))
               <$> m_monitor_position cls) trade with
    | Raise e => (Raise e, (g, sm, updated_trades))
    | Ret updated_trade =>
    match getitem updated_trade "status" with
    | Raise e => (Raise e, (g, sm, updated_trades))
    | Ret status =>
    if is_str status "closed" then
      match (r ← released updated_trade; v_add (available_capital g) r) with
      | Raise e => (Raise e, (g, sm, updated_trades))
      | Ret available =>
      let g := set_available g available in
      match (p ← getitem updated_trade "profit";
             v_add (total_profit_loss sm) p) with
      | Raise e => (Raise e, (g, sm, updated_trades))
      | Ret total =>
      let sm := {| total_positions := total_positions sm;
                   total_profit_loss := total;
                   open_positions := open_positions sm;
                   closed_positions := closed_positions sm ++ [updated_trade] |} in
      match (p ← getitem updated_trade "profit"; format_2f p) with
      | Raise e => (Raise e, (g, sm, updated_trades))
      | Ret _ => (Ret tt, (g, sm, updated_trades ++ [updated_trade]))
      end end end
    else
      let sm := {| total_positions := total_positions sm;
                   total_profit_loss := total_profit_loss sm;
                   open_positions := open_positions sm ++ [updated_trade];
                   closed_positions := closed_positions sm |} in
      (Ret tt, (g, sm, updated_trades ++ [updated_trade]))
    end end
  else
    let sm := {| total_positions := total_positions sm;
                 total_profit_loss := total_profit_loss sm;
                 open_positions := open_positions sm;
                 closed_positions := closed_positions sm ++ [trade] |} in
    match (p ← getitem trade "profit"; v_add (total_profit_loss sm) p) with
    | Raise e => (Raise e, (g, sm, updated_trades))
    | Ret total =>
        let sm := {| total_positions := total_positions sm;
                     total_profit_loss := total;
                     open_positions := open_positions sm;
                     closed_positions := closed_positions sm |} in
        (Ret tt, (g, sm, updated_trades ++ [trade]))
    end
  end end.

Fixpoint monitor_loop (cls : methods) (w : world) (trades : list value)
    (g : manager) (sm : summary) (updated_trades : list value)
    : py unit * (manager * summary * list value) :=
  match trades with
  | [] => (Ret tt, (g, sm, updated_trades))
  | trade :: rest =>
      match monitor_turn cls w trade g sm updated_trades with
      | (Ret _, (g, sm, updated_trades)) =>
          monitor_loop cls w rest g sm updated_trades
      | raised => raised
      end
  end.

(** [monitor_portfolio()]: the summary returned, or the exception that
    ends the call, and the state that is left.  The store is written
    only when the loop has ended without an exception. *)
Definition monitor_portfolio (cls : methods) (w : world) (st : state)
    : py summary * state :=
  let portfolio_summary :=
    {| total_positions := 0; total_profit_loss := num 0;
       open_positions := []; closed_positions := [] |} in
  match monitor_loop cls w (store st) (self st) portfolio_summary [] with
  | (Ret _, (g, sm, updated_trades)) =>
      (Ret sm, {| self := g; store := updated_trades |})
  | (Raise e, (g, _, _)) =>
      (Raise e, {| self := g; store := store st |})
  end.

End PortfolioManager.

(** * The collaborators and the callers of the engine

    The sources embedded below are the functions that the three classes
    above call, and the callers that drive them:

    - [options_analysis.py]           ([get_options_chain],
                                       [calculate_options_statistics]),
    - [modules/technical_analysis.py] (the rolling indicators),
    - [stock_data.py]                 ([get_historical_data]),
    - [modules/trading_strategy.py]   ([get_options_signals],
                                       [get_trading_stats]),
    - [modules/paper_trading.py]      (class [PaperTrading]),
    - [auto_trade.py]                 (the start-up and the trading loop).

    The imports [modules.options_analysis] and [modules.stock_data] are
    read as [options_analysis.py] and [stock_data.py], in the way
    [modules.options_strategies] is [options_strategies.py]. *)

From Stdlib Require Import Sorted.
From stdpp Require Import pretty.

(** ** options_analysis.py *)

Module OptionsAnalysis.

(** A row of [stock.option_chain(exp).calls] or [.puts] as the provider
    delivers it; the volume of a contract that has not traded is
    not-a-number. *)
Record listing : Type := {
  l_strike : Q;
  l_lastPrice : Q;
  l_volume : option Q
}.

(** The ticker object of the provider: [stock.options] and
    [stock.option_chain(exp)], which answers the calls and the puts. *)
Record ticker : Type := {
  options : py (list string);
  option_chain : string -> py (list listing * list listing)
}.

(** A row of the frame that [get_options_chain] returns: the columns of
    [quote], and the columns [volume] and [totalValue]. *)
Record row : Type := {
  contract : quote;
  volume : option Q;
  totalValue : option Q
}.

(** The frame itself; [None] is [pd.DataFrame()], which has no column. *)
Abbreviation frame := (option (list row)).

(** [df['optionType'] = ty], [df['expiration'] = exp] and
    [df['totalValue'] = df['volume'] * df['lastPrice'] * 100] on one row. *)
Definition labelled (ty exp : string) (l : listing) : row :=
  {| contract := {| strike := l_strike l; optionType := ty;
                    expiration := exp; lastPrice := l_lastPrice l |};
     volume := l_volume l;
     totalValue := v ← l_volume l; Some (v * l_lastPrice l * 100)%Q |}.

(** [for exp in expirations[:num_expiries]], collecting [all_options]. *)
Fixpoint fetch (stock : ticker) (expirations : list string) : py (list (list row)) :=
  match expirations with
  | [] => mret []
  | exp :: rest =>
      calls ← (option_chain stock exp
               ≫= fun chain : list listing * list listing => mret chain.1);
      puts ← (option_chain stock exp
              ≫= fun chain : list listing * list listing => mret chain.2);
      all_options ← fetch stock rest;
      mret ((labelled "CALL" exp <$> calls) :: (labelled "PUT" exp <$> puts)
            :: all_options)
  end.

(** [pd.concat(all_options, ignore_index=True)] *)
Definition pd_concat (all_options : list (list row)) : py (list row) :=
  match all_options with
  | [] => Raise (ValueError "No objects to concatenate")
  | _ => mret (concat all_options)
  end.

(** [get_options_chain(symbol, num_expiries)], [stock] being
    [yf.Ticker(symbol)]. *)
Definition get_options_chain (stock : ticker) (num_expiries : nat)
    : frame * list string :=
  match (expirations ← options stock;
         match expirations with
         | [] => mret (None, [])
         | _ =>
             all_options ← fetch stock (take num_expiries expirations);
             options_df ← pd_concat all_options;
             mret (Some options_df, expirations)
         end) with
  | Ret answer => answer
  | Raise _ => (None, [])
  end.

(** [options_df.empty] *)
Definition empty (options_df : frame) : bool :=
  match options_df with
  | None | Some [] => true
  | Some (_ :: _) => false
  end.

(** [column.sum()], which skips not-a-number cells. *)
Definition sum (cells : list (option Q)) : Q :=
  foldr (fun cell acc => match cell with
                         | Some x => (x + acc)%Q
                         | None => acc
                         end) 0%Q cells.

(** [options_df[options_df['optionType'] == ty]] *)
Definition of_type (ty : string) (rows : list row) : list row :=
  List.filter (fun r => String.eqb (optionType (contract r)) ty) rows.

(** [calculate_options_statistics(options_df)] *)
Definition calculate_options_statistics (options_df : frame) : value :=
  if empty options_df then mkdict [] else
  let rows := default [] options_df in
  let total_call_value := sum (totalValue <$> of_type "CALL" rows) in
  let total_put_value := sum (totalValue <$> of_type "PUT" rows) in
  let net_money_flow := (total_call_value - total_put_value)%Q in
  mkdict [
    ("total_call_volume", num (sum (volume <$> of_type "CALL" rows)));
    ("total_put_volume", num (sum (volume <$> of_type "PUT" rows)));
    ("put_call_ratio",
     num (sum (volume <$> of_type "PUT" rows)
          / Qmax (sum (volume <$> of_type "CALL" rows)) 1));
    ("total_call_value", num total_call_value);
    ("total_put_value", num total_put_value);
    ("net_money_flow", num net_money_flow);
    ("money_flow_ratio",
     num (if Qlt_bool 0 (total_call_value + total_put_value)
          then net_money_flow / (total_call_value + total_put_value)
          else 0))].

End OptionsAnalysis.

(** The market that the engine sees through [get_options_chain]: the
    frame of [num_expiries=1] restricted to the columns of [quote], the
    expiry dates of [num_expiries=12] with
    [(pd.to_datetime(date) - pd.Timestamp.now()).days], and the clock. *)
Definition market_of (stock : OptionsAnalysis.ticker)
    (days_to_expiry : string -> Z) (clock : string) : market :=
  {| options_df :=
       match (OptionsAnalysis.get_options_chain stock 1).1 with
       | Some rows => Some (OptionsAnalysis.contract <$> rows)
       | None => None
       end;
     expiry_dates :=
       (fun date => (date, days_to_expiry date))
         <$> (OptionsAnalysis.get_options_chain stock 12).2;
     now := clock |}.

(** ** modules/technical_analysis.py

    A column of prices is a list of cells, a cell being a number or
    not-a-number.  As everywhere in this development a number is an
    exact rational, so a rolling mean is the mean of its window. *)

Module TechnicalAnalysis.

Abbreviation cell := (option Q).

(** The rows [i - window + 1] to [i] of a column. *)
Definition window_at (window i : nat) (data : list cell) : list cell :=
  take window (drop (S i - window) data).

(** [data.rolling(window=window).agg()]: not-a-number until [window]
    rows are there, whenever the window holds a not-a-number, and
    everywhere for a window of no row. *)
Definition rolling (agg : list Q -> Q) (window : nat) (data : list cell)
    : list cell :=
  imap (fun i _ =>
          if (S i <? window)%nat || (window =? 0)%nat then None
          else agg <$> mapM id (window_at window i data))
       data.

Definition total (xs : list Q) : Q := foldr Qplus 0%Q xs.

Definition mean (xs : list Q) : Q :=
  (total xs / inject_Z (Z.of_nat (length xs)))%Q.

Definition maximum (xs : list Q) : Q :=
  match xs with
  | [] => 0%Q
  | x :: rest => foldr Qmax x rest
  end.

Definition minimum (xs : list Q) : Q :=
  match xs with
  | [] => 0%Q
  | x :: rest => foldr Qmin x rest
  end.

(** [calculate_sma(data, window)] *)
Definition calculate_sma (data : list cell) (window : nat) : list cell :=
  rolling mean window data.

(** [data.diff()] *)
Definition diff (data : list cell) : list cell :=
  match data with
  | [] => []
  | _ :: rest =>
      None :: zip_with (fun previous current =>
                          x ← current; y ← previous; Some (x - y)%Q)
                       data rest
  end.

(** [delta.where(cond, 0)]: a cell is kept where the condition holds,
    and a comparison with not-a-number does not hold. *)
Definition where_ (cond : Q -> bool) (delta : list cell) : list cell :=
  (fun c => match c with
            | Some x => if cond x then Some x else Some 0%Q
            | None => Some 0%Q
            end) <$> delta.

(** A float that may be infinite: the division of two columns yields
    infinities where the divisor is zero. *)
Inductive float : Type :=
| Finite (q : Q)
| PosInf
| NegInf
| NaN.

(** [gain / loss], cell by cell. *)
Definition divide (x y : cell) : float :=
  match x, y with
  | Some a, Some b =>
      if Qeq_bool b 0 then
        if Qeq_bool a 0 then NaN
        else if Qlt_bool 0 a then PosInf else NegInf
      else Finite (a / b)
  | _, _ => NaN
  end.

(** [c + x], [c / x] and [c - x] for a positive constant [c]. *)
Definition plus_const (c : Q) (x : float) : float :=
  match x with
  | Finite q => Finite (c + q)
  | other => other
  end.

Definition const_over (c : Q) (x : float) : float :=
  match x with
  | Finite q => if Qeq_bool q 0 then PosInf else Finite (c / q)
  | PosInf | NegInf => Finite 0
  | NaN => NaN
  end.

Definition const_minus (c : Q) (x : float) : float :=
  match x with
  | Finite q => Finite (c - q)
  | PosInf => NegInf
  | NegInf => PosInf
  | NaN => NaN
  end.

(** [-column] *)
Definition negated (column : list cell) : list cell :=
  (fun c : cell => match c with
                   | Some x => Some (- x)%Q
                   | None => None
                   end) <$> column.

(** [calculate_rsi(data, periods=14)] *)
Definition calculate_rsi (data : list cell) (periods : nat) : list float :=
  let delta := diff data in
  let gain := rolling mean periods (where_ (fun x => Qlt_bool 0 x) delta) in
  let loss :=
    rolling mean periods (negated (where_ (fun x => Qlt_bool x 0) delta)) in
  let rs := zip_with divide gain loss in
  (fun r => const_minus 100 (const_over 100 (plus_const 1 r))) <$> rs.

(** The columns of a price frame that the indicators read. *)
Record prices : Type := {
  High : list cell;
  Low : list cell;
  Close : list cell
}.

(** [calculate_support_resistance(df, window=20)]: [(lows, highs)] *)
Definition calculate_support_resistance (df : prices) (window : nat)
    : list cell * list cell :=
  let highs := rolling maximum window (High df) in
  let lows := rolling minimum window (Low df) in
  (lows, highs).

End TechnicalAnalysis.

(** ** stock_data.py *)

Module StockData.

Import TradingStrategy.

(** What one attempt to fetch the history ends in: the frame of
    [stock.history(...)], or an exception with its text [str(e)]. *)
Inductive outcome : Type :=
| Fetched (df : DataFrame)
| Failed (message : string).

(** [needle in text] *)
Definition contains (needle text : string) : bool :=
  match String.index 0 needle text with
  | Some _ => true
  | None => false
  end.

Definition required_columns : list string :=
  ["Open"; "High"; "Low"; "Close"; "Volume"].

(** [pd.DataFrame()] *)
Definition no_data : DataFrame := {| index_length := 0; columns := ∅ |}.

(** The [try] block of one turn of the loop of [get_historical_data]. *)
Definition attempt (symbol : string) (answer : outcome) : outcome :=
  match answer with
  | Failed message => Failed message
  | Fetched df =>
      if df_empty df then
        Failed ("No data available for " +:+ symbol)
      else if negb (forallb (fun col => bool_decide (is_Some (columns df !! col)))
                            required_columns) then
        Failed ("Missing required columns for " +:+ symbol)
      else if (df_len df <? 50)%nat then
        Failed ("Insufficient historical data for " +:+ symbol +:+ " (got "
                +:+ pretty (df_len df) +:+ " rows)")
      else Fetched df
  end.

(** The loop [while retries < max_retries]; [history k] is what the
    provider answers at the attempt made after [k] failures, [turns]
    bounds the number of turns, and the seconds slept are collected.
    The result is [None] when the loop ends without a [return]. *)
Fixpoint retry (turns : nat) (symbol : string) (history : nat -> outcome)
    (max_retries : nat) (delay : Q) (retries : nat) (slept : list Q)
    : option DataFrame * list Q :=
  match turns with
  | O => (None, slept)
  | S turns' =>
      if negb (retries <? max_retries)%nat then (None, slept) else
      match attempt symbol (history retries) with
      | Fetched df => (Some df, slept)
      | Failed message =>
          let retries := S retries in
          if contains "Too Many Requests" message then
            retry turns' symbol history max_retries delay retries
              (slept ++ [(delay * inject_Z (2 ^ Z.of_nat (retries - 1)))%Q])
          else if (retries <? max_retries)%nat then
            retry turns' symbol history max_retries delay retries
              (slept ++ [delay])
          else (Some no_data, slept)
      end
  end.

(** [get_historical_data(symbol, max_retries=3, delay_between_retries=5)]:
    every turn of the loop that does not return adds one to [retries],
    so [max_retries] turns are enough. *)
Definition get_historical_data (symbol : string) (history : nat -> outcome)
    (max_retries : nat) (delay : Q) : option DataFrame * list Q :=
  retry max_retries symbol history max_retries delay 0 [].

End StockData.

(** ** modules/trading_strategy.py, the remaining methods *)

Module TradingStrategyMethods.

Import TradingStrategy.

(** [abs(x)] *)
Definition v_abs (a : value) : py value :=
  x ← as_float a;
  mret (of_float (Qabs <$> x)).

(** [get_options_signals()], [stock] being the ticker of the symbol. *)
Definition get_options_signals (stock : OptionsAnalysis.ticker) : py value :=
  let options_df := (OptionsAnalysis.get_options_chain stock 3).1 in
  let stats := OptionsAnalysis.calculate_options_statistics options_df in
  bullish_flow ← (x ← getitem stats "net_money_flow"; v_gt x (num 0));
  strong_flow ← (x ← getitem stats "money_flow_ratio";
                 a ← v_abs x; v_gt a (num 0.3));
  put_call_ratio ← getitem stats "put_call_ratio";
  high_activity ← (c ← getitem stats "total_call_volume";
                   p ← getitem stats "total_put_volume";
                   s ← v_add c p; v_gt s (num 1000));
  mret (mkdict [
    ("bullish_flow", VBool bullish_flow);
    ("strong_flow", VBool strong_flow);
    ("put_call_ratio", put_call_ratio);
    ("high_activity", VBool high_activity)]).

(** [sum(t.get('profit', 0) for t in closed_trades)] *)
Fixpoint sum_profits (closed_trades : list value) (acc : value) : py value :=
  match closed_trades with
  | [] => mret acc
  | t :: rest =>
      p ← dict_get t "profit" (num 0);
      acc ← v_add acc p;
      sum_profits rest acc
  end.

(** [min(t.get('profit', 0) for t in closed_trades)]: the running
    minimum is replaced when the next item is smaller. *)
Fixpoint min_from (smallest : value) (rest : list value) : py value :=
  match rest with
  | [] => mret smallest
  | t :: rest' =>
      p ← dict_get t "profit" (num 0);
      smaller ← v_lt p smallest;
      min_from (if (smaller : bool) then p else smallest) rest'
  end.

Definition min_profit (closed_trades : list value) : py value :=
  match closed_trades with
  | [] => Raise (ValueError "min() arg is an empty sequence")
  | t :: rest => p ← dict_get t "profit" (num 0); min_from p rest
  end.

(** [get_trading_stats()]; [trades] is the content of the trade store. *)
Definition get_trading_stats (self : strategy) (trades : list value) : py value :=
  closed_trades ← PortfolioManager.with_status "closed" trades;
  match closed_trades with
  | [] =>
      mret (mkdict [
        ("total_trades", num 0);
        ("win_rate", num 0);
        ("avg_profit", num 0);
        ("max_drawdown", num 0)])
  | _ =>
      let total_trades := length closed_trades in
      winning_trades ← PortfolioManager.count_winning closed_trades;
      win_rate ←
        (if (0 <? total_trades)%nat
         then r ← v_div (PortfolioManager.of_nat winning_trades)
                        (PortfolioManager.of_nat total_trades);
              v_mul r (num 100)
         else mret (num 0));
      avg_profit ←
        (if (0 <? total_trades)%nat
         then s ← sum_profits closed_trades (num 0);
              v_div s (PortfolioManager.of_nat total_trades)
         else mret (num 0));
      max_drawdown ←
        match closed_trades with
        | [] => mret (num 0)
        | _ => smallest ← min_profit closed_trades;
               r ← v_div smallest (num (initial_capital self));
               v_mul r (num 100)
        end;
      mret (mkdict [
        ("total_trades", PortfolioManager.of_nat total_trades);
        ("win_rate", win_rate);
        ("avg_profit", avg_profit);
        ("max_drawdown", max_drawdown)])
  end.

End TradingStrategyMethods.

(** ** modules/paper_trading.py *)

Module PaperTrading.

Import TradingStrategy.

Record paper : Type := {
  symbol : string;
  current_price : value;
  strategy : TradingStrategy.strategy
}.

(** [PaperTrading(symbol)], [data] being what
    [get_historical_data(symbol)] returned. *)
Definition init (symbol : string) (data : option DataFrame) : py paper :=
  match data with
  | None => Raise TypeError
  | Some df =>
      current_price ← (close ← df_getitem df "Close"; iloc_last close);
      mret {| symbol := symbol;
              current_price := current_price;
              strategy := TradingStrategy.init symbol 100000 |}
  end.

(** [execute_trade(action, quantity, stop_loss, take_profit, trade_type,
    strike, expiration, option_type)]: the trade returned, [None] when
    the option has no quote, and the store as it is left. *)
Definition execute_trade (self : paper) (m : market)
    (action quantity stop_loss take_profit trade_type
     strike expiration option_type : value) (trades : list value)
    : value * list value :=
  let trade : dict := list_to_map [
    ("symbol", VStr (symbol self));
    ("type", trade_type);
    ("action", action);
    ("quantity", quantity);
    ("entry_price", if is_str trade_type "equity" then current_price self else num 0);
    ("stop_loss", stop_loss);
    ("take_profit", take_profit);
    ("status", VStr "open");
    ("entry_date", VStr (now m));
    ("exit_date", VNone);
    ("exit_price", VNone);
    ("profit", VNone)] in
  let priced : option dict :=
    if is_str trade_type "option" then
      let trade := <["option_type" := option_type]>
                     (<["expiration" := expiration]>
                        (<["strike" := strike]> trade)) in
      match rows m with
      | [] => Some trade
      | _ =>
          match List.filter (matches strike option_type expiration) (rows m) with
          | current_option :: _ =>
              Some (<["entry_price" := num (lastPrice current_option)]> trade)
          | [] => None
          end
      end
    else Some trade in
  match priced with
  | None => (VNone, trades)
  | Some trade => (VDict trade, trades ++ [VDict trade])
  end.

(** [check_automated_signals()] *)
Definition check_automated_signals (ind : indicators) (self : paper) (f : feed)
    (trades : list value) : py (value * list value) :=
  let trade_type := should_enter_trade ind (strategy self) f in
  if truthy trade_type
  then TradingStrategy.execute_trade ind (strategy self) f trade_type trades
  else mret (VNone, trades).

(** [monitor_positions()] *)
Definition monitor_positions (ind : indicators) (self : paper) (f : feed)
    (trades : list value) : py (list value) :=
  TradingStrategy.monitor_positions ind (strategy self) f trades.

End PaperTrading.

(** ** auto_trade.py *)

Module AutoTrade.

Import TradingStrategy PortfolioManager.

(** What one turn of the start-up loop ends in: [PortfolioManager()]
    raised, or it returned [portfolio] and
    [portfolio.initialize_portfolio()] returned [initialized]. *)
Inductive startup : Type :=
| Crashed
| Constructed (portfolio : manager) (initialized : bool).

(** How [run_automated_trading] leaves its start-up loop: it returns, or
    it goes on to the trading loop with the last [portfolio] bound. *)
Inductive started : Type :=
| Exited
| Trading (portfolio : option manager).

(** The loop [while retry_count < max_retries]; [turn k] is what the
    turn made after [k] failures ends in. *)
Fixpoint start_up (turns : nat) (turn : nat -> startup) (max_retries : nat)
    (retry_count : nat) (portfolio : option manager) : started :=
  match turns with
  | O => Trading portfolio
  | S turns' =>
      if negb (retry_count <? max_retries)%nat then Trading portfolio else
      match turn retry_count with
      | Constructed portfolio true => Trading (Some portfolio)
      | Constructed portfolio false =>
          start_up turns' turn max_retries (S retry_count) (Some portfolio)
      | Crashed =>
          if (S retry_count <? max_retries)%nat
          then start_up turns' turn max_retries (S retry_count) portfolio
          else Exited
      end
  end.

(** The start-up of [run_automated_trading], with [max_retries = 3]. *)
Definition initialize (turn : nat -> startup) : started :=
  start_up 3 turn 3 0 None.

(** [for leg in signal['legs']: logging.info(...)] *)
Fixpoint log_legs (legs : list value) : py unit :=
  match legs with
  | [] => mret tt
  | leg :: rest =>
      _ ← getitem leg "action";
      _ ← getitem leg "type";
      _ ← getitem leg "strike";
      log_legs rest
  end.

(** [for signal in signals: logging.info(...)] *)
Fixpoint log_signals (signals : list value) : py unit :=
  match signals with
  | [] => mret tt
  | signal :: rest =>
      _ ← getitem signal "type";
      _ ← getitem signal "symbol";
      ty ← getitem signal "type";
      _ ← (if is_str ty "options" then
             _ ← getitem signal "strategy_type";
             _ ← (x ← getitem signal "max_profit"; format_2f x);
             _ ← (x ← getitem signal "max_loss"; format_2f x);
             legs ← legs_of signal;
             log_legs legs
           else mret tt);
      log_signals rest
  end.

(** [for pos in portfolio_summary['open_positions']: logging.info(...)] *)
Fixpoint log_open_positions (positions : list value) : py unit :=
  match positions with
  | [] => mret tt
  | pos :: rest =>
      ty ← getitem pos "type";
      _ ← (if is_str ty "equity" then
             _ ← getitem pos "symbol";
             _ ← getitem pos "type";
             x ← getitem pos "entry_price"; format_2f x
           else
             _ ← getitem pos "symbol";
             _ ← getitem pos "strategy_type";
             _ ← getitem pos "expiry";
             mret tt);
      log_open_positions rest
  end.

(** The performance record and the status lines written from [stats]. *)
Definition report (stats : value) : py unit :=
  _ ← (x ← getitem stats "current_capital"; format_2f x);
  _ ← (x ← getitem stats "available_capital"; format_2f x);
  _ ← getitem stats "total_trades";
  _ ← (x ← getitem stats "win_rate"; format_2f x);
  _ ← (x ← getitem stats "total_profit"; format_2f x);
  _ ← (x ← getitem stats "current_capital"; format_2f x);
  _ ← (x ← getitem stats "available_capital"; format_2f x);
  _ ← (x ← getitem stats "win_rate"; format_2f x);
  _ ← getitem stats "total_trades";
  mret tt.

(** The [try] block of one turn of the trading loop, in simulation mode
    or during market hours: the exception that ends it, if any, and the
    state that is left. *)
Definition trading_cycle (cls : methods) (w : world) (st : state)
    : py unit * state :=
  match check_signals cls w st with
  | (Raise e, st) => (Raise e, st)
  | (Ret signals, st) =>
  match log_signals signals with
  | Raise e => (Raise e, st)
  | Ret _ =>
  match monitor_portfolio cls w st with
  | (Raise e, st) => (Raise e, st)
  | (Ret portfolio_summary, st) =>
      (stats ← get_portfolio_stats cls w st;
       _ ← report stats;
       log_open_positions (open_positions portfolio_summary),
       st)
  end end end.

(** The trading loop over the turns in which it trades: an exception is
    logged and the next turn starts from the state that was left. *)
Definition trading_loop (cls : methods) (worlds : list world) (st : state)
    : state :=
  foldl (fun st w => (trading_cycle cls w st).2) st worlds.

End AutoTrade.


(** * Double-precision arithmetic

    A Python [float] is an IEEE 754 binary64 number and every operation
    on it rounds to nearest, ties to even.  The embedding above computes
    in exact rationals, which is what the code computes as long as no
    operation rounds, but not the last digits of what it stores when
    one does.  Where a property is about those digits, the functions
    concerned are embedded again below on [spec_float], the
    specification of IEEE arithmetic of the Standard Library, at
    precision 53 and exponent bound 1024. *)

From Stdlib Require Import SpecFloat.

Module Float64.

Definition prec : Z := 53.
Definition emax : Z := 1024.

Definition float : Type := spec_float.

Definition add : float -> float -> float := SFadd prec emax.
Definition sub : float -> float -> float := SFsub prec emax.
Definition mul : float -> float -> float := SFmul prec emax.
Definition div : float -> float -> float := SFdiv prec emax.

(** [x == y], [x < y] and [x <= y]; a comparison with not-a-number does
    not hold. *)
Definition eqb : float -> float -> bool := SFeqb.
Definition ltb : float -> float -> bool := SFltb.
Definition leb : float -> float -> bool := SFleb.

(** The float of an integer literal, and the float of a decimal literal
    [n / 10^d]: the double nearest to it, as long as [n] and [10^d] are
    below [2^53]. *)
Definition of_Z (z : Z) : float := binary_normalize prec emax z 0 false.

Definition decimal (n : Z) (d : nat) : float :=
  div (of_Z n) (of_Z (10 ^ Z.of_nat d)).

(** The number that a float stands for, if it is one, in lowest terms. *)
Definition number (x : float) : option Q :=
  match x with
  | S754_zero _ => Some 0%Q
  | S754_finite s m e =>
      Some (Qred ((if s then - inject_Z (Zpos m) else inject_Z (Zpos m))
                  * Qpower 2 e))%Q
  | S754_infinity _ | S754_nan => None
  end.

(** A float that compares with itself, that is, any but not-a-number. *)
Definition ordered (x : float) : bool := eqb x x.

End Float64.

(** ** options_strategies.py in double precision *)

Module OptionsStrategy64.

Import Float64.

(** A row of the frame that [get_options_chain] returns, restricted to
    the columns that the engine reads. *)
Record quote : Type := {
  strike : float;
  optionType : string;
  expiration : string;
  lastPrice : float
}.

(** The frame of [get_options_chain(symbol, num_expiries=1)]; [None] is
    [pd.DataFrame()], which has no column. *)
Definition frame : Type := option (list quote).

(** [options_df[name]] for the purpose of raising on a missing column. *)
Definition column (options_df : frame) (name : string) : py (list quote) :=
  match options_df with
  | Some rows => Ret rows
  | None => Raise (KeyError name)
  end.

(** [Series.unique()]: the values in the order of their first
    occurrence. *)
Fixpoint unique (l : list float) : list float :=
  match l with
  | [] => []
  | x :: l' => x :: List.filter (fun y => negb (eqb x y)) (unique l')
  end.

Fixpoint insert_sorted (x : float) (l : list float) : list float :=
  match l with
  | [] => [x]
  | y :: l' => if leb x y then x :: l else y :: insert_sorted x l'
  end.

(** [sorted(valid_strikes)] *)
Definition sorted (l : list float) : list float := foldr insert_sorted [] l.

(** The bounds of lines 27 and 28. *)
Definition lower_bound (current_price width_percentage : float) : float :=
  mul current_price (sub (of_Z 1) width_percentage).

Definition upper_bound (current_price width_percentage : float) : float :=
  mul current_price (add (of_Z 1) width_percentage).

(** [find_strike_prices(current_price, width_percentage=0.05)] *)
Definition find_strike_prices (options_df : frame)
    (current_price width_percentage : float) : py (list float) :=
  let lower_bound := lower_bound current_price width_percentage in
  let upper_bound := upper_bound current_price width_percentage in
  rows ← column options_df "strike";
  let valid_strikes :=
    List.filter (fun r => leb lower_bound (strike r) && leb (strike r) upper_bound)
                rows in
  mret (sorted (unique (strike <$> valid_strikes))).

(** The rows of [options_df[(options_df['strike'] == k) &
    (options_df['optionType'] == ty)]]. *)
Definition selection (df : list quote) (k : float) (ty : string) : list quote :=
  List.filter (fun r => eqb (strike r) k && String.eqb (optionType r) ty) df.

(** [selection.iloc[0]] *)
Definition iloc0 (df : list quote) : py quote :=
  match df with
  | r :: _ => Ret r
  | [] => Raise IndexError
  end.

(** [options_df[options_df['expiration'] == expiry_date]] *)
Definition at_expiry (options_df : frame) (expiry_date : string)
    : py (list quote) :=
  rows ← column options_df "expiration";
  mret (List.filter (fun r => String.eqb (expiration r) expiry_date) rows).

(** The dicts under ['long_option'] and ['short_option'], and the dict
    that describes a vertical spread. *)
Record option_leg : Type := {
  leg_type : string;
  leg_strike : float;
  leg_premium : float
}.

Record vertical_spread : Type := {
  strategy : string;
  long_option : option_leg;
  short_option : option_leg;
  expiry : string;
  max_loss : float;
  max_profit : float;
  break_even : float
}.

(** [create_vertical_spread(spread_type, expiry_date, current_price,
    width=0.05)]; [None] is the [None] of lines 44 and 116. *)
Definition create_vertical_spread (chain : frame) (spread_type : string)
    (expiry_date : string) (current_price width : float)
    : py (option vertical_spread) :=
  options_df ← at_expiry chain expiry_date;
  strikes ← find_strike_prices chain current_price width;
  if (length strikes <? 2)%nat then mret None else
  if String.eqb spread_type "bull_call" then
    let long_strike := hd (of_Z 0) strikes in
    let short_strike := List.last strikes (of_Z 0) in
    long_call ← iloc0 (selection options_df long_strike "CALL");
    short_call ← iloc0 (selection options_df short_strike "CALL");
    let max_loss := mul (sub (lastPrice long_call) (lastPrice short_call)) (of_Z 100) in
    let max_profit :=
      mul (sub (sub short_strike long_strike) (div max_loss (of_Z 100))) (of_Z 100) in
    mret (Some {|
      strategy := "bull_call_spread";
      long_option := {| leg_type := "CALL"; leg_strike := long_strike;
                        leg_premium := lastPrice long_call |};
      short_option := {| leg_type := "CALL"; leg_strike := short_strike;
                         leg_premium := lastPrice short_call |};
      expiry := expiry_date;
      max_loss := max_loss;
      max_profit := max_profit;
      break_even := add long_strike (div max_loss (of_Z 100)) |})
  else if String.eqb spread_type "bear_put" then
    let long_strike := List.last strikes (of_Z 0) in
    let short_strike := hd (of_Z 0) strikes in
    long_put ← iloc0 (selection options_df long_strike "PUT");
    short_put ← iloc0 (selection options_df short_strike "PUT");
    let max_loss := mul (sub (lastPrice long_put) (lastPrice short_put)) (of_Z 100) in
    let max_profit :=
      mul (sub (sub long_strike short_strike) (div max_loss (of_Z 100))) (of_Z 100) in
    mret (Some {|
      strategy := "bear_put_spread";
      long_option := {| leg_type := "PUT"; leg_strike := long_strike;
                        leg_premium := lastPrice long_put |};
      short_option := {| leg_type := "PUT"; leg_strike := short_strike;
                         leg_premium := lastPrice short_put |};
      expiry := expiry_date;
      max_loss := max_loss;
      max_profit := max_profit;
      break_even := sub long_strike (div max_loss (of_Z 100)) |})
  else mret None.

End OptionsStrategy64.

(** ** Concrete inputs *)

Module Examples.

Import TradingStrategy.

(** *** A price history of fifty bars with the columns the market-data
    provider delivers, and indicator functions that keep every cell. *)

Definition bars (n : nat) (x : Q) : series := replicate n (VNum x).

Definition ohlcv : DataFrame :=
  {| index_length := 50;
     columns := list_to_map [
       ("Open", bars 50 100); ("High", bars 50 101); ("Low", bars 50 99);
       ("Close", bars 50 100); ("Volume", bars 50 1000)] |}.

Definition plain_indicators : indicators :=
  {| calculate_rsi := fun s => Ret ((fun _ => VNum 50) <$> s);
     calculate_sma := fun s _ => Ret s;
     rolling_max := fun _ s => Ret s;
     rolling_min := fun _ s => Ret s |}.

(** The same history to which the five columns read at lines 66 to 70
    have been added by hand. *)
Definition ohlcv_extended : DataFrame :=
  {| index_length := 50;
     columns :=
       <["MACD" := bars 50 1]> (<["MACD_signal" := bars 50 1]>
       (<["Bollinger_Upper" := bars 50 110]> (<["Bollinger_Lower" := bars 50 90]>
       (<["ATR" := bars 50 2]> (columns ohlcv))))) |}.

(** *** The options chain of the bull call spread example *)

Definition expiry : string := "2026-12-18".

Definition contract (k : Q) (ty : string) (premium : Q) : quote :=
  {| strike := k; optionType := ty; expiration := expiry; lastPrice := premium |}.

Definition spread_market : market :=
  {| options_df := Some [contract 98 "CALL" 4.0; contract 102 "CALL" 1.5];
     expiry_dates := [(expiry, 45%Z)];
     now := "2026-11-03 10:00:00" |}.

Definition bull_call_spread : dict :=
  Eval vm_compute in
    match OptionsStrategy.create_vertical_spread
            spread_market "bull_call" expiry (VNum 100) 0.05 with
    | Ret (VDict r) => r
    | _ => ∅
    end.

(** *** An equity position as [execute_trade] lays it out, a snapshot
    that quotes one price, and a strategy *)

Definition equity_trade (entry stop target quantity : Q) : dict :=
  list_to_map [
    ("symbol", VStr "AAPL"); ("type", VStr "equity"); ("action", VStr "buy");
    ("quantity", VNum quantity); ("entry_price", VNum entry);
    ("stop_loss", VNum stop); ("take_profit", VNum target);
    ("status", VStr "open"); ("entry_date", VStr "2026-11-02 10:00:00");
    ("exit_date", VNone); ("exit_price", VNone); ("profit", VNone)].

Definition snapshot_at (price : Q) : value := mkdict [("price", VNum price)].

Definition aapl : strategy := TradingStrategy.init "AAPL" 2000.

Definition quiet_market : market :=
  {| options_df := None; expiry_dates := []; now := "2026-11-03 10:00:00" |}.

(** *** An open options position: a bull call spread bought at 4.0 and
    sold at 1.5, with the risk bands [execute_trade] gives it *)

Definition leg (ty action : string) (k premium : Q) : value :=
  mkdict [("type", VStr ty); ("action", VStr action);
          ("strike", VNum k); ("premium", VNum premium)].

Definition options_trade : dict :=
  list_to_map [
    ("symbol", VStr "AAPL"); ("type", VStr "options");
    ("strategy_type", VStr "bull_call_spread");
    ("entry_date", VStr "2026-11-02 10:00:00");
    ("expiration", VStr expiry);
    ("max_loss", VNum 250); ("max_profit", VNum 150);
    ("status", VStr "open");
    ("legs", VList [leg "CALL" "buy" 98 4.0; leg "CALL" "sell" 102 1.5]);
    ("stop_loss", VNum 200); ("take_profit", VNum 75)].

Definition chain (quotes : list quote) : market :=
  {| options_df := Some quotes;
     expiry_dates := [(expiry, 45%Z)];
     now := "2026-11-03 10:00:00" |}.

(** Both legs quoted at their entry premiums. *)
Definition unchanged_chain : market :=
  chain [contract 98 "CALL" 4.0; contract 102 "CALL" 1.5].

(** The same chain without the row of the long leg. *)
Definition partial_chain : market :=
  chain [contract 102 "CALL" 1.5].

(** Both legs quoted, the long leg at 3.0. *)
Definition moved_chain : market :=
  chain [contract 98 "CALL" 3.0; contract 102 "CALL" 1.5].

Definition feed_of (m : market) : feed :=
  {| history := Ret (Some ohlcv);
     options_signals := Raise (KeyError "net_money_flow");
     analyst_signals := Raise (KeyError "Recommendation");
     mkt := m |}.

(** The equity position of the trailing-stop example after its close
    at 106. *)
Definition closed_equity_trade : dict :=
  Eval vm_compute in
    match monitor_trade aapl (snapshot_at 106) quiet_market
            (VDict (equity_trade 100 (532 # 5) 115 10)) with
    | Ret (VDict d) => d
    | _ => ∅
    end.

(** *** A complete snapshot, as line 75 would build it, and the signals
    of the two other collaborators *)

Definition snapshot (price rsi support atr : Q) : value :=
  mkdict [
    ("price", VNum price); ("rsi", VNum rsi);
    ("oversold", VBool false); ("overbought", VBool false);
    ("uptrend", VBool true);
    ("support", VNum support); ("resistance", VNum (price + 10));
    ("near_support", VBool true); ("near_resistance", VBool false);
    ("sma_20", VNum (price + 1)); ("sma_50", VNum price);
    ("macd", VNum 1); ("macd_signal_line", VNum 0.5);
    ("macd_bullish", VBool true);
    ("bollinger_upper", VNum (price + 8)); ("bollinger_lower", VNum (price - 8));
    ("bollinger_width", VNum 0.16);
    ("below_bollinger", VBool false); ("above_bollinger", VBool false);
    ("atr", VNum atr); ("atr_percent", VNum 2)].

Definition bullish_flow : value :=
  mkdict [("bullish_flow", VBool true); ("strong_flow", VBool true);
          ("put_call_ratio", VNum 0.7); ("high_activity", VBool true)].

Definition buy_rating : value :=
  mkdict [("recommendation", VStr "BUY"); ("mean_rating", VNum 2);
          ("bullish", VBool true); ("bearish", VBool false);
          ("target_price", VNum 120)].

Definition live_feed (m : market) : feed :=
  {| history := Ret (Some ohlcv);
     options_signals := Ret bullish_flow;
     analyst_signals := Ret buy_rating;
     mkt := m |}.

(** A strategy of [symbol] with the attribute [ml_model] in a given
    state, and a model that predicts one probability. *)
Definition strategy_with (symbol : string) (capital : Q) (model : ml_attribute)
    : strategy :=
  {| TradingStrategy.symbol := symbol;
     TradingStrategy.initial_capital := capital;
     current_capital := capital;
     max_loss_pct := 0.20;
     ml_model := model |}.

Definition constant_model (probability : Q) : ml_attribute :=
  Model (fun _ => Ret (VNum probability)).

(** *** A chain with two candidate strikes and no call at the lower one *)
Definition chain_without_long_call : market :=
  chain [contract 98 "PUT" 1.0; contract 102 "CALL" 1.5].

(** The nearest expiry is three days out and fully quoted; the first
    expiry between 30 and 60 days out is [expiry].  The frame of
    [num_expiries=1] holds the rows of the nearest expiry only. *)
Definition nearest : string := "2026-11-06".

Definition weekly (k : Q) (ty : string) (premium : Q) : quote :=
  {| strike := k; optionType := ty; expiration := nearest; lastPrice := premium |}.

Definition nearest_expiry_chain : market :=
  {| options_df := Some [weekly 98 "CALL" 3.0; weekly 98 "PUT" 0.8;
                         weekly 102 "CALL" 0.9; weekly 102 "PUT" 2.7];
     expiry_dates := [(nearest, 3%Z); (expiry, 45%Z)];
     now := "2026-11-03 10:00:00" |}.

(** No chain at all, though an expiry date is in range. *)
Definition no_chain : market :=
  {| options_df := None;
     expiry_dates := [(expiry, 45%Z)];
     now := "2026-11-03 10:00:00" |}.

(** A chain with a single candidate strike. *)
Definition chain_one_strike : market :=
  chain [contract 102 "CALL" 1.5].

(** *** A portfolio manager with two strategies and no model *)

Definition desk (initial_capital : Q) : PortfolioManager.manager :=
  PortfolioManager.init initial_capital ["AAPL"; "MSFT"] MlNone.

Definition holding (initial_capital : Q) (trades : list value)
    : PortfolioManager.state :=
  {| PortfolioManager.self := desk initial_capital;
     PortfolioManager.store := trades |}.

Definition quiet_world : PortfolioManager.world :=
  fun _ => feed_of quiet_market.

(** The world in which every collaborator answers and the chain is
    quoted. *)
Definition live_world : PortfolioManager.world :=
  fun _ => live_feed unchanged_chain.

(** *** A position of another symbol: the equity position above under
    the symbol [sym]. *)
Definition position_of (sym : string) (entry stop target quantity : Q) : dict :=
  <["symbol" := VStr sym]> (equity_trade entry stop target quantity).

End Examples.

(** ** Further concrete inputs *)

Module Cases.

Import TradingStrategy.

(** The trade that [execute_strategy] lays out for the bull call spread
    of the example. *)
Definition laid_out_spread : value :=
  Eval vm_compute in
    match OptionsStrategy.execute_strategy Examples.spread_market "AAPL"
            (VDict Examples.bull_call_spread) with
    | Ret trade => trade
    | Raise _ => VNone
    end.

(** A store with a closed position of AAPL and an open position of
    TSLA, a symbol for which the desk has no strategy. *)
Definition mixed_store : list value :=
  [VDict Examples.closed_equity_trade;
   VDict (Examples.position_of "TSLA" 100 95 115 4)].

(** A position of AAPL closed at a loss of 40, and a store with a
    winner, a loser and an open position. *)
Definition closed_loss : dict :=
  <["status" := VStr "closed"]>
    (<["exit_price" := VNum 90]>
       (<["profit" := VNum (-40)]> (Examples.equity_trade 100 95 115 4))).

Definition history_store : list value :=
  [VDict Examples.closed_equity_trade; VDict closed_loss;
   VDict (Examples.equity_trade 100 95 115 4)].

(** A ticker with a weekly expiry three days out and a monthly expiry
    45 days out, both fully quoted; one call has not traded. *)
Definition listed (k premium : Q) (traded : option Q) : OptionsAnalysis.listing :=
  {| OptionsAnalysis.l_strike := k;
     OptionsAnalysis.l_lastPrice := premium;
     OptionsAnalysis.l_volume := traded |}.

Definition ticker : OptionsAnalysis.ticker :=
  {| OptionsAnalysis.options := Ret [Examples.nearest; Examples.expiry];
     OptionsAnalysis.option_chain := fun exp =>
       if String.eqb exp Examples.nearest then
         Ret ([listed 98 3.0 (Some 900%Q); listed 102 0.9 None],
              [listed 98 0.8 (Some 400%Q); listed 102 2.7 (Some 100%Q)])
       else
         Ret ([listed 98 4.0 (Some 300%Q); listed 102 1.5 (Some 200%Q)],
              [listed 98 1.0 (Some 150%Q); listed 102 3.1 (Some 50%Q)]) |}.

(** The rows of its chain over three expiry dates. *)
Definition flow_rows : list OptionsAnalysis.row :=
  Eval vm_compute in
    match (OptionsAnalysis.get_options_chain ticker 3).1 with
    | Some rows => rows
    | None => []
    end.

Definition days_to_expiry (date : string) : Z :=
  if String.eqb date Examples.nearest then 3 else 45.

Definition ticker_market : market :=
  market_of ticker days_to_expiry "2026-11-03 10:00:00".

(** A ticker for which the provider lists no expiry date. *)
Definition unlisted : OptionsAnalysis.ticker :=
  {| OptionsAnalysis.options := Ret [];
     OptionsAnalysis.option_chain := fun _ => Raise (ValueError "no chain") |}.

(** *** Chains in double precision

    The rows of the bull call spread example, the same strikes quoted
    at 2.2 and 0.7, and a chain of a stock near 20.4 whose strikes are
    quoted in cents. *)
Definition quoted (k : Float64.float) (ty : string) (premium : Float64.float)
    : OptionsStrategy64.quote :=
  {| OptionsStrategy64.strike := k;
     OptionsStrategy64.optionType := ty;
     OptionsStrategy64.expiration := Examples.expiry;
     OptionsStrategy64.lastPrice := premium |}.

Definition spread_chain : OptionsStrategy64.frame :=
  Some [quoted (Float64.of_Z 98) "CALL" (Float64.decimal 40 1);
        quoted (Float64.of_Z 102) "CALL" (Float64.decimal 15 1)].

Definition dime_chain : OptionsStrategy64.frame :=
  Some [quoted (Float64.of_Z 98) "CALL" (Float64.decimal 22 1);
        quoted (Float64.of_Z 102) "CALL" (Float64.decimal 7 1)].

Definition quoted_in_cents : list OptionsStrategy64.quote :=
  [quoted (Float64.decimal 21 0) "CALL" (Float64.decimal 45 2);
   quoted (Float64.decimal 195 1) "CALL" (Float64.decimal 12 1);
   quoted (Float64.decimal 195 1) "PUT" (Float64.decimal 35 2);
   quoted (Float64.decimal 2142 2) "CALL" (Float64.decimal 30 2);
   quoted (Float64.of_Z 19) "PUT" (Float64.decimal 20 2);
   quoted (Float64.decimal 21 0) "PUT" (Float64.decimal 11 1)].

End Cases.

(** * Properties *)

(** ** Evaluation lemmas *)

Lemma getitem_VDict (d : dict) (k : string) (v : value) :
  getitem (VDict d) k = Ret v <-> d !! k = Some v.
Proof. cbn. destruct (d !! k); split; intros; simplify_eq; done. Qed.

Lemma Qle_bool_Qred_l (x y : Q) : Qle_bool (Qred x) y = Qle_bool x y.
Proof. apply Qleb_comp; [apply Qred_correct | reflexivity]. Qed.

Lemma Qle_bool_Qred_r (x y : Q) : Qle_bool x (Qred y) = Qle_bool x y.
Proof. apply Qleb_comp; [reflexivity | apply Qred_correct]. Qed.

Lemma Qlt_bool_iff (x y : Q) : Qlt_bool x y = true <-> (x < y)%Q.
Proof.
  unfold Qlt_bool. rewrite negb_true_iff.
  split.
  - intros H. apply Qnot_le_lt. intros Hle.
    apply Qle_bool_iff in Hle. congruence.
  - intros H. destruct (Qle_bool y x) eqn:E; [|reflexivity].
    apply Qle_bool_iff in E. exfalso. apply (Qlt_not_le x y); assumption.
Qed.

Lemma Qlt_bool_false_iff (x y : Q) : Qlt_bool x y = false <-> (y <= x)%Q.
Proof.
  unfold Qlt_bool. rewrite negb_false_iff. apply Qle_bool_iff.
Qed.

(** Inversion of a run of the exception monad that is known to return. *)
Ltac py_inv H :=
  unfold mbind, py_bind, mret, py_ret in H;
  repeat case_match; simplify_eq.

Lemma getitem_Some (d : dict) (k : string) (v : value) :
  d !! k = Some v -> getitem (VDict d) k = Ret v.
Proof. apply getitem_VDict. Qed.

Lemma bind_Ret {A B : Type} (a : A) (k : A -> py B) : Ret a ≫= k = k a.
Proof. reflexivity. Qed.

Lemma bind_assoc {A B C : Type} (run : py A) (f : A -> py B) (g : B -> py C) :
  (run ≫= f) ≫= g = run ≫= (fun a => f a ≫= g).
Proof. destruct run; reflexivity. Qed.

Lemma v_add_num (a b : Q) : v_add (VNum a) (VNum b) = Ret (VNum (Qred (a + b))).
Proof. reflexivity. Qed.

Lemma v_sub_num (a b : Q) : v_sub (VNum a) (VNum b) = Ret (VNum (Qred (a - b))).
Proof. reflexivity. Qed.

Lemma v_mul_num (a b : Q) : v_mul (VNum a) (VNum b) = Ret (VNum (Qred (a * b))).
Proof. reflexivity. Qed.

Lemma v_neg_num (a : Q) : v_neg (VNum a) = Ret (VNum (Qred (- a))).
Proof. reflexivity. Qed.

Lemma v_div_num (a b : Q) :
  ~ (b == 0)%Q -> v_div (VNum a) (VNum b) = Ret (VNum (Qred (a / b))).
Proof.
  intros Hb. unfold v_div. cbn.
  destruct (Qeq_bool b 0) eqn:E; [|reflexivity].
  apply Qeq_bool_iff in E. contradiction.
Qed.

Lemma v_lt_num (a b : Q) : v_lt (VNum a) (VNum b) = Ret (Qlt_bool a b).
Proof. reflexivity. Qed.

Lemma v_le_num (a b : Q) : v_le (VNum a) (VNum b) = Ret (Qle_bool a b).
Proof. reflexivity. Qed.

Lemma v_gt_num (a b : Q) : v_gt (VNum a) (VNum b) = Ret (Qlt_bool b a).
Proof. reflexivity. Qed.

Lemma v_ge_num (a b : Q) : v_ge (VNum a) (VNum b) = Ret (Qle_bool b a).
Proof. reflexivity. Qed.

Lemma setitem_VDict (d : dict) (k : string) (v : value) :
  setitem (VDict d) k v = Ret (VDict (<[k := v]> d)).
Proof. reflexivity. Qed.

(** Rewriting a run on numbers into its result. *)
Ltac py_num :=
  repeat first
    [ rewrite v_add_num | rewrite v_sub_num | rewrite v_mul_num
    | rewrite v_neg_num | rewrite v_lt_num | rewrite v_le_num
    | rewrite v_gt_num | rewrite v_ge_num | rewrite setitem_VDict
    | rewrite bind_Ret ].

(** ** Bull call spread *)

Section Spread.

Import Float64 OptionsStrategy64.

Lemma iloc0_head (df : list quote) (r : quote) :
  iloc0 df = Ret r -> head df = Some r.
Proof. destruct df; [discriminate|]. intros H. injection H as <-. reflexivity. Qed.

Lemma head_In {A : Type} (l : list A) (x : A) : head l = Some x -> In x l.
Proof. destruct l; [discriminate|]. intros H. injection H as <-. left. reflexivity. Qed.

Lemma last_default {A : Type} (l : list A) (d : A) :
  l <> [] -> last l = Some (List.last l d).
Proof.
  induction l as [|x [|y l] IH]; intros Hne; [contradiction|reflexivity|].
  change (last (y :: l) = Some (List.last (y :: l) d)).
  apply IH. discriminate.
Qed.

(** A row that the selection of lines 51 to 54 (or 56 to 59) can yield:
    a row of the chain at the expiry date, of the option type and the
    strike asked for. *)
Lemma selection_row (rows : list quote) (e : string) (k : float) (ty : string)
    (r : quote) :
  In r (selection (List.filter (fun r => String.eqb (expiration r) e) rows) k ty) ->
  In r rows /\ expiration r = e /\ optionType r = ty /\ eqb (strike r) k = true.
Proof.
  intros Hr. apply List.filter_In in Hr as [Hr Hsel].
  apply List.filter_In in Hr as [Hr Hexp].
  apply andb_true_iff in Hsel as [Hk Hty].
  apply String.eqb_eq in Hexp, Hty. auto.
Qed.

End Spread.

(** The claim read in exact arithmetic fails: with the calls at 98 and
    102 quoted at 2.2 and 0.7 the code stores a max_loss of
    150.00000000000003, which is neither 150 nor the exact value of
    (long premium - short premium) * 100 on the two doubles, and a
    max_profit of 250.0, where (short strike - long strike) * 100 -
    max_loss is 249.99999999999997. *)
Lemma C9_formulas_hold_up_to_rounding_only :
  exists (r : OptionsStrategy64.vertical_spread)
         (long_premium short_premium max_loss max_profit : Q),
    OptionsStrategy64.create_vertical_spread Cases.dime_chain "bull_call"
      Examples.expiry (Float64.of_Z 100) (Float64.decimal 5 2) = Ret (Some r)
    /\ Float64.number
         (OptionsStrategy64.leg_strike (OptionsStrategy64.long_option r)) = Some 98%Q
    /\ Float64.number
         (OptionsStrategy64.leg_strike (OptionsStrategy64.short_option r)) = Some 102%Q
    /\ Float64.number
         (OptionsStrategy64.leg_premium (OptionsStrategy64.long_option r))
       = Some long_premium
    /\ Float64.number
         (OptionsStrategy64.leg_premium (OptionsStrategy64.short_option r))
       = Some short_premium
    /\ Float64.number (OptionsStrategy64.max_loss r) = Some max_loss
    /\ Float64.number (OptionsStrategy64.max_profit r) = Some max_profit
    /\ OptionsStrategy64.max_loss r = S754_finite false 5277655813324801 (-45)
    /\ Float64.of_Z 150 = S754_finite false 5277655813324800 (-45)
    /\ ~ (max_loss == (long_premium - short_premium) * 100)%Q
    /\ ~ (max_profit == (102 - 98) * 100 - max_loss)%Q
    /\ Float64.sub (Float64.mul (Float64.sub (Float64.of_Z 102) (Float64.of_Z 98))
                                (Float64.of_Z 100))
                   (OptionsStrategy64.max_loss r)
       <> OptionsStrategy64.max_profit r.
Proof.
  eexists _, _, _, _, _.
  split; [vm_compute; reflexivity|].
  cbn [OptionsStrategy64.long_option OptionsStrategy64.short_option
       OptionsStrategy64.leg_strike OptionsStrategy64.leg_premium
       OptionsStrategy64.max_loss OptionsStrategy64.max_profit].
  do 6 (split; [vm_compute; reflexivity|]).
  split; [reflexivity|]. split; [reflexivity|].
  split; [|split].
  - intros H. vm_compute in H. discriminate H.
  - intros H. vm_compute in H. discriminate H.
  - intros H. vm_compute in H. discriminate H.
Qed.

(** C9.  In the double-precision arithmetic of the code, every bull call
    spread that [create_vertical_spread] builds buys the first and sells
    the last candidate strike of [find_strike_prices]; its premiums are
    the last prices of the first call rows of the chain at the expiry
    date with those strikes; and
    max_loss = (long premium - short premium) * 100,
    max_profit = (short strike - long strike - max_loss / 100) * 100 and
    break_even = long strike + max_loss / 100, every operation rounded.
    With the candidate strikes 98 and 102 and the premiums 4.0 and 1.5
    no operation rounds: max_loss is 250, max_profit 150 and break_even
    100.5. *)
Theorem C9_bull_call_spread_payoff
    (chain : OptionsStrategy64.frame) (expiry_date : string)
    (current_price width : Float64.float) (r : OptionsStrategy64.vertical_spread)
    (Hbuilt : OptionsStrategy64.create_vertical_spread
                chain "bull_call" expiry_date current_price width = Ret (Some r)) :
  (exists (rows : list OptionsStrategy64.quote) (strikes : list Float64.float)
          (long_call short_call : OptionsStrategy64.quote),
     let long_strike := OptionsStrategy64.leg_strike (OptionsStrategy64.long_option r) in
     let short_strike := OptionsStrategy64.leg_strike (OptionsStrategy64.short_option r) in
     let long_premium := OptionsStrategy64.leg_premium (OptionsStrategy64.long_option r) in
     let short_premium := OptionsStrategy64.leg_premium (OptionsStrategy64.short_option r) in
     let at_expiry :=
       List.filter (fun q => String.eqb (OptionsStrategy64.expiration q) expiry_date)
                   rows in
     chain = Some rows
     /\ OptionsStrategy64.find_strike_prices chain current_price width = Ret strikes
     /\ (2 <= length strikes)%nat
     /\ head strikes = Some long_strike
     /\ last strikes = Some short_strike
     /\ head (OptionsStrategy64.selection at_expiry long_strike "CALL") = Some long_call
     /\ head (OptionsStrategy64.selection at_expiry short_strike "CALL") = Some short_call
     /\ (In long_call rows
         /\ OptionsStrategy64.expiration long_call = expiry_date
         /\ OptionsStrategy64.optionType long_call = "CALL"
         /\ Float64.eqb (OptionsStrategy64.strike long_call) long_strike = true)
     /\ (In short_call rows
         /\ OptionsStrategy64.expiration short_call = expiry_date
         /\ OptionsStrategy64.optionType short_call = "CALL"
         /\ Float64.eqb (OptionsStrategy64.strike short_call) short_strike = true)
     /\ long_premium = OptionsStrategy64.lastPrice long_call
     /\ short_premium = OptionsStrategy64.lastPrice short_call
     /\ OptionsStrategy64.strategy r = "bull_call_spread"
     /\ OptionsStrategy64.leg_type (OptionsStrategy64.long_option r) = "CALL"
     /\ OptionsStrategy64.leg_type (OptionsStrategy64.short_option r) = "CALL"
     /\ OptionsStrategy64.expiry r = expiry_date
     /\ OptionsStrategy64.max_loss r
        = Float64.mul (Float64.sub long_premium short_premium) (Float64.of_Z 100)
     /\ OptionsStrategy64.max_profit r
        = Float64.mul
            (Float64.sub (Float64.sub short_strike long_strike)
                         (Float64.div (OptionsStrategy64.max_loss r) (Float64.of_Z 100)))
            (Float64.of_Z 100)
     /\ OptionsStrategy64.break_even r
        = Float64.add long_strike
            (Float64.div (OptionsStrategy64.max_loss r) (Float64.of_Z 100)))
  /\ (OptionsStrategy64.find_strike_prices Cases.spread_chain
        (Float64.of_Z 100) (Float64.decimal 5 2)
      = Ret [Float64.of_Z 98; Float64.of_Z 102]
      /\ exists r0 : OptionsStrategy64.vertical_spread,
           OptionsStrategy64.create_vertical_spread Cases.spread_chain "bull_call"
             Examples.expiry (Float64.of_Z 100) (Float64.decimal 5 2) = Ret (Some r0)
           /\ OptionsStrategy64.leg_premium (OptionsStrategy64.long_option r0)
              = Float64.decimal 40 1
           /\ OptionsStrategy64.leg_premium (OptionsStrategy64.short_option r0)
              = Float64.decimal 15 1
           /\ OptionsStrategy64.max_loss r0 = Float64.of_Z 250
           /\ OptionsStrategy64.max_profit r0 = Float64.of_Z 150
           /\ OptionsStrategy64.break_even r0 = Float64.decimal 1005 1
           /\ Float64.number (OptionsStrategy64.max_loss r0) = Some 250%Q
           /\ Float64.number (OptionsStrategy64.max_profit r0) = Some 150%Q
           /\ Float64.number (OptionsStrategy64.break_even r0) = Some (201 # 2)%Q).
Proof.
  split.
  - unfold OptionsStrategy64.create_vertical_spread in Hbuilt.
    destruct chain as [rows|]; [|(cbn [mbind py_bind mret py_ret] in Hbuilt; discriminate Hbuilt)].
    cbn [OptionsStrategy64.at_expiry OptionsStrategy64.column
         mbind py_bind mret py_ret] in Hbuilt.
    destruct (OptionsStrategy64.find_strike_prices (Some rows) current_price width)
      as [strikes|] eqn:Hstrikes; [|(cbn [mbind py_bind mret py_ret] in Hbuilt; discriminate Hbuilt)].
    cbn [mbind py_bind] in Hbuilt.
    destruct (length strikes <? 2)%nat eqn:Hlen; [(cbn [mbind py_bind mret py_ret] in Hbuilt; discriminate Hbuilt)|].
    apply Nat.ltb_ge in Hlen.
    cbn [String.eqb Ascii.eqb Bool.eqb andb] in Hbuilt.
    destruct (OptionsStrategy64.iloc0 (OptionsStrategy64.selection _ (hd _ _) _))
      as [long_call|] eqn:Hlong;
      [|(cbn [mbind py_bind mret py_ret] in Hbuilt; discriminate Hbuilt)].
    cbn [mbind py_bind] in Hbuilt.
    destruct (OptionsStrategy64.iloc0 _) as [short_call|] eqn:Hshort in Hbuilt;
      [|(cbn [mbind py_bind mret py_ret] in Hbuilt; discriminate Hbuilt)].
    cbn [mbind py_bind mret py_ret] in Hbuilt.
    injection Hbuilt as <-.
    cbn [OptionsStrategy64.long_option OptionsStrategy64.short_option
         OptionsStrategy64.leg_strike OptionsStrategy64.leg_premium
         OptionsStrategy64.leg_type OptionsStrategy64.strategy
         OptionsStrategy64.expiry OptionsStrategy64.max_loss
         OptionsStrategy64.max_profit OptionsStrategy64.break_even].
    apply iloc0_head in Hlong, Hshort.
    exists rows, strikes, long_call, short_call. cbv zeta.
    split; [reflexivity|]. split; [reflexivity|]. split; [exact Hlen|].
    split; [destruct strikes; [cbn in Hlen; lia|reflexivity]|].
    split.
    { apply last_default. destruct strikes; [cbn in Hlen; lia|discriminate]. }
    split; [exact Hlong|]. split; [exact Hshort|].
    split; [exact (selection_row _ _ _ _ _ (head_In _ _ Hlong))|].
    split; [exact (selection_row _ _ _ _ _ (head_In _ _ Hshort))|].
    repeat split.
  - split; [vm_compute; reflexivity|].
    eexists. split; [vm_compute; reflexivity|].
    repeat split; vm_compute; reflexivity.
Qed.

Lemma C9_bull_call_spread_payoff_witness :
  exists r0 : OptionsStrategy64.vertical_spread,
    OptionsStrategy64.create_vertical_spread Cases.spread_chain "bull_call"
      Examples.expiry (Float64.of_Z 100) (Float64.decimal 5 2) = Ret (Some r0)
    /\ OptionsStrategy64.max_loss r0
       = Float64.mul
           (Float64.sub
              (OptionsStrategy64.leg_premium (OptionsStrategy64.long_option r0))
              (OptionsStrategy64.leg_premium (OptionsStrategy64.short_option r0)))
           (Float64.of_Z 100).
Proof.
  eexists. split; [vm_compute; reflexivity|].
  refine (match C9_bull_call_spread_payoff Cases.spread_chain Examples.expiry
                  (Float64.of_Z 100) (Float64.decimal 5 2) _ _ with
          | conj (ex_intro _ _ (ex_intro _ _ (ex_intro _ _ (ex_intro _ _ H)))) _ =>
              _
          end).
  - vm_compute. reflexivity.
  - apply H.
Defined.

(** ** The technical snapshot *)

Section NullSnapshot.

Import TradingStrategy.

(** A run of the [try] block that can only return the null snapshot. *)
Definition only_null (run : py value) : Prop :=
  forall v, run = Ret v -> v = null_snapshot.

Lemma only_null_raise (e : exn) : only_null (Raise e).
Proof. intros v H. discriminate H. Qed.

Lemma only_null_ret : only_null (Ret null_snapshot).
Proof. intros v H. congruence. Qed.

Lemma only_null_bind {A : Type} (run : py A) (k : A -> py value) :
  (forall a, only_null (k a)) -> only_null (run ≫= k).
Proof.
  intros Hk. destruct run as [a|e]; cbn; [apply Hk | apply only_null_raise].
Qed.

Ltac null_step :=
  match goal with
  | |- only_null (Raise _) => apply only_null_raise
  | |- only_null (Ret null_snapshot) => apply only_null_ret
  | |- only_null (mret null_snapshot) => apply only_null_ret
  | |- only_null ((unbound_name _ ≫= _) ≫= _) => apply only_null_raise
  | |- only_null (_ ≫= _) => apply only_null_bind; intros ?
  | |- only_null (match ?x with _ => _ end) => destruct x
  | |- only_null (let _ := _ in _) => cbv zeta
  end.

Lemma technical_signals_try_only_null
    (ind : indicators) (history : py (option DataFrame)) :
  only_null (technical_signals_try ind history).
Proof. unfold technical_signals_try. repeat null_step. Qed.

Lemma get_technical_signals_null
    (ind : indicators) (history : py (option DataFrame)) :
  get_technical_signals ind history = null_snapshot.
Proof.
  unfold get_technical_signals.
  pose proof (technical_signals_try_only_null ind history) as H.
  destruct (technical_signals_try ind history); [apply H|]; reflexivity.
Qed.

Lemma should_enter_trade_none (ind : indicators) (self : strategy) (f : feed) :
  should_enter_trade ind self f = VNone.
Proof.
  unfold should_enter_trade. rewrite get_technical_signals_null. reflexivity.
Qed.

(** With the class of the source, a turn of the loop of [check_signals]
    leaves the state and the signals as they are. *)
Lemma check_loop_no_entry (ind : indicators) (w : PortfolioManager.world)
    (trades : list value) (strategies : list (string * strategy))
    (st : PortfolioManager.state) (signals : list value) :
  PortfolioManager.check_loop (class ind) w trades strategies st signals
  = (st, signals).
Proof.
  induction strategies as [|[symbol strategy] rest IH]; [reflexivity|].
  cbn [PortfolioManager.check_loop].
  unfold PortfolioManager.check_symbol.
  destruct (PortfolioManager.holds_open trades symbol) as [[|]|]; [apply IH| |apply IH].
  destruct (v_lt _ _) as [[|]|]; [reflexivity| |apply IH].
  cbn [m_should_enter_trade class].
  rewrite should_enter_trade_none. cbn. apply IH.
Qed.

End NullSnapshot.

(** C2.  Whatever the price history, [get_technical_signals] returns the
    null snapshot (price and RSI [None], every flag [False]): a history
    of fifty bars with the delivered columns raises [KeyError] at
    [df['MACD']], and one that carries the five missing columns raises
    [NameError] at [rolling_mean]; both end in the exception handler.
    Hence [should_enter_trade] returns [None] for every instrument and
    [check_signals] enters no trade: it returns no signal and leaves the
    available capital and the trade store as they were. *)
Theorem C2_technical_signals_always_null
    (ind : TradingStrategy.indicators) (self : TradingStrategy.strategy)
    (f : TradingStrategy.feed) (w : PortfolioManager.world)
    (st : PortfolioManager.state) :
  TradingStrategy.get_technical_signals ind (TradingStrategy.history f)
    = TradingStrategy.null_snapshot
  /\ (getitem TradingStrategy.null_snapshot "price" = Ret VNone
      /\ getitem TradingStrategy.null_snapshot "rsi" = Ret VNone
      /\ getitem TradingStrategy.null_snapshot "oversold" = Ret (VBool false)
      /\ getitem TradingStrategy.null_snapshot "overbought" = Ret (VBool false)
      /\ getitem TradingStrategy.null_snapshot "uptrend" = Ret (VBool false)
      /\ getitem TradingStrategy.null_snapshot "near_support" = Ret (VBool false)
      /\ getitem TradingStrategy.null_snapshot "near_resistance" = Ret (VBool false))
  /\ (TradingStrategy.technical_signals_try Examples.plain_indicators
        (Ret (Some Examples.ohlcv)) = Raise (KeyError "MACD")
      /\ TradingStrategy.technical_signals_try Examples.plain_indicators
           (Ret (Some Examples.ohlcv_extended)) = Raise (NameError "rolling_mean"))
  /\ TradingStrategy.should_enter_trade ind self f = VNone
  /\ ((PortfolioManager.check_signals (TradingStrategy.class ind) w st).1 = Ret []
      \/ exists e,
           (PortfolioManager.check_signals (TradingStrategy.class ind) w st).1
           = Raise e)
  /\ PortfolioManager.store
       (PortfolioManager.check_signals (TradingStrategy.class ind) w st).2
     = PortfolioManager.store st
  /\ PortfolioManager.available_capital
       (PortfolioManager.self
          (PortfolioManager.check_signals (TradingStrategy.class ind) w st).2)
     = PortfolioManager.available_capital (PortfolioManager.self st).
Proof.
  split; [apply get_technical_signals_null|].
  split; [repeat split; reflexivity|].
  split; [split; vm_compute; reflexivity|].
  split; [apply should_enter_trade_none|].
  unfold PortfolioManager.check_signals.
  destruct (_ ≫= _) as [size|e]; cbn [fst snd].
  - rewrite check_loop_no_entry. cbn. repeat split. left. reflexivity.
  - repeat split. right. exists e. reflexivity.
Qed.

(** ** The trailing stop *)

Section TrailingStop.

Import TradingStrategy.

Lemma monitor_trade_not_open (self : strategy) (tech : value) (m : market)
    (d : dict) (status : string) :
  d !! "status" = Some (VStr status) -> status <> "open" ->
  monitor_trade self tech m (VDict d) = Ret (VDict d).
Proof.
  intros Hst Hne. unfold monitor_trade.
  rewrite (getitem_Some _ _ _ Hst). py_num. cbn [is_str].
  destruct (String.eqb_spec status "open"); [contradiction|reflexivity].
Qed.

(** [None - entry] raises whatever [entry] is. *)
Lemma v_sub_none (entry : value) : v_sub VNone entry = Raise TypeError.
Proof. destruct entry; reflexivity. Qed.

(** On the snapshot that [get_technical_signals] returns, the loop body
    raises on an open equity trade: at [trade['entry_price']] when the
    key is missing, else at [current_price - entry]. *)
Lemma monitor_trade_open_equity (self : strategy) (m : market) (d : dict) :
  d !! "status" = Some (VStr "open") ->
  d !! "type" = Some (VStr "equity") ->
  monitor_trade self null_snapshot m (VDict d)
  = match d !! "entry_price" with
    | Some _ => Raise TypeError
    | None => Raise (KeyError "entry_price")
    end.
Proof.
  intros Hopen Hty. unfold monitor_trade, monitor_equity.
  rewrite (getitem_Some _ _ _ Hopen), (getitem_Some _ _ _ Hty).
  replace (getitem null_snapshot "price") with (Ret VNone : py value) by reflexivity.
  cbn [mbind py_bind mret py_ret is_str String.eqb Ascii.eqb Bool.eqb].
  destruct (d !! "entry_price") as [entry|] eqn:Hentry.
  - rewrite (getitem_Some _ _ _ Hentry). cbn [mbind py_bind].
    rewrite v_sub_none. reflexivity.
  - cbn [getitem]. rewrite Hentry. reflexivity.
Qed.

Lemma monitor_loop_aborts (self : strategy) (tech : value) (m : market)
    (before after : list value) (trade : value) (e : exn) :
  monitor_trade self tech m trade = Raise e ->
  exists e', monitor_loop self tech m (before ++ trade :: after) = Raise e'.
Proof.
  intros Hraise. induction before as [|t before [e' IH]]; cbn [app monitor_loop].
  - rewrite Hraise. eauto.
  - destruct (monitor_trade self tech m t); [|cbn; eauto].
    rewrite bind_Ret, IH. cbn. eauto.
Qed.

End TrailingStop.

(** In doubles the product [112 * 0.95] of line 350 is
    106.39999999999999, the double below 106.4. *)
Example trailed_stop_in_doubles :
  Float64.mul (Float64.of_Z 112) (Float64.decimal 95 2)
  = S754_finite false 7487234380503449 (-46)
  /\ Float64.decimal 1064 1 = S754_finite false 7487234380503450 (-46).
Proof. split; vm_compute; reflexivity. Qed.

(** C10.  [monitor_positions] never trails a stop.  Whatever the price
    history, the snapshot it reads quotes no price, so a pass over a
    store that holds an open equity position raises at
    [current_price - entry] (or at [trade['entry_price']]): the stop is
    not raised, the position is not closed and nothing is saved.  On
    the position of the claim, entry 100 and stop 95, every pass raises
    [TypeError]. *)
Theorem C10_trailing_stop_never_runs
    (ind : TradingStrategy.indicators) (self : TradingStrategy.strategy)
    (f : TradingStrategy.feed) (before after : list value) (d : dict)
    (Hopen : d !! "status" = Some (VStr "open"))
    (Htype : d !! "type" = Some (VStr "equity")) :
  (exists e : exn,
     TradingStrategy.monitor_positions ind self f (before ++ VDict d :: after)
     = Raise e)
  /\ TradingStrategy.monitor_positions ind self f [VDict d]
     = match d !! "entry_price" with
       | Some _ => Raise TypeError
       | None => Raise (KeyError "entry_price")
       end
  /\ TradingStrategy.monitor_positions ind self f
       [VDict (Examples.equity_trade 100 95 115 10)]
     = Raise TypeError.
Proof.
  unfold TradingStrategy.monitor_positions, TradingStrategy.monitor_positions_on.
  rewrite get_technical_signals_null.
  pose proof (monitor_trade_open_equity self (TradingStrategy.mkt f) d Hopen Htype)
    as Hraise.
  split; [|split].
  - destruct (d !! "entry_price");
      exact (monitor_loop_aborts _ _ _ before after _ _ Hraise).
  - cbn [TradingStrategy.monitor_loop]. rewrite Hraise.
    destruct (d !! "entry_price"); reflexivity.
  - cbn [TradingStrategy.monitor_loop].
    rewrite (monitor_trade_open_equity self (TradingStrategy.mkt f)
               (Examples.equity_trade 100 95 115 10)) by reflexivity.
    reflexivity.
Qed.

Lemma C10_trailing_stop_never_runs_witness :
  (exists e : exn,
     TradingStrategy.monitor_positions Examples.plain_indicators Examples.aapl
       (Examples.feed_of Examples.quiet_market)
       ([VDict Examples.closed_equity_trade]
          ++ VDict (Examples.equity_trade 100 95 115 10) :: [])
     = Raise e)
  /\ TradingStrategy.monitor_positions Examples.plain_indicators Examples.aapl
       (Examples.feed_of Examples.quiet_market)
       [VDict (Examples.equity_trade 100 95 115 10)]
     = match Examples.equity_trade 100 95 115 10 !! "entry_price" with
       | Some _ => Raise TypeError
       | None => Raise (KeyError "entry_price")
       end
  /\ TradingStrategy.monitor_positions Examples.plain_indicators Examples.aapl
       (Examples.feed_of Examples.quiet_market)
       [VDict (Examples.equity_trade 100 95 115 10)]
     = Raise TypeError.
Proof.
  apply (C10_trailing_stop_never_runs Examples.plain_indicators Examples.aapl
           (Examples.feed_of Examples.quiet_market)
           [VDict Examples.closed_equity_trade] []
           (Examples.equity_trade 100 95 115 10)).
  - reflexivity.
  - reflexivity.
Defined.

(** ** Closing a position *)

Section Closing.

Import TradingStrategy.

Ltac py_run H :=
  repeat first [rewrite setitem_VDict in H | rewrite bind_Ret in H].

Lemma as_float_not_none (v : value) (x : option Q) :
  as_float v = Ret x -> is_none v = false.
Proof. destruct v; cbn; intros H; try discriminate H; reflexivity. Qed.

Lemma of_float_not_none (x : option Q) : is_none (of_float x) = false.
Proof. destruct x; reflexivity. Qed.

Lemma arith_not_none (op : Q -> Q -> Q) (a b r : value) :
  arith op a b = Ret r -> is_none r = false /\ is_none a = false.
Proof.
  unfold arith. intros H.
  destruct (as_float a) as [x|] eqn:Ha; [|discriminate H].
  destruct (as_float b) as [y|] eqn:Hb; [|discriminate H].
  cbn [mbind py_bind mret py_ret] in H. injection H as <-.
  split; [apply of_float_not_none | eapply as_float_not_none; eassumption].
Qed.

Lemma trail_stop_loss_inv (cp pnl : value) (d : dict) (r : value) :
  trail_stop_loss cp pnl (VDict d) = Ret r ->
  r = VDict d \/ exists new_stop, r = VDict (<["stop_loss" := new_stop]> d).
Proof.
  unfold trail_stop_loss. intros H.
  destruct (v_gt pnl (num 10)) as [[|]|]; cbn [mbind py_bind mret py_ret] in H; [| |discriminate H].
  - destruct (v_mul cp (num 0.95)) as [ns|]; cbn [mbind py_bind mret py_ret] in H; [|discriminate H].
    destruct (getitem (VDict d) "stop_loss" ≫= _) as [[|]|]; cbn [mbind py_bind mret py_ret] in H;
      [| |discriminate H]; injection H as <-; eauto.
  - injection H as <-. eauto.
Qed.

(** What a close leaves in an equity position. *)
Definition closed_equity (m : market) (price profit : value) (d : dict) : dict :=
  <["profit" := profit]>
    (<["exit_price" := price]>
       (<["exit_date" := VStr (now m)]>
          (<["status" := VStr "closed"]> d))).

Lemma exit_equity_inv (self : strategy) (m : market) (cp entry pnl : value)
    (d : dict) (r : value) :
  exit_equity self m cp entry pnl (VDict d) = Ret r ->
  r = VDict d
  \/ exists profit,
       is_none profit = false /\ is_none cp = false
       /\ r = VDict (closed_equity m cp profit d).
Proof.
  unfold exit_equity. intros H.
  destruct (p_or _ _) as [[|]|]; cbn [mbind py_bind mret py_ret] in H; [| |discriminate H].
  - destruct (v_sub cp entry) as [x|] eqn:Hsub; cbn [mbind py_bind mret py_ret] in H; [|discriminate H].
    py_run H.
    destruct (getitem _ "quantity") as [q|]; cbn [mbind py_bind mret py_ret] in H; [|discriminate H].
    destruct (v_mul x q) as [profit|] eqn:Hmul; cbn [mbind py_bind mret py_ret] in H; [|discriminate H].
    py_run H. injection H as <-. right. exists profit.
    split; [apply (arith_not_none _ _ _ _ Hmul)|].
    split; [apply (arith_not_none _ _ _ _ Hsub)|reflexivity].
  - injection H as <-. left. reflexivity.
Qed.

(** What a close leaves in an options position. *)
Definition closed_options (m : market) (profit : value) (d : dict) : dict :=
  <["profit" := profit]>
    (<["exit_date" := VStr (now m)]>
       (<["status" := VStr "closed"]> d)).

Lemma exit_options_inv (m : market) (pnl : value) (d : dict) (r : value) :
  exit_options m pnl (VDict d) = Ret r ->
  r = VDict d \/ r = VDict (closed_options m pnl d).
Proof.
  unfold exit_options. intros H.
  destruct (p_or _ _) as [[|]|]; cbn [mbind py_bind mret py_ret] in H; [| |discriminate H];
    py_run H; injection H as <-; eauto.
Qed.

Lemma unrealized_pnl_not_none (m : market) (trade r : value) :
  unrealized_pnl m trade = Ret r -> is_none r = false.
Proof.
  unfold unrealized_pnl. intros H.
  destruct (legs_of trade) as [legs|]; cbn [mbind py_bind mret py_ret] in H; [|discriminate H].
  destruct (revalue m trade legs (num 0)) as [cv|]; cbn [mbind py_bind mret py_ret] in H; [|discriminate H].
  destruct (initial_value legs (num 0)) as [iv|]; cbn [mbind py_bind mret py_ret] in H; [|discriminate H].
  apply (arith_not_none _ _ _ _ H).
Qed.

(** The results of one pass of the loop body on a trade dict. *)
Inductive monitored (m : market) (tech : value) (d : dict) : value -> Prop :=
| monitored_same : monitored m tech d (VDict d)
| monitored_trailed (new_stop : value) :
    d !! "type" = Some (VStr "equity") ->
    monitored m tech d (VDict (<["stop_loss" := new_stop]> d))
| monitored_equity_closed (d0 : dict) (price profit : value) :
    d !! "type" = Some (VStr "equity") ->
    (d0 = d \/ exists new_stop, d0 = <["stop_loss" := new_stop]> d) ->
    getitem tech "price" = Ret price ->
    is_none price = false -> is_none profit = false ->
    monitored m tech d (VDict (closed_equity m price profit d0))
| monitored_options_closed (profit : value) :
    d !! "type" = Some (VStr "options") ->
    is_none profit = false ->
    monitored m tech d (VDict (closed_options m profit d)).

Lemma is_str_eq (v : value) (s : string) : is_str v s = true -> v = VStr s.
Proof.
  destruct v; cbn; try discriminate. intros H. apply String.eqb_eq in H. congruence.
Qed.

Lemma monitor_trade_inv (self : strategy) (tech : value) (m : market)
    (d : dict) (r : value) :
  monitor_trade self tech m (VDict d) = Ret r -> monitored m tech d r.
Proof.
  unfold monitor_trade. intros H.
  destruct (getitem (VDict d) "status") as [status|]; cbn [mbind py_bind mret py_ret] in H; [|discriminate H].
  destruct (is_str status "open"); [|injection H as <-; constructor].
  destruct (getitem tech "price") as [cp|] eqn:Hcp; cbn [mbind py_bind mret py_ret] in H; [|discriminate H].
  destruct (getitem (VDict d) "type") as [ty|] eqn:Hty; cbn [mbind py_bind mret py_ret] in H; [|discriminate H].
  apply getitem_VDict in Hty.
  destruct (is_str ty "equity") eqn:Heq; cbn [mbind py_bind mret py_ret] in H.
  - apply is_str_eq in Heq. subst ty.
    unfold monitor_equity in H. rewrite Hcp in H. cbn [mbind py_bind mret py_ret] in H.
    destruct (getitem (VDict d) "entry_price") as [entry|]; cbn [mbind py_bind mret py_ret] in H; [|discriminate H].
    destruct (v_sub cp entry ≫= _) as [pnl|]; cbn [mbind py_bind mret py_ret] in H; [|discriminate H].
    destruct (trail_stop_loss cp pnl (VDict d)) as [t1|] eqn:Ht; cbn [mbind py_bind mret py_ret] in H; [|discriminate H].
    apply trail_stop_loss_inv in Ht.
    destruct Ht as [-> | [ns ->]];
      apply exit_equity_inv in H;
      destruct H as [-> | (profit & Hp & Hc & ->)].
    + constructor.
    + eapply monitored_equity_closed; eauto.
    + apply monitored_trailed; assumption.
    + eapply monitored_equity_closed; eauto.
  - destruct (is_str ty "options") eqn:Hop; [|injection H as <-; constructor].
    apply is_str_eq in Hop. subst ty.
    unfold monitor_options in H.
    destruct (rows m); [injection H as <-; constructor|].
    destruct (unrealized_pnl m (VDict d)) as [u|] eqn:Hu; cbn [mbind py_bind mret py_ret] in H; [|discriminate H].
    apply exit_options_inv in H. destruct H as [-> | ->]; [constructor|].
    apply monitored_options_closed; [assumption|].
    eapply unrealized_pnl_not_none; eassumption.
Qed.

(** A trade that is not open passes through the loop unchanged. *)
Lemma monitor_loop_closed (self : strategy) (tech : value) (m : market)
    (trades : list value) :
  Forall (fun t => exists d : dict,
            t = VDict d /\ d !! "status" = Some (VStr "closed")) trades ->
  monitor_positions_on self tech m trades = Ret trades.
Proof.
  unfold monitor_positions_on.
  induction 1 as [|t rest (d & -> & Hst) _ IH]; [reflexivity|].
  cbn [monitor_loop].
  rewrite (monitor_trade_not_open self tech m d "closed" Hst) by discriminate.
  rewrite bind_Ret, IH. reflexivity.
Qed.

(** A leg whose row is missing from the chain is skipped: the running
    value is left as it is and the loop goes on. *)
Lemma revalue_leg_missing (m : market) (trade leg current_value k ty e : value) :
  getitem leg "strike" = Ret k ->
  getitem leg "type" = Ret ty ->
  getitem trade "expiration" = Ret e ->
  List.filter (matches k ty e) (rows m) = [] ->
  revalue_leg m trade leg current_value = Ret current_value.
Proof.
  intros Hk Hty He Hrows. unfold revalue_leg.
  rewrite Hk, Hty, He. cbn [mbind py_bind]. rewrite Hrows. reflexivity.
Qed.

End Closing.

(** C6.  A leg whose quote is missing from a non-empty chain does not
    make the valuation unavailable.  The spread of the example stays
    open when both legs are quoted at their entry premiums; when the row
    of its long leg is missing, [monitor_positions] values it on the
    short leg alone (unrealized P&L 400 against a take-profit of 75) and
    closes it with profit 400.  Only an empty chain leaves the position
    as it is. *)
Theorem C6_missing_quote_forces_close (ind : TradingStrategy.indicators) :
  TradingStrategy.monitor_positions ind Examples.aapl
    (Examples.feed_of Examples.unchanged_chain) [VDict Examples.options_trade]
  = Ret [VDict Examples.options_trade]
  /\ TradingStrategy.unrealized_pnl Examples.unchanged_chain
       (VDict Examples.options_trade) = Ret (VNum 0)
  /\ TradingStrategy.unrealized_pnl Examples.partial_chain
       (VDict Examples.options_trade) = Ret (VNum 400)
  /\ (exists closed : dict,
        TradingStrategy.monitor_positions ind Examples.aapl
          (Examples.feed_of Examples.partial_chain) [VDict Examples.options_trade]
        = Ret [VDict closed]
        /\ closed !! "status" = Some (VStr "closed")
        /\ closed !! "profit" = Some (VNum 400)
        /\ closed !! "stop_loss" = Some (VNum 200)
        /\ closed !! "take_profit" = Some (VNum 75))
  /\ (forall trade : value,
        TradingStrategy.monitor_options Examples.quiet_market trade = Ret trade
        /\ TradingStrategy.monitor_options (Examples.chain []) trade = Ret trade).
Proof.
  unfold TradingStrategy.monitor_positions.
  rewrite !get_technical_signals_null.
  split; [vm_compute; reflexivity|].
  split; [vm_compute; reflexivity|].
  split; [vm_compute; reflexivity|].
  split; [|split; reflexivity].
  eexists. split; [vm_compute; reflexivity|].
  repeat split; vm_compute; reflexivity.
Qed.

(** C7, as the claim states it, fails: an options position that closes
    at its take-profit gets an exit date and a profit, but no exit price
    or value. *)
Lemma C7_options_close_has_no_exit_price :
  exists closed : dict,
    TradingStrategy.monitor_trade Examples.aapl TradingStrategy.null_snapshot
      Examples.moved_chain (VDict Examples.options_trade) = Ret (VDict closed)
    /\ closed !! "status" = Some (VStr "closed")
    /\ closed !! "exit_date" = Some (VStr "2026-11-03 10:00:00")
    /\ closed !! "profit" = Some (VNum 100)
    /\ closed !! "exit_price" = None.
Proof.
  eexists. split; [vm_compute; reflexivity|].
  repeat split; vm_compute; reflexivity.
Qed.

(** C7, amended.  A position that one pass of [monitor_positions] moves
    from open to closed has its exit date and its profit populated, and
    its exit price too when it is an equity position; the close of an
    options position leaves the exit price as it was.  A closed position
    passes through every later pass unchanged. *)
Theorem C7_closed_positions
    (self : TradingStrategy.strategy) (tech_signals : value) (m : market)
    (d d' : dict)
    (Hopen : d !! "status" = Some (VStr "open"))
    (Hrun : TradingStrategy.monitor_trade self tech_signals m (VDict d)
            = Ret (VDict d'))
    (Hclosed : d' !! "status" = Some (VStr "closed")) :
  d' !! "exit_date" = Some (VStr (now m))
  /\ (exists profit, d' !! "profit" = Some profit /\ is_none profit = false)
  /\ (d !! "type" = Some (VStr "equity") ->
      exists price, getitem tech_signals "price" = Ret price
                    /\ d' !! "exit_price" = Some price
                    /\ is_none price = false)
  /\ (d !! "type" = Some (VStr "options") ->
      d' !! "exit_price" = d !! "exit_price")
  /\ (forall (self' : TradingStrategy.strategy) (tech' : value) (m' : market),
        TradingStrategy.monitor_trade self' tech' m' (VDict d') = Ret (VDict d'))
  /\ (forall (self' : TradingStrategy.strategy) (tech' : value) (m' : market)
             (trades : list value),
        Forall (fun t => exists dt : dict,
                  t = VDict dt /\ dt !! "status" = Some (VStr "closed")) trades ->
        TradingStrategy.monitor_positions_on self' tech' m' trades = Ret trades).
Proof.
  assert (Hlater : forall self' tech' m',
            TradingStrategy.monitor_trade self' tech' m' (VDict d') = Ret (VDict d')).
  { intros. apply (monitor_trade_not_open _ _ _ _ "closed"); [assumption|discriminate]. }
  apply monitor_trade_inv in Hrun.
  inversion Hrun as [Heq | ns Hty Heq | d0 price profit Hty Hd0 Hprice Hp Hpr Heq
                    | profit Hty Hpr Heq]; subst.
  - congruence.
  - rewrite lookup_insert_ne in Hclosed by done. congruence.
  - unfold closed_equity.
    split; [rewrite !lookup_insert_ne by done; apply lookup_insert_eq|].
    split; [exists profit; split; [apply lookup_insert_eq|assumption]|].
    split.
    { intros _. exists price. split; [assumption|].
      split; [rewrite lookup_insert_ne by done; apply lookup_insert_eq|assumption]. }
    split; [intros Hopt; congruence|].
    split; [assumption|].
    intros. apply monitor_loop_closed. assumption.
  - unfold closed_options.
    split; [rewrite lookup_insert_ne by done; apply lookup_insert_eq|].
    split; [exists profit; split; [apply lookup_insert_eq|assumption]|].
    split; [intros Heq; congruence|].
    split; [intros _; rewrite !lookup_insert_ne by done; reflexivity|].
    split; [assumption|].
    intros. apply monitor_loop_closed. assumption.
Qed.

Lemma C7_closed_positions_witness :
  Examples.closed_equity_trade !! "exit_date"
    = Some (VStr (now Examples.quiet_market))
  /\ (exists profit, Examples.closed_equity_trade !! "profit" = Some profit
                     /\ is_none profit = false)
  /\ (Examples.equity_trade 100 (532 # 5) 115 10 !! "type" = Some (VStr "equity") ->
      exists price, getitem (Examples.snapshot_at 106) "price" = Ret price
                    /\ Examples.closed_equity_trade !! "exit_price" = Some price
                    /\ is_none price = false)
  /\ (Examples.equity_trade 100 (532 # 5) 115 10 !! "type" = Some (VStr "options") ->
      Examples.closed_equity_trade !! "exit_price"
      = Examples.equity_trade 100 (532 # 5) 115 10 !! "exit_price")
  /\ (forall (self' : TradingStrategy.strategy) (tech' : value) (m' : market),
        TradingStrategy.monitor_trade self' tech' m'
          (VDict Examples.closed_equity_trade)
        = Ret (VDict Examples.closed_equity_trade))
  /\ (forall (self' : TradingStrategy.strategy) (tech' : value) (m' : market)
             (trades : list value),
        Forall (fun t => exists dt : dict,
                  t = VDict dt /\ dt !! "status" = Some (VStr "closed")) trades ->
        TradingStrategy.monitor_positions_on self' tech' m' trades = Ret trades).
Proof.
  apply (C7_closed_positions Examples.aapl (Examples.snapshot_at 106)
           Examples.quiet_market
           (Examples.equity_trade 100 (532 # 5) 115 10)
           Examples.closed_equity_trade).
  - reflexivity.
  - vm_compute. reflexivity.
  - reflexivity.
Defined.

(** ** Entering a trade *)

Section Entering.

Import TradingStrategy.

(** Without a model the [try] block of [should_enter_trade] returns at
    the price guard or raises: line 181 reads [self.ml_model.predict_proba]
    whether or not the [if] of line 171 was taken. *)
Lemma should_enter_trade_try_no_model (self : strategy) (tech : value) (f : feed) :
  has_model self = false ->
  should_enter_trade_try self tech f = Ret VNone
  \/ exists e, should_enter_trade_try self tech f = Raise e.
Proof.
  intros Hno. unfold should_enter_trade_try.
  destruct (getitem tech "price") as [price|e]; cbn [mbind py_bind]; [|eauto].
  destruct (is_none price); [left; reflexivity|].
  destruct (options_signals f) as [options|e]; cbn [mbind py_bind]; [|eauto].
  destruct (analyst_signals f) as [analyst|e]; cbn [mbind py_bind]; [|eauto].
  rewrite Hno. cbn [mbind py_bind mret py_ret].
  right. unfold predict, has_model in *.
  destruct (ml_model self); [eauto | eauto | discriminate Hno].
Qed.

Lemma should_enter_trade_on_no_model (self : strategy) (tech : value) (f : feed) :
  has_model self = false -> should_enter_trade_on self tech f = VNone.
Proof.
  intros Hno. unfold should_enter_trade_on.
  destruct (should_enter_trade_try_no_model self tech f Hno) as [->|[e ->]];
    reflexivity.
Qed.

(** With a model that predicts [q], the signal is dropped unless
    [q >= 0.5]. *)
Lemma should_enter_trade_on_veto (symbol : string) (capital q : Q)
    (tech : value) (f : feed) :
  (0.5 <= q)%Q
  \/ should_enter_trade_on
       (Examples.strategy_with symbol capital (Examples.constant_model q)) tech f
     = VNone.
Proof.
  destruct (Qlt_le_dec q 0.5) as [Hlt|Hle]; [right|left; assumption].
  unfold should_enter_trade_on, should_enter_trade_try.
  destruct (getitem tech "price") as [price|e]; cbn [mbind py_bind]; [|reflexivity].
  destruct (is_none price); [reflexivity|].
  destruct (options_signals f) as [options|e]; cbn [mbind py_bind]; [|reflexivity].
  destruct (analyst_signals f) as [analyst|e]; cbn [mbind py_bind]; [|reflexivity].
  destruct (if has_model _ then _ else _) as [features|e];
    cbn [mbind py_bind]; [|reflexivity].
  unfold predict. cbn [ml_model Examples.strategy_with Examples.constant_model].
  destruct features as [fs|]; [|reflexivity].
  cbn [mbind py_bind format_2f as_float mret py_ret].
  unfold num. rewrite v_lt_num.
  assert (Hb : Qlt_bool q (Qred 0.5) = true).
  { apply Qlt_bool_iff. rewrite Qred_correct. assumption. }
  rewrite Hb. reflexivity.
Qed.

(** A run of [execute_trade] that returns no trade: [None] with the
    store untouched, or an exception. *)
Definition no_trade (trades : list value) (run : py (value * list value)) : Prop :=
  run = Ret (VNone, trades) \/ exists e, run = Raise e.

Lemma no_trade_bind {A : Type} (trades : list value) (run : py A)
    (k : A -> py (value * list value)) :
  (forall a, no_trade trades (k a)) -> no_trade trades (run ≫= k).
Proof.
  intros Hk. destruct run as [a|e]; cbn [mbind py_bind]; [apply Hk|].
  right. eauto.
Qed.

(** The equity branch of [execute_trade] returns no trade. *)
Lemma execute_trade_on_equity (self : strategy) (tech : value) (f : feed)
    (trades : list value) :
  no_trade trades (execute_trade_on self tech f (VStr "equity") trades).
Proof.
  unfold execute_trade_on.
  do 2 (apply no_trade_bind; intros ?).
  apply no_trade_bind; intros [stop target].
  do 2 (apply no_trade_bind; intros ?).
  cbn [is_str String.eqb Ascii.eqb Bool.eqb].
  apply no_trade_bind; intros quantity.
  apply no_trade_bind; intros too_small.
  destruct too_small.
  - left. reflexivity.
  - right. eexists. reflexivity.
Qed.

End Entering.


(** What lines 171 to 187 would do on a snapshot with a price, which
    no run of [get_technical_signals] produces: a model that predicts
    0.9 lets the entry conditions decide, one that predicts 0.4 drops
    the signal, and without a model line 181 raises inside the [try]. *)
Example model_block_on_a_priced_snapshot :
  TradingStrategy.should_enter_trade_on
    (Examples.strategy_with "AAPL" 2000 (Examples.constant_model 0.9))
    (Examples.snapshot 100 35 99 2) (Examples.live_feed Examples.quiet_market)
  = VStr "equity"
  /\ TradingStrategy.should_enter_trade_on
       (Examples.strategy_with "AAPL" 2000 (Examples.constant_model 0.4))
       (Examples.snapshot 100 35 99 2) (Examples.live_feed Examples.quiet_market)
     = VNone
  /\ TradingStrategy.should_enter_trade_try
       (Examples.strategy_with "AAPL" 2000 TradingStrategy.MlNone)
       (Examples.snapshot 100 35 99 2) (Examples.live_feed Examples.quiet_market)
     = Raise (AttributeError "predict_proba")
  /\ TradingStrategy.should_enter_trade_try
       (Examples.strategy_with "AAPL" 2000 TradingStrategy.NoAttribute)
       (Examples.snapshot 100 35 99 2) (Examples.live_feed Examples.quiet_market)
     = Raise (AttributeError "ml_model").
Proof. repeat split; vm_compute; reflexivity. Qed.

(** C5.  The equity branch of [execute_trade] computes
    [stop_loss_price] and [take_profit_price] but builds the trade from
    the names [stop_loss] and [take_profit], which are bound nowhere.
    So it never returns a trade: for every snapshot, feed and store it
    returns [None] (quantity below 1) or raises.  With a capital of 2000
    and a price of 10 the quantity is 4 and the call raises [NameError];
    on the snapshot that [get_technical_signals] really returns, the
    call raises [KeyError] at [tech_signals['atr']]. *)
Theorem C5_equity_trade_never_built
    (ind : TradingStrategy.indicators) (self : TradingStrategy.strategy)
    (tech_signals : value) (f : TradingStrategy.feed) (trades : list value) :
  (TradingStrategy.execute_trade_on self tech_signals f (VStr "equity") trades
   = Ret (VNone, trades)
   \/ exists e,
        TradingStrategy.execute_trade_on self tech_signals f (VStr "equity") trades
        = Raise e)
  /\ TradingStrategy.execute_trade_on
       (Examples.strategy_with "AAPL" 2000 TradingStrategy.MlNone)
       (Examples.snapshot 10 35 (99 # 10) 0.5)
       (Examples.live_feed Examples.quiet_market) (VStr "equity") []
     = Raise (NameError "stop_loss")
  /\ TradingStrategy.execute_trade_on
       (Examples.strategy_with "AAPL" 2000 TradingStrategy.MlNone)
       (Examples.snapshot 100 35 99 2)
       (Examples.live_feed Examples.quiet_market) (VStr "equity") []
     = Ret (VNone, [])
  /\ TradingStrategy.execute_trade ind self f (VStr "equity") trades
     = Raise (KeyError "atr").
Proof.
  split; [apply (execute_trade_on_equity self tech_signals f trades)|].
  split; [vm_compute; reflexivity|].
  split; [vm_compute; reflexivity|].
  unfold TradingStrategy.execute_trade.
  rewrite get_technical_signals_null. reflexivity.
Qed.


(** ** Selecting an options structure *)

Section Selecting.

Import OptionsStrategy.

(** The structure [select_best_strategy] asks for in a regime, if any. *)
Inductive structure : Type := BullCall | BearPut | Butterfly | IronCondor.

Definition regime (uptrend near_support near_resistance bullish_flow : bool)
    (rsi : Q) : option structure :=
  let is_trending := uptrend || near_support || near_resistance in
  let is_volatile := Qlt_bool 70 rsi || Qlt_bool rsi 30 in
  let is_bullish := uptrend && near_support && bullish_flow in
  let is_bearish := negb uptrend && near_resistance && negb bullish_flow in
  if is_bullish && negb is_volatile then Some BullCall
  else if is_bearish && negb is_volatile then Some BearPut
  else if is_volatile then Some Butterfly
  else if negb is_trending then Some IronCondor
  else None.

Definition build (m : market) (expiry_date : string) (current_price : value)
    (s : structure) : py value :=
  match s with
  | BullCall => create_vertical_spread m "bull_call" expiry_date current_price 0.05
  | BearPut => create_vertical_spread m "bear_put" expiry_date current_price 0.05
  | Butterfly => create_butterfly m expiry_date current_price 0.05
  | IronCondor => create_iron_condor m expiry_date current_price 0.05
  end.

Lemma select_best_strategy_first_match (m : market) (current_price : value)
    (technicals options_flow : dict) (expiry_date : string) (later : list string)
    (uptrend near_support near_resistance bullish_flow : value) (rsi : Q) :
  get_expiry_dates m = expiry_date :: later ->
  technicals !! "uptrend" = Some uptrend ->
  technicals !! "near_support" = Some near_support ->
  technicals !! "near_resistance" = Some near_resistance ->
  technicals !! "rsi" = Some (VNum rsi) ->
  options_flow !! "bullish_flow" = Some bullish_flow ->
  select_best_strategy m current_price (VDict technicals) (VDict options_flow)
  = match regime (truthy uptrend) (truthy near_support) (truthy near_resistance)
                 (truthy bullish_flow) rsi with
    | Some s =>
        strategy ← build m expiry_date current_price s;
        best_strategy (appended strategy)
    | None => Ret VNone
    end.
Proof.
  intros He Hu Hs Hr Hrsi Hb. unfold select_best_strategy, regime, item_truth.
  rewrite He.
  rewrite !(getitem_Some _ _ _ Hu), !(getitem_Some _ _ _ Hs),
          !(getitem_Some _ _ _ Hr), !(getitem_Some _ _ _ Hrsi),
          !(getitem_Some _ _ _ Hb).
  unfold num, p_or, p_and, p_not. py_num.
  unfold Qlt_bool. rewrite Qle_bool_Qred_r, Qle_bool_Qred_l.
  destruct (truthy uptrend), (truthy near_support), (truthy near_resistance),
           (truthy bullish_flow), (Qle_bool rsi 70), (Qle_bool 30 rsi);
    cbn [mbind py_bind mret py_ret negb andb orb build];
    rewrite ?bind_assoc; reflexivity.
Qed.

(** When the builder of the regime returns [None], so does the
    selection: no other structure is tried. *)
Lemma select_best_strategy_no_fallback (m : market) (current_price : value)
    (technicals options_flow : dict) (expiry_date : string) (later : list string)
    (uptrend near_support near_resistance bullish_flow : value) (rsi : Q)
    (s : structure) :
  get_expiry_dates m = expiry_date :: later ->
  technicals !! "uptrend" = Some uptrend ->
  technicals !! "near_support" = Some near_support ->
  technicals !! "near_resistance" = Some near_resistance ->
  technicals !! "rsi" = Some (VNum rsi) ->
  options_flow !! "bullish_flow" = Some bullish_flow ->
  regime (truthy uptrend) (truthy near_support) (truthy near_resistance)
         (truthy bullish_flow) rsi = Some s ->
  build m expiry_date current_price s = Ret VNone ->
  select_best_strategy m current_price (VDict technicals) (VDict options_flow)
  = Ret VNone.
Proof.
  intros He Hu Hs Hr Hrsi Hb Hregime Hbuild.
  rewrite (select_best_strategy_first_match m current_price technicals
             options_flow expiry_date later _ _ _ _ rsi He Hu Hs Hr Hrsi Hb).
  rewrite Hregime, Hbuild. reflexivity.
Qed.

(** With fewer than two candidate strikes a vertical spread is [None]. *)
Lemma create_vertical_spread_few_strikes (m : market) (spread_type : string)
    (expiry_date : string) (current_price : value) (width : Q)
    (quotes : list quote) (strikes : list Q) :
  options_df m = Some quotes ->
  find_strike_prices m current_price width = Ret strikes ->
  (length strikes < 2)%nat ->
  create_vertical_spread m spread_type expiry_date current_price width = Ret VNone.
Proof.
  intros Hdf Hstrikes Hfew. unfold create_vertical_spread, at_expiry, column.
  rewrite Hdf, Hstrikes. cbn [mbind py_bind mret py_ret].
  apply Nat.ltb_lt in Hfew. rewrite Hfew. reflexivity.
Qed.

End Selecting.

(** C8.  [select_best_strategy] builds the structure of the first
    matching regime only, and returns [None] without trying another
    structure when that builder finds too few candidate strikes.  When
    the candidate strikes are there but a quote is missing, the builder
    indexes an empty selection and [select_best_strategy] raises
    [IndexError] instead of returning [None]: here the regime is
    bullish, the strikes are 98 and 102, and the chain has no call at
    98.  The same happens on a fully quoted chain whose single fetched
    expiry is nearer than the selected one: the strikes 98 and 102 come
    from the fetched rows, none of which has the selected expiry.  When
    the chain itself comes back empty the builder raises [KeyError] at
    its first column. *)
Theorem C8_missing_quote_raises :
  OptionsStrategy.select_best_strategy Examples.chain_without_long_call
    (VNum 100) (Examples.snapshot 100 50 99 2) Examples.bullish_flow
  = Raise IndexError
  /\ OptionsStrategy.find_strike_prices Examples.chain_without_long_call
       (VNum 100) 0.05 = Ret [98%Q; 102%Q]
  /\ OptionsStrategy.create_vertical_spread Examples.chain_without_long_call
       "bull_call" Examples.expiry (VNum 100) 0.05 = Raise IndexError
  /\ OptionsStrategy.select_best_strategy Examples.chain_one_strike
       (VNum 100) (Examples.snapshot 100 50 99 2) Examples.bullish_flow
     = Ret VNone
  /\ OptionsStrategy.select_best_strategy Examples.unchanged_chain
       (VNum 100) (Examples.snapshot 100 50 99 2) Examples.bullish_flow
     = Ret (VDict Examples.bull_call_spread)
  /\ OptionsStrategy.select_best_strategy Examples.no_chain
       (VNum 100) (Examples.snapshot 100 50 99 2) Examples.bullish_flow
     = Raise (KeyError "expiration")
  /\ OptionsStrategy.get_expiry_dates Examples.nearest_expiry_chain
     = [Examples.expiry]
  /\ OptionsStrategy.find_strike_prices Examples.nearest_expiry_chain
       (VNum 100) 0.05 = Ret [98%Q; 102%Q]
  /\ OptionsStrategy.select_best_strategy Examples.nearest_expiry_chain
       (VNum 100) (Examples.snapshot 100 50 99 2) Examples.bullish_flow
     = Raise IndexError.
Proof. repeat split; vm_compute; reflexivity. Qed.

(** ** Monitoring the portfolio *)

Section Monitoring.

Import TradingStrategy PortfolioManager.

(** A trade of the store as [monitor_portfolio] reads it: a dict with a
    symbol and a status, and with a numeric profit unless it is open. *)
Definition stored_trade (t : value) : Prop :=
  exists (d : dict) (sym status : string),
    t = VDict d
    /\ d !! "symbol" = Some (VStr sym)
    /\ d !! "status" = Some (VStr status)
    /\ (status <> "open" -> exists p : Q, d !! "profit" = Some (VNum p)).

(** An open trade whose symbol has a registered strategy. *)
Definition open_position (g : manager) (t : value) : Prop :=
  exists (d : dict) (sym : string) (strategy : strategy),
    t = VDict d
    /\ d !! "symbol" = Some (VStr sym)
    /\ strategy_of (trading_strategies g) (VStr sym) = Some strategy
    /\ d !! "status" = Some (VStr "open").

(** A trade that is not an equity trade. *)
Definition options_position (t : value) : Prop :=
  exists (d : dict) (ty : string),
    t = VDict d /\ d !! "type" = Some (VStr ty) /\ ty <> "equity".

Lemma is_str_VStr (s s' : string) : is_str (VStr s) s' = String.eqb s s'.
Proof. reflexivity. Qed.

Lemma monitor_loop_raises (ind : indicators) (w : world) (trades : list value) :
  forall (g : manager) (sm : summary) (updated : list value),
    Forall stored_trade trades ->
    Exists (open_position g) trades ->
    (exists q, total_profit_loss sm = VNum q) ->
    exists sm' updated',
      monitor_loop (class ind) w trades g sm updated
      = (Raise (AttributeError "monitor_position"), (g, sm', updated')).
Proof.
  induction trades as [|t rest IH]; intros g sm updated Hwf Hopen [q Hq].
  { inversion Hopen. }
  apply Forall_cons in Hwf as [(d & sym & status & -> & Hsym & Hst & Hprofit) Hwf].
  cbn [monitor_loop]. unfold monitor_turn.
  rewrite (getitem_Some _ _ _ Hsym), (getitem_Some _ _ _ Hst).
  rewrite bind_Ret. cbn [get_strategy].
  destruct (strategy_of (trading_strategies g) (VStr sym)) as [strategy|] eqn:Hreg.
  - rewrite is_str_VStr.
    destruct (String.eqb_spec status "open") as [->|Hne].
    + cbn. eauto.
    + destruct (Hprofit Hne) as [p Hp].
      rewrite (getitem_Some _ _ _ Hp). cbn [total_profit_loss]. rewrite Hq.
      py_num.
      apply IH; [assumption| |cbn; eauto].
      apply Exists_cons in Hopen as [(d' & sym' & s' & Heq & _ & _ & Hopen)|]; [|assumption].
      injection Heq as <-. congruence.
  - apply IH; [assumption| |eauto].
    apply Exists_cons in Hopen as [(d' & sym' & s' & Heq & Hsym' & Hreg' & _)|]; [|assumption].
    injection Heq as <-. congruence.
Qed.

Lemma monitor_loop_keeps (ind : indicators) (w : world) (trades : list value) :
  forall (g : manager) (sm : summary) (updated : list value),
    exists kept,
      (monitor_loop (class ind) w trades g sm updated).2.1.1 = g
      /\ (monitor_loop (class ind) w trades g sm updated).2.2 = updated ++ kept
      /\ sublist kept trades.
Proof.
  induction trades as [|t rest IH]; intros g sm updated.
  { exists []. cbn. rewrite app_nil_r. repeat split. constructor. }
  cbn [monitor_loop]. unfold monitor_turn.
  assert (Hstop : exists kept, (@nil value = kept -> True) /\
            updated = updated ++ kept /\ sublist kept (t :: rest)).
  { exists []. rewrite app_nil_r. repeat split. apply sublist_nil_l. }
  destruct (_ ≫= _) as [[strategy|]|e].
  3: { destruct Hstop as (kept & _ & H1 & H2). exists kept. cbn. eauto. }
  2: { destruct (IH g sm updated) as (kept & H1 & H2 & H3).
       exists kept. split; [assumption|]. split; [assumption|].
       apply sublist_cons. assumption. }
  destruct (getitem t "status") as [status|e].
  2: { destruct Hstop as (kept & _ & H1 & H2). exists kept. cbn. eauto. }
  destruct (is_str status "open").
  { destruct Hstop as (kept & _ & H1 & H2). exists kept. cbn. eauto. }
  destruct (_ ≫= _) as [total|e].
  2: { destruct Hstop as (kept & _ & H1 & H2). exists kept. cbn. eauto. }
  match goal with |- context [monitor_loop _ _ rest g ?sm' ?u'] =>
    destruct (IH g sm' u') as (kept & H1 & H2 & H3) end.
  exists (t :: kept). split; [assumption|].
  split; [rewrite H2, <- app_assoc; reflexivity|].
  apply sublist_skip. assumption.
Qed.


Definition has_status (status : string) (t : value) : bool :=
  match getitem t "status" with
  | Ret v => is_str v status
  | Raise _ => false
  end.

Lemma with_status_stored (status : string) (trades : list value) :
  Forall stored_trade trades ->
  with_status status trades = Ret (List.filter (has_status status) trades).
Proof.
  induction 1 as [|t rest (d & sym & st & -> & _ & Hst & _) _ IH]; [reflexivity|].
  cbn [with_status List.filter]. unfold has_status.
  rewrite (getitem_Some _ _ _ Hst), IH. reflexivity.
Qed.

Lemma filter_stored (status : string) (trades : list value) :
  Forall stored_trade trades ->
  Forall (fun t => stored_trade t /\ has_status status t = true)
         (List.filter (has_status status) trades).
Proof.
  induction 1 as [|t rest Ht _ IH]; [constructor|].
  cbn [List.filter]. destruct (has_status status t) eqn:E; [|assumption].
  constructor; [split; assumption|assumption].
Qed.

Lemma closed_profit (t : value) :
  stored_trade t -> has_status "closed" t = true ->
  exists (d : dict) (p : Q), t = VDict d /\ d !! "profit" = Some (VNum p).
Proof.
  intros (d & sym & st & -> & _ & Hst & Hprofit) Hclosed.
  unfold has_status in Hclosed. rewrite (getitem_Some _ _ _ Hst) in Hclosed.
  apply is_str_eq in Hclosed. injection Hclosed as ->.
  destruct Hprofit as [p Hp]; [discriminate|]. eauto.
Qed.

Lemma sum_profit_closed (closed : list value) :
  Forall (fun t => stored_trade t /\ has_status "closed" t = true) closed ->
  forall acc : Q, exists total : Q, sum_profit closed (VNum acc) = Ret (VNum total).
Proof.
  induction 1 as [|t rest [Ht Hc] _ IH]; intros acc; [eauto|].
  destruct (closed_profit t Ht Hc) as (d & p & -> & Hp).
  cbn [sum_profit]. rewrite (getitem_Some _ _ _ Hp). py_num. cbn [is_none].
  py_num. apply IH.
Qed.

Lemma count_winning_closed (closed : list value) :
  Forall (fun t => stored_trade t /\ has_status "closed" t = true) closed ->
  exists n : nat, count_winning closed = Ret n.
Proof.
  induction 1 as [|t rest [Ht Hc] _ [n IH]]; [eauto|].
  destruct (closed_profit t Ht Hc) as (d & p & -> & Hp).
  cbn [count_winning dict_get]. rewrite Hp. py_num. rewrite IH. cbn. eauto.
Qed.

Lemma unrealized_raises (ind : indicators) (w : world) (g : manager)
    (open_trades : list value) :
  Forall (fun t => stored_trade t /\ has_status "open" t = true) open_trades ->
  Forall (fun t => open_position g t -> options_position t) open_trades ->
  Exists (open_position g) open_trades ->
  forall pnl : value,
    unrealized (class ind) w g open_trades pnl
    = Raise (AttributeError "calculate_options_pnl").
Proof.
  induction 1 as [|t rest [(d & sym & st & -> & Hsym & Hst & _) Ho] _ IH];
    intros Hopt Hex pnl.
  { inversion Hex. }
  apply Forall_cons in Hopt as [Hopt_t Hopt].
  unfold has_status in Ho. rewrite (getitem_Some _ _ _ Hst) in Ho.
  apply is_str_eq in Ho. injection Ho as ->.
  cbn [unrealized]. rewrite (getitem_Some _ _ _ Hsym). py_num.
  cbn [get_strategy]. py_num.
  destruct (strategy_of (trading_strategies g) (VStr sym)) as [strategy|] eqn:Hreg.
  - destruct Hopt_t as (d' & ty & Heq & Hty & Hne).
    { exists d, sym, strategy. eauto. }
    injection Heq as <-.
    rewrite (getitem_Some _ _ _ Hty). py_num. rewrite is_str_VStr.
    destruct (String.eqb_spec ty "equity"); [contradiction|]. reflexivity.
  - apply IH; [assumption|].
    apply Exists_cons in Hex as [(d' & sym' & s' & Heq & Hsym' & Hreg' & _)|]; [|assumption].
    injection Heq as <-. congruence.
Qed.

Lemma open_position_has_status (g : manager) (t : value) :
  open_position g t -> has_status "open" t = true.
Proof.
  intros (d & sym & s & -> & _ & _ & Hst). unfold has_status.
  rewrite (getitem_Some _ _ _ Hst). reflexivity.
Qed.

Lemma get_portfolio_stats_raises (ind : indicators) (w : world) (st : state) :
  Forall stored_trade (store st) ->
  Exists (open_position (self st)) (store st) ->
  Forall (fun t => open_position (self st) t -> options_position t) (store st) ->
  get_portfolio_stats (class ind) w st
  = Raise (AttributeError "calculate_options_pnl").
Proof.
  intros Hwf Hex Hopt. unfold get_portfolio_stats.
  destruct (store st) as [|t0 rest] eqn:Hstore; [inversion Hex|].
  rewrite <- Hstore in *. clear Hstore t0 rest.
  rewrite !with_status_stored by assumption. py_num.
  destruct (sum_profit_closed _ (filter_stored "closed" _ Hwf) (Qred 0)) as [total Htotal].
  change (VNum (Qred 0)) with (num 0) in Htotal. rewrite Htotal. py_num.
  destruct (count_winning_closed _ (filter_stored "closed" _ Hwf)) as [n Hn].
  rewrite Hn. py_num.
  rewrite unrealized_raises; [reflexivity|apply filter_stored; assumption| |].
  - apply Forall_forall. intros t Hin. apply list_elem_of_In, filter_In in Hin as [Hin _].
    rewrite Forall_forall in Hopt. apply Hopt, list_elem_of_In. assumption.
  - apply Exists_exists in Hex as (t & Hin & Ht). apply Exists_exists.
    exists t. split; [|assumption].
    apply list_elem_of_In, filter_In. split; [apply list_elem_of_In; assumption|].
    apply (open_position_has_status _ _ Ht).
Qed.

End Monitoring.

(** C3.  When the store holds an open trade whose symbol has a
    registered strategy, [monitor_portfolio] raises [AttributeError] at
    [strategy.monitor_position], an attribute [TradingStrategy] does not
    define, and leaves the manager and the store as they were (the store
    being well formed: every trade has a symbol and a status, and a
    numeric profit unless it is open).  Likewise [get_portfolio_stats]
    raises [AttributeError] at [strategy.calculate_options_pnl] when the
    open trades of registered symbols are options trades.  Whatever the
    store, [monitor_portfolio] leaves the manager, hence the available
    capital, unchanged, and every trade it saves is a trade of the old
    store, unmodified: no position goes from open to closed. *)
Theorem C3_monitoring_always_raises
    (ind : TradingStrategy.indicators) (w : PortfolioManager.world)
    (st : PortfolioManager.state)
    (Hstore : Forall stored_trade (PortfolioManager.store st))
    (Hopen : Exists (open_position (PortfolioManager.self st))
                    (PortfolioManager.store st)) :
  PortfolioManager.monitor_portfolio (TradingStrategy.class ind) w st
  = (Raise (AttributeError "monitor_position"), st)
  /\ (Forall (fun t => open_position (PortfolioManager.self st) t
                       -> options_position t)
             (PortfolioManager.store st) ->
      PortfolioManager.get_portfolio_stats (TradingStrategy.class ind) w st
      = Raise (AttributeError "calculate_options_pnl"))
  /\ TradingStrategy.m_monitor_position (TradingStrategy.class ind) = None
  /\ TradingStrategy.m_calculate_options_pnl (TradingStrategy.class ind) = None
  /\ (forall (w' : PortfolioManager.world) (st' : PortfolioManager.state),
        PortfolioManager.self
          (PortfolioManager.monitor_portfolio (TradingStrategy.class ind) w' st').2
        = PortfolioManager.self st'
        /\ sublist
             (PortfolioManager.store
                (PortfolioManager.monitor_portfolio
                   (TradingStrategy.class ind) w' st').2)
             (PortfolioManager.store st')).
Proof.
  split; [|split; [|split; [|split]]].
  - unfold PortfolioManager.monitor_portfolio.
    edestruct (monitor_loop_raises ind w (PortfolioManager.store st))
      as (sm' & updated' & ->); [exact Hstore|exact Hopen|cbn; eauto|].
    destruct st. reflexivity.
  - intros Hoptions. apply get_portfolio_stats_raises; assumption.
  - reflexivity.
  - reflexivity.
  - intros w' st'. unfold PortfolioManager.monitor_portfolio.
    match goal with |- context [PortfolioManager.monitor_loop ?c ?w ?l ?g ?sm ?u] =>
      destruct (monitor_loop_keeps ind w l g sm u) as (kept & Hg & Hu & Hsub);
      destruct (PortfolioManager.monitor_loop c w l g sm u)
        as [[[]|e] [[g' sm'] updated']]
    end; cbn in *; subst; split; try reflexivity; assumption.
Qed.

Lemma C3_monitoring_always_raises_witness :
  PortfolioManager.monitor_portfolio
    (TradingStrategy.class Examples.plain_indicators) Examples.quiet_world
    (Examples.holding 100000
       [VDict Examples.closed_equity_trade; VDict Examples.options_trade])
  = (Raise (AttributeError "monitor_position"),
     Examples.holding 100000
       [VDict Examples.closed_equity_trade; VDict Examples.options_trade])
  /\ (Forall (fun t => open_position (Examples.desk 100000) t -> options_position t)
             [VDict Examples.closed_equity_trade; VDict Examples.options_trade] ->
      PortfolioManager.get_portfolio_stats
        (TradingStrategy.class Examples.plain_indicators) Examples.quiet_world
        (Examples.holding 100000
           [VDict Examples.closed_equity_trade; VDict Examples.options_trade])
      = Raise (AttributeError "calculate_options_pnl"))
  /\ TradingStrategy.m_monitor_position
       (TradingStrategy.class Examples.plain_indicators) = None
  /\ TradingStrategy.m_calculate_options_pnl
       (TradingStrategy.class Examples.plain_indicators) = None
  /\ (forall (w' : PortfolioManager.world) (st' : PortfolioManager.state),
        PortfolioManager.self
          (PortfolioManager.monitor_portfolio
             (TradingStrategy.class Examples.plain_indicators) w' st').2
        = PortfolioManager.self st'
        /\ sublist
             (PortfolioManager.store
                (PortfolioManager.monitor_portfolio
                   (TradingStrategy.class Examples.plain_indicators) w' st').2)
             (PortfolioManager.store st')).
Proof.
  apply (C3_monitoring_always_raises Examples.plain_indicators Examples.quiet_world
           (Examples.holding 100000
              [VDict Examples.closed_equity_trade; VDict Examples.options_trade])).
  - repeat constructor.
    + exists Examples.closed_equity_trade, "AAPL", "closed".
      repeat split; try reflexivity. intros _. exists 60%Q. reflexivity.
    + exists Examples.options_trade, "AAPL", "open".
      repeat split; try reflexivity. intros H. contradiction.
  - apply Exists_cons_tl, Exists_cons_hd.
    exists Examples.options_trade, "AAPL",
           (Examples.strategy_with "AAPL" 2000 TradingStrategy.MlNone).
    repeat split; reflexivity.
Defined.

(** ** The capital ledger *)

Section Ledger.

Import TradingStrategy PortfolioManager.

(** The number a run returns, 0 when it returns none. *)
Definition number (r : py value) : Q :=
  match r with
  | Ret (VNum q) => q
  | _ => 0%Q
  end.



Definition total (f : value -> Q) (trades : list value) : Q :=
  foldr (fun t acc => (f t + acc)%Q) 0%Q trades.


(** One polling cycle calls [check_signals] or [monitor_portfolio]. *)
Inductive cycle : Type :=
| Check (w : world)
| Monitor (w : world).

Definition step (cls : methods) (st : state) (c : cycle) : state :=
  match c with
  | Check w => (check_signals cls w st).2
  | Monitor w => (monitor_portfolio cls w st).2
  end.

Definition run (cls : methods) (cycles : list cycle) (st : state) : state :=
  foldl (step cls) st cycles.

Lemma total_cons (f : value -> Q) (t : value) (l : list value) :
  total f (t :: l) = (f t + total f l)%Q.
Proof. reflexivity. Qed.

Lemma total_app (f : value -> Q) (l1 l2 : list value) :
  (total f (l1 ++ l2) == total f l1 + total f l2)%Q.
Proof.
  induction l1 as [|t l1 IH].
  - change (total f l2 == 0 + total f l2)%Q. lra.
  - rewrite <- app_comm_cons, !total_cons, IH. lra.
Qed.







End Ledger.


(** * Further properties of the engine *)

(** ** Candidate strikes *)

Section Strikes.

Import Float64 OptionsStrategy64.

(** The order of the floats, read off the comparison of [SpecFloat]. *)
Ltac order_cases :=
  repeat match goal with
         | |- context [Z.compare ?a ?b] => destruct (Z.compare_spec a b)
         | H : context [Z.compare ?a ?b] |- _ => destruct (Z.compare_spec a b)
         | |- context [Pos.compare_cont Eq ?a ?b] =>
             change (Pos.compare_cont Eq a b) with (Pos.compare a b);
             destruct (Pos.compare_spec a b)
         | H : context [Pos.compare_cont Eq ?a ?b] |- _ =>
             change (Pos.compare_cont Eq a b) with (Pos.compare a b) in H;
             destruct (Pos.compare_spec a b)
         end;
  cbn in *; subst; try discriminate; try reflexivity; try lia.

Lemma leb_flip (x y : float) :
  ordered x = true -> ordered y = true -> leb x y = false -> ltb y x = true.
Proof.
  unfold ordered, eqb, leb, ltb, SFeqb, SFleb, SFltb, SFcompare.
  destruct x as [[]|[]| |[] m1 e1], y as [[]|[]| |[] m2 e2]; cbn;
    try discriminate; try reflexivity; intros _ _; order_cases.
Qed.

Lemma ltb_trans (x y z : float) :
  ltb x y = true -> ltb y z = true -> ltb x z = true.
Proof.
  unfold ltb, SFltb, SFcompare.
  destruct x as [[]|[]| |[] m1 e1], y as [[]|[]| |[] m2 e2],
           z as [[]|[]| |[] m3 e3];
    cbn; try discriminate; try reflexivity; order_cases.
Qed.

Lemma leb_ltb (x y : float) :
  leb x y = true -> eqb x y = false -> ltb x y = true.
Proof.
  unfold leb, eqb, ltb, SFleb, SFeqb, SFltb.
  destruct (SFcompare x y) as [[]|]; congruence.
Qed.

Lemma leb_ordered_r (x y : float) : leb x y = true -> ordered y = true.
Proof.
  unfold leb, ordered, eqb, SFleb, SFeqb, SFcompare.
  destruct x as [[]|[]| |[] m1 e1], y as [[]|[]| |[] m2 e2]; cbn;
    try discriminate; try reflexivity; intros _; order_cases.
Qed.

Lemma eqb_sym (x y : float) : eqb x y = eqb y x.
Proof.
  unfold eqb, SFeqb, SFcompare.
  destruct x as [[]|[]| |[] m1 e1], y as [[]|[]| |[] m2 e2]; cbn;
    try reflexivity; order_cases.
Qed.

Lemma eqb_trans (x y z : float) :
  eqb x y = true -> eqb y z = true -> eqb x z = true.
Proof.
  unfold eqb, SFeqb, SFcompare.
  destruct x as [[]|[]| |[] m1 e1], y as [[]|[]| |[] m2 e2],
           z as [[]|[]| |[] m3 e3];
    cbn; try discriminate; try reflexivity; order_cases.
Qed.

Lemma insert_sorted_In (x k : float) (l : list float) :
  In k (insert_sorted x l) <-> k = x \/ In k l.
Proof.
  induction l as [|y l IH]; cbn [insert_sorted].
  - cbn. intuition.
  - destruct (leb x y); cbn [In]; [intuition|].
    rewrite IH. intuition.
Qed.

Lemma sorted_In (k : float) (l : list float) : In k (sorted l) <-> In k l.
Proof.
  induction l as [|x l IH]; [reflexivity|].
  cbn [sorted foldr]. fold (sorted l). rewrite insert_sorted_In, IH.
  cbn [In]. intuition.
Qed.

(** Strictly increasing. *)
Definition increasing (l : list float) : Prop :=
  StronglySorted (fun a b => ltb a b = true) l.

Lemma insert_sorted_lt (x : float) (l : list float) :
  increasing l ->
  ordered x = true ->
  List.Forall (fun y => ordered y = true /\ eqb x y = false) l ->
  increasing (insert_sorted x l).
Proof.
  unfold increasing.
  induction 1 as [|y l Hl IH Hy]; intros Hox Hx; cbn [insert_sorted].
  { repeat constructor. }
  apply List.Forall_cons_iff in Hx as [[Hoy Hxy] Hx].
  destruct (leb x y) eqn:E.
  - pose proof (leb_ltb x y E Hxy) as Hlt.
    constructor; [constructor; assumption|].
    constructor; [assumption|].
    eapply List.Forall_impl; [|exact Hy].
    intros z Hz. cbn in Hz. eapply ltb_trans; eassumption.
  - pose proof (leb_flip x y Hox Hoy E) as Hlt.
    constructor; [apply IH; assumption|].
    apply List.Forall_forall. intros z Hz.
    apply insert_sorted_In in Hz as [->|Hz]; [assumption|].
    rewrite List.Forall_forall in Hy. apply Hy. assumption.
Qed.

Lemma unique_In (k : float) (l : list float) : In k (unique l) -> In k l.
Proof.
  revert k. induction l as [|x l IH]; intros k; [cbn; tauto|].
  cbn [unique In]. intros [->|Hk]; [tauto|].
  apply List.filter_In in Hk as [Hk _]. auto.
Qed.

Lemma unique_complete (x : float) (l : list float) :
  ordered x = true ->
  In x l -> exists k, In k (unique l) /\ eqb k x = true.
Proof.
  intros Hox. induction l as [|y l IH]; [cbn; tauto|].
  cbn [unique In]. intros [->|Hx].
  - exists x. split; [tauto|exact Hox].
  - destruct (IH Hx) as (k & Hk & Hkx).
    destruct (eqb y k) eqn:E.
    + exists y. split; [tauto|]. eapply eqb_trans; eassumption.
    + exists k. split; [|assumption].
      right. apply List.filter_In. rewrite E. tauto.
Qed.

Lemma sorted_unique_lt (l : list float) :
  List.Forall (fun y => ordered y = true) l -> increasing (sorted (unique l)).
Proof.
  intros Ho.
  assert (Hd : StronglySorted (fun a b => eqb a b = false) (unique l)).
  { clear Ho. induction l as [|x l IH]; [constructor|].
    cbn [unique]. constructor.
    - clear -IH. induction IH as [|y u Hu IHu Hy]; [constructor|].
      cbn [List.filter]. destruct (negb (eqb x y)); [|assumption].
      constructor; [assumption|].
      apply List.Forall_forall. intros z Hz.
      apply List.filter_In in Hz as [Hz _].
      rewrite List.Forall_forall in Hy. apply Hy. assumption.
    - apply List.Forall_forall. intros z Hz.
      apply List.filter_In in Hz as [_ Hz].
      apply negb_true_iff in Hz. assumption. }
  assert (Hu : List.Forall (fun y => ordered y = true) (unique l)).
  { apply List.Forall_forall. intros z Hz. apply unique_In in Hz.
    rewrite List.Forall_forall in Ho. apply Ho. assumption. }
  clear Ho. induction Hd as [|x u Hd IH Hx]; [constructor|].
  apply List.Forall_cons_iff in Hu as [Hox Hu].
  cbn [sorted foldr]. fold (sorted u).
  apply insert_sorted_lt; [apply IH; assumption|assumption|].
  apply List.Forall_forall. intros z Hz. apply (proj1 (sorted_In _ _)) in Hz.
  rewrite List.Forall_forall in Hx, Hu. split; [apply Hu|apply Hx]; assumption.
Qed.

End Strikes.

(** X1.  In the double-precision arithmetic of the code, the candidate
    strikes that [find_strike_prices] returns are strictly increasing
    (sorted, no strike twice); each one is the strike of a row of the
    chain and lies between the two bounds that lines 27 and 28 compute,
    [price * (1 - width)] and [price * (1 + width)], each product and
    difference rounded; and every row whose strike lies between the
    computed bounds is represented.  On the frame without columns the
    call raises [KeyError]. *)
Theorem find_strike_prices_sorted_in_band
    (chain : OptionsStrategy64.frame) (price width : Float64.float)
    (strikes : list Float64.float)
    (Hrun : OptionsStrategy64.find_strike_prices chain price width = Ret strikes) :
  let lower := Float64.mul price (Float64.sub (Float64.of_Z 1) width) in
  let upper := Float64.mul price (Float64.add (Float64.of_Z 1) width) in
  exists rows : list OptionsStrategy64.quote,
    chain = Some rows
    /\ increasing strikes
    /\ (forall k, In k strikes ->
          Float64.leb lower k = true /\ Float64.leb k upper = true
          /\ exists r, In r rows /\ OptionsStrategy64.strike r = k)
    /\ (forall r, In r rows ->
          Float64.leb lower (OptionsStrategy64.strike r) = true ->
          Float64.leb (OptionsStrategy64.strike r) upper = true ->
          exists k, In k strikes
                    /\ Float64.eqb k (OptionsStrategy64.strike r) = true)
    /\ OptionsStrategy64.find_strike_prices None price width
       = Raise (KeyError "strike").
Proof.
  intros lower upper.
  unfold OptionsStrategy64.find_strike_prices, OptionsStrategy64.column in Hrun.
  destruct chain as [rows|]; [|discriminate Hrun].
  cbn [mbind py_bind mret py_ret] in Hrun. injection Hrun as <-.
  fold lower upper.
  unfold OptionsStrategy64.lower_bound, OptionsStrategy64.upper_bound.
  fold lower upper.
  set (valid := List.filter
                  (fun r => Float64.leb lower (OptionsStrategy64.strike r)
                            && Float64.leb (OptionsStrategy64.strike r) upper)
                  rows).
  exists rows. split; [reflexivity|]. split; [|split; [|split]].
  - apply sorted_unique_lt. apply List.Forall_forall. intros k Hk.
    apply List.in_map_iff in Hk as (r & <- & Hr).
    apply List.filter_In in Hr as [_ Hr]. apply andb_true_iff in Hr as [Hr _].
    apply (leb_ordered_r _ _ Hr).
  - intros k Hk. apply (proj1 (sorted_In _ _)), unique_In in Hk.
    apply List.in_map_iff in Hk as (r & <- & Hr).
    apply List.filter_In in Hr as [Hr Hin].
    apply andb_true_iff in Hin as [Hlo Hup]. eauto.
  - intros r Hr Hlo Hup.
    destruct (unique_complete (OptionsStrategy64.strike r)
                (OptionsStrategy64.strike <$> valid)) as (k & Hk & Heq).
    { apply (leb_ordered_r _ _ Hlo). }
    { apply List.in_map. apply List.filter_In. split; [assumption|].
      rewrite Hlo, Hup. reflexivity. }
    exists k. split; [apply sorted_In; exact Hk|assumption].
  - reflexivity.
Qed.

Lemma find_strike_prices_sorted_in_band_witness :
  let chain := Some Cases.quoted_in_cents in
  let price := Float64.decimal 204 1 in
  let width := Float64.decimal 5 2 in
  let strikes := [Float64.decimal 195 1; Float64.decimal 21 0] in
  let lower := Float64.mul price (Float64.sub (Float64.of_Z 1) width) in
  let upper := Float64.mul price (Float64.add (Float64.of_Z 1) width) in
  exists rows : list OptionsStrategy64.quote,
    chain = Some rows
    /\ increasing strikes
    /\ (forall k, In k strikes ->
          Float64.leb lower k = true /\ Float64.leb k upper = true
          /\ exists r, In r rows /\ OptionsStrategy64.strike r = k)
    /\ (forall r, In r rows ->
          Float64.leb lower (OptionsStrategy64.strike r) = true ->
          Float64.leb (OptionsStrategy64.strike r) upper = true ->
          exists k, In k strikes
                    /\ Float64.eqb k (OptionsStrategy64.strike r) = true)
    /\ OptionsStrategy64.find_strike_prices None price width
       = Raise (KeyError "strike").
Proof.
  apply (find_strike_prices_sorted_in_band
           (Some Cases.quoted_in_cents)
           (Float64.decimal 204 1) (Float64.decimal 5 2)
           [Float64.decimal 195 1; Float64.decimal 21 0]).
  vm_compute. reflexivity.
Defined.

(** At the price 20.4 the upper bound is computed as 21.419999999999998,
    so the strike 21.42, which the band of width 5 percent reaches in
    exact arithmetic, is not a candidate. *)
Example strike_at_the_rounded_bound :
  Float64.mul (Float64.decimal 204 1)
              (Float64.add (Float64.of_Z 1) (Float64.decimal 5 2))
  = S754_finite false 6029194001142251 (-48)
  /\ Float64.decimal 2142 2 = S754_finite false 6029194001142252 (-48)
  /\ In (Float64.decimal 2142 2)
        (OptionsStrategy64.strike <$> Cases.quoted_in_cents)
  /\ OptionsStrategy64.find_strike_prices
       (Some Cases.quoted_in_cents) (Float64.decimal 204 1) (Float64.decimal 5 2)
     = Ret [Float64.decimal 195 1; Float64.decimal 21 0].
Proof.
  vm_compute. split; [reflexivity|]. split; [reflexivity|].
  split; [|reflexivity]. do 3 right. left. reflexivity.
Qed.

(** ** The option structures *)

Section Structures.

Import OptionsStrategy.

Lemma at_expiry_not_fetched (m : market) (e : string) (quotes : list quote) :
  options_df m = Some quotes ->
  (forall r, In r quotes -> expiration r <> e) ->
  at_expiry m e = Ret [].
Proof.
  intros Hdf Hexp. unfold at_expiry, column. rewrite Hdf.
  cbn [mbind py_bind mret py_ret]. f_equal. clear Hdf.
  induction quotes as [|r quotes IH]; [reflexivity|].
  cbn [List.filter].
  destruct (String.eqb_spec (expiration r) e) as [Heq|_].
  - exfalso. apply (Hexp r); [left; reflexivity|assumption].
  - apply IH. intros r' Hr'. apply Hexp. right. assumption.
Qed.

(** When the frame holds no row at the selected expiry date, every
    builder that finds enough candidate strikes raises [IndexError] at
    its first [.iloc[0]]: the strikes are taken from the whole frame,
    the quotes from its rows at the expiry date. *)
Lemma builders_without_rows
    (m : market) (expiry_date : string) (current_price : value) (width : Q)
    (quotes : list quote) (strikes : list Q)
    (Hdf : options_df m = Some quotes)
    (Hexp : forall r, In r quotes -> expiration r <> expiry_date)
    (Hstrikes : find_strike_prices m current_price width
                = Ret strikes) :
  ((2 <= length strikes)%nat ->
     create_vertical_spread m "bull_call" expiry_date current_price width
     = Raise IndexError
     /\ create_vertical_spread m "bear_put" expiry_date current_price width
        = Raise IndexError)
  /\ ((3 <= length strikes)%nat ->
        create_butterfly m expiry_date current_price width
        = Raise IndexError)
  /\ ((4 <= length strikes)%nat ->
        create_iron_condor m expiry_date current_price width
        = Raise IndexError).
Proof.
  pose proof (at_expiry_not_fetched m expiry_date quotes Hdf Hexp) as Hnone.
  unfold create_vertical_spread, create_butterfly,
    create_iron_condor.
  rewrite Hnone, Hstrikes. cbn [mbind py_bind mret py_ret].
  split; [|split]; intros Hlen; [split| |].
  all: match goal with |- context [(length ?l <? ?n)%nat] =>
         replace (length l <? n)%nat with false
           by (symmetry; apply Nat.ltb_ge; lia)
       end; reflexivity.
Qed.

End Structures.

(** ** The legs of a stored structure *)

Section Legs.

Import OptionsStrategy.

(** The dict of a leg. *)
Definition leg_of (ty : value) (action : string) (strike premium : value) : value :=
  mkdict [("type", ty); ("action", VStr action);
          ("strike", strike); ("premium", premium)].

(** The legs that [execute_strategy] lays out for a vertical spread, an
    iron condor and a butterfly; [at2] and [at3] read the structure. *)
Definition vertical_legs (at2 : string -> string -> py value) (legs : list value)
    : Prop :=
  exists ty1 k1 p1 ty2 k2 p2 : value,
    at2 "long_option" "type" = Ret ty1
    /\ at2 "long_option" "strike" = Ret k1
    /\ at2 "long_option" "premium" = Ret p1
    /\ at2 "short_option" "type" = Ret ty2
    /\ at2 "short_option" "strike" = Ret k2
    /\ at2 "short_option" "premium" = Ret p2
    /\ legs = [leg_of ty1 "buy" k1 p1; leg_of ty2 "sell" k2 p2].

Definition condor_legs (at3 : string -> string -> string -> py value)
    (legs : list value) : Prop :=
  exists k1 p1 k2 p2 k3 p3 k4 p4 : value,
    at3 "put_spread" "long" "strike" = Ret k1
    /\ at3 "put_spread" "long" "premium" = Ret p1
    /\ at3 "put_spread" "short" "strike" = Ret k2
    /\ at3 "put_spread" "short" "premium" = Ret p2
    /\ at3 "call_spread" "short" "strike" = Ret k3
    /\ at3 "call_spread" "short" "premium" = Ret p3
    /\ at3 "call_spread" "long" "strike" = Ret k4
    /\ at3 "call_spread" "long" "premium" = Ret p4
    /\ legs = [leg_of (VStr "PUT") "buy" k1 p1; leg_of (VStr "PUT") "sell" k2 p2;
               leg_of (VStr "CALL") "sell" k3 p3; leg_of (VStr "CALL") "buy" k4 p4].

Definition butterfly_legs (at2 : string -> string -> py value) (legs : list value)
    : Prop :=
  exists k1 p1 k2 p2 k3 p3 : value,
    at2 "lower_call" "strike" = Ret k1
    /\ at2 "lower_call" "premium" = Ret p1
    /\ at2 "middle_calls" "strike" = Ret k2
    /\ at2 "middle_calls" "premium" = Ret p2
    /\ at2 "upper_call" "strike" = Ret k3
    /\ at2 "upper_call" "premium" = Ret p3
    /\ legs = [leg_of (VStr "CALL") "buy" k1 p1;
               mkdict [("type", VStr "CALL"); ("action", VStr "sell");
                       ("strike", k2); ("premium", p2); ("quantity", num 2)];
               leg_of (VStr "CALL") "buy" k3 p3].

End Legs.

(** Closes a goal [getitem2 d a b = Ret ?x] or [getitem3 d a b c = Ret ?x]
    from the reads in the context. *)
Ltac read_structure :=
  unfold OptionsStrategy.getitem3, mbind, py_bind;
  repeat match goal with
         | H : ?run = Ret _ |- context [?run] => rewrite H
         end;
  try reflexivity;
  unfold OptionsStrategy.getitem2, mbind, py_bind;
  repeat match goal with
         | H : ?run = Ret _ |- context [?run] => rewrite H
         end;
  reflexivity.

(** X2.  [execute_strategy] copies the structure into the legs of the
    trade, strikes and premiums unchanged: a vertical spread buys its
    long option and sells its short option; an iron condor buys the
    long put, sells the short put, sells the short call and buys the
    long call; a butterfly buys the lower call, sells the middle calls
    with quantity 2 and buys the upper call.  A strategy of any other
    name gives an open trade without legs. *)
Theorem execute_strategy_lays_out_the_legs
    (m : market) (sym : string) (d : dict) (trade : value)
    (Hrun : OptionsStrategy.execute_strategy m sym (VDict d) = Ret trade)
    (Hsome : truthy (VDict d) = true) :
  exists (t : dict) (name : value) (legs : list value),
    trade = VDict t
    /\ d !! "strategy" = Some name
    /\ t !! "strategy_type" = Some name
    /\ t !! "status" = Some (VStr "open")
    /\ t !! "legs" = Some (VList legs)
    /\ (if is_str name "bull_call_spread" || is_str name "bear_put_spread"
        then vertical_legs (OptionsStrategy.getitem2 (VDict d)) legs
        else if is_str name "iron_condor"
        then condor_legs (OptionsStrategy.getitem3 (VDict d)) legs
        else if is_str name "butterfly"
        then butterfly_legs (OptionsStrategy.getitem2 (VDict d)) legs
        else legs = []).
Proof.
  unfold OptionsStrategy.execute_strategy in Hrun. rewrite Hsome in Hrun.
  cbn [negb] in Hrun.
  destruct (getitem (VDict d) "strategy") as [name|] eqn:Hname; [|discriminate Hrun].
  cbn [mbind py_bind] in Hrun.
  destruct (getitem (VDict d) "expiry") as [expiry|]; [|discriminate Hrun].
  cbn [mbind py_bind] in Hrun.
  destruct (getitem (VDict d) "max_loss") as [max_loss|]; [|discriminate Hrun].
  cbn [mbind py_bind] in Hrun.
  destruct (getitem (VDict d) "max_profit") as [max_profit|]; [|discriminate Hrun].
  cbn [mbind py_bind] in Hrun.
  apply getitem_VDict in Hname.
  destruct (is_str name "bull_call_spread" || is_str name "bear_put_spread") eqn:E1;
    [|destruct (is_str name "iron_condor") eqn:E2;
      [|destruct (is_str name "butterfly") eqn:E3]];
    unfold OptionsStrategy.getitem2, OptionsStrategy.getitem3 in Hrun;
    py_inv Hrun;
    eexists _, name, _;
    (split; [reflexivity|]); (split; [assumption|]);
    (split; [reflexivity|]); (split; [reflexivity|]); (split; [reflexivity|]);
    rewrite ?E1, ?E2, ?E3.
  - eexists _, _, _, _, _, _. repeat split; read_structure.
  - eexists _, _, _, _, _, _, _, _. repeat split; read_structure.
  - eexists _, _, _, _, _, _. repeat split; read_structure.
  - reflexivity.
Qed.

Lemma execute_strategy_lays_out_the_legs_witness :
  exists (t : dict) (name : value) (legs : list value),
    Cases.laid_out_spread = VDict t
    /\ Examples.bull_call_spread !! "strategy" = Some name
    /\ t !! "strategy_type" = Some name
    /\ t !! "status" = Some (VStr "open")
    /\ t !! "legs" = Some (VList legs)
    /\ (if is_str name "bull_call_spread" || is_str name "bear_put_spread"
        then vertical_legs (OptionsStrategy.getitem2 (VDict Examples.bull_call_spread)) legs
        else if is_str name "iron_condor"
        then condor_legs (OptionsStrategy.getitem3 (VDict Examples.bull_call_spread)) legs
        else if is_str name "butterfly"
        then butterfly_legs (OptionsStrategy.getitem2 (VDict Examples.bull_call_spread)) legs
        else legs = []).
Proof.
  apply (execute_strategy_lays_out_the_legs
           Examples.spread_market "AAPL" Examples.bull_call_spread
           Cases.laid_out_spread).
  - vm_compute. reflexivity.
  - reflexivity.
Defined.

(** The legs of the bull call spread of the example: the call at 98
    bought at 4.0 and the call at 102 sold at 1.5. *)
Example laid_out_spread_legs :
  exists t : dict,
    Cases.laid_out_spread = VDict t
    /\ t !! "legs"
       = Some (VList [leg_of (VStr "CALL") "buy" (VNum 98) (VNum 4);
                      leg_of (VStr "CALL") "sell" (VNum 102) (VNum (3 # 2))]).
Proof. eexists. split; vm_compute; reflexivity. Qed.

(** ** Options positions opened by [execute_trade] *)

Section OptionsEntry.

Import OptionsStrategy TradingStrategy.

(** The trade that [execute_strategy] lays out. *)
Definition laid_out (m : market) (sym : string) (strategy_details : dict)
    (t : dict) : Prop :=
  exists (strategy expiry max_loss max_profit : value) (legs : list value),
    strategy_details !! "max_loss" = Some max_loss
    /\ strategy_details !! "max_profit" = Some max_profit
    /\ t = list_to_map [
         ("symbol", VStr sym);
         ("type", VStr "options_strategy");
         ("strategy_type", strategy);
         ("entry_date", VStr (now m));
         ("expiry", expiry);
         ("max_loss", max_loss);
         ("max_profit", max_profit);
         ("status", VStr "open");
         ("legs", VList legs)].

Lemma execute_strategy_inv (m : market) (sym : string) (strategy_details trade : value) :
  execute_strategy m sym strategy_details = Ret trade ->
  truthy strategy_details = true ->
  exists d t, strategy_details = VDict d /\ trade = VDict t /\ laid_out m sym d t.
Proof.
  intros Hrun Htrue. unfold execute_strategy in Hrun. rewrite Htrue in Hrun.
  cbn [negb] in Hrun.
  destruct strategy_details as [| | | | | |d]; try discriminate Hrun.
  unfold getitem2, getitem3 in Hrun.
  py_inv Hrun; eexists _, _; (split; [reflexivity|]); (split; [reflexivity|]);
    eexists _, _, _, _, _; repeat split;
    try (apply getitem_VDict; eassumption).
Qed.

(** A trade whose type is neither ['equity'] nor ['options'] passes
    through the loop body of [monitor_positions] unchanged. *)
Lemma monitor_trade_unhandled (self : strategy) (tech : value) (m : market)
    (t : dict) (ty : string) (price : value) :
  t !! "status" = Some (VStr "open") ->
  t !! "type" = Some (VStr ty) ->
  ty <> "equity" -> ty <> "options" ->
  getitem tech "price" = Ret price ->
  monitor_trade self tech m (VDict t) = Ret (VDict t).
Proof.
  intros Hst Hty Hne1 Hne2 Hprice. unfold monitor_trade.
  rewrite !(getitem_Some _ _ _ Hst), Hprice, !(getitem_Some _ _ _ Hty).
  cbn [mbind py_bind mret py_ret is_str].
  replace (String.eqb "open" "open") with true by reflexivity.
  cbn [mbind py_bind mret py_ret].
  destruct (String.eqb_spec ty "equity") as [|_]; [contradiction|].
  destruct (String.eqb_spec ty "options") as [|_]; [contradiction|].
  reflexivity.
Qed.

(** The marks of the trade of [execute_strategy]. *)
Definition options_strategy_trade (sym : string) (t : dict) : Prop :=
  t !! "symbol" = Some (VStr sym)
  /\ t !! "type" = Some (VStr "options_strategy")
  /\ t !! "status" = Some (VStr "open").

Lemma laid_out_trade (m : market) (sym : string) (d t : dict) :
  laid_out m sym d t -> options_strategy_trade sym t.
Proof.
  intros (? & ? & ? & ? & ? & _ & _ & ->). repeat split.
Qed.

(** A trade of the store that no branch of the loop of
    [monitor_positions] handles: one that is not open, or an open one
    whose type is neither ['equity'] nor ['options']. *)
Definition passed_over (trade : value) : Prop :=
  exists d : dict,
    trade = VDict d
    /\ ((exists status, d !! "status" = Some (VStr status) /\ status <> "open")
        \/ (d !! "status" = Some (VStr "open")
            /\ exists ty, d !! "type" = Some (VStr ty)
                          /\ ty <> "equity" /\ ty <> "options")).

Lemma monitor_trade_passed_over (self : strategy) (m : market) (trade : value) :
  passed_over trade -> monitor_trade self null_snapshot m trade = Ret trade.
Proof.
  intros (d & -> & [(status & Hst & Hne)|(Hst & ty & Hty & Hne1 & Hne2)]).
  - apply (monitor_trade_not_open _ _ _ _ status); assumption.
  - apply (monitor_trade_unhandled _ _ _ _ ty VNone); try assumption.
    reflexivity.
Qed.

Lemma monitor_loop_passed_over (self : strategy) (m : market) (trades : list value) :
  Forall passed_over trades -> monitor_loop self null_snapshot m trades = Ret trades.
Proof.
  induction 1 as [|trade rest Htrade _ IH]; [reflexivity|].
  cbn [monitor_loop]. rewrite (monitor_trade_passed_over _ _ _ Htrade), bind_Ret, IH.
  reflexivity.
Qed.

End OptionsEntry.

(** X3.  The trade that [execute_strategy] lays out for a strategy
    carries the symbol, the type ['options_strategy'], the status
    ['open'] and the [max_loss] and [max_profit] of the strategy, and
    neither a stop nor a target.  No branch of [monitor_positions]
    handles that type: a pass over a store that holds the trade, next
    to trades that are closed or of such a type themselves, returns the
    store as it is, so the position is never valued and never closed. *)
Theorem options_structures_never_monitored
    (m : market) (sym : string) (strategy_details trade : value)
    (Hrun : OptionsStrategy.execute_strategy m sym strategy_details = Ret trade)
    (Hsome : truthy strategy_details = true) :
  exists (d t : dict) (max_loss max_profit : value),
    strategy_details = VDict d /\ trade = VDict t
    /\ d !! "max_loss" = Some max_loss
    /\ d !! "max_profit" = Some max_profit
    /\ t !! "symbol" = Some (VStr sym)
    /\ t !! "type" = Some (VStr "options_strategy")
    /\ t !! "status" = Some (VStr "open")
    /\ t !! "max_loss" = Some max_loss
    /\ t !! "max_profit" = Some max_profit
    /\ t !! "stop_loss" = None
    /\ t !! "take_profit" = None
    /\ (forall (ind : TradingStrategy.indicators) (self : TradingStrategy.strategy)
               (f : TradingStrategy.feed) (before after : list value),
          Forall passed_over before -> Forall passed_over after ->
          TradingStrategy.monitor_positions ind self f (before ++ trade :: after)
          = Ret (before ++ trade :: after)).
Proof.
  destruct (execute_strategy_inv _ _ _ _ Hrun Hsome) as (d & t & -> & -> & Hlaid).
  pose proof (laid_out_trade _ _ _ _ Hlaid) as (Hsym & Hty & Hst).
  destruct Hlaid as (strategy & expiry & max_loss & max_profit & legs & Hl & Hp & Ht).
  exists d, t, max_loss, max_profit.
  do 7 (split; [first [reflexivity|assumption]|]).
  split; [rewrite Ht; reflexivity|].
  split; [rewrite Ht; reflexivity|].
  split; [rewrite Ht; reflexivity|].
  split; [rewrite Ht; reflexivity|].
  intros ind self f before after Hbefore Hafter.
  unfold TradingStrategy.monitor_positions, TradingStrategy.monitor_positions_on.
  rewrite get_technical_signals_null.
  apply monitor_loop_passed_over.
  apply Forall_app. split; [assumption|]. constructor; [|assumption].
  exists t. split; [reflexivity|]. right. split; [assumption|].
  exists "options_strategy". repeat split; [assumption|discriminate|discriminate].
Qed.

Lemma options_structures_never_monitored_witness :
  exists (d t : dict) (max_loss max_profit : value),
    VDict Examples.bull_call_spread = VDict d /\ Cases.laid_out_spread = VDict t
    /\ d !! "max_loss" = Some max_loss
    /\ d !! "max_profit" = Some max_profit
    /\ t !! "symbol" = Some (VStr "AAPL")
    /\ t !! "type" = Some (VStr "options_strategy")
    /\ t !! "status" = Some (VStr "open")
    /\ t !! "max_loss" = Some max_loss
    /\ t !! "max_profit" = Some max_profit
    /\ t !! "stop_loss" = None
    /\ t !! "take_profit" = None
    /\ (forall (ind : TradingStrategy.indicators) (self : TradingStrategy.strategy)
               (f : TradingStrategy.feed) (before after : list value),
          Forall passed_over before -> Forall passed_over after ->
          TradingStrategy.monitor_positions ind self f
            (before ++ Cases.laid_out_spread :: after)
          = Ret (before ++ Cases.laid_out_spread :: after)).
Proof.
  apply (options_structures_never_monitored
           Examples.spread_market "AAPL" (VDict Examples.bull_call_spread)
           Cases.laid_out_spread).
  - vm_compute. reflexivity.
  - reflexivity.
Defined.

(** The spread of the example in a store with a closed equity trade:
    the pass of [monitor_positions] returns the store. *)
Example laid_out_spread_is_kept :
  TradingStrategy.monitor_positions Examples.plain_indicators Examples.aapl
    (Examples.live_feed Examples.spread_market)
    [VDict Examples.closed_equity_trade; Cases.laid_out_spread]
  = Ret [VDict Examples.closed_equity_trade; Cases.laid_out_spread].
Proof. vm_compute. reflexivity. Qed.

(** ** What [monitor_portfolio] writes back *)

Section Settled.

Import TradingStrategy PortfolioManager.

(** The trades for which [self.trading_strategies.get(trade['symbol'])]
    finds a strategy. *)
Definition registered (g : manager) (t : value) : bool :=
  match getitem t "symbol" with
  | Ret symbol =>
      match strategy_of (trading_strategies g) symbol with
      | Some _ => true
      | None => false
      end
  | Raise _ => false
  end.

Definition profit_of (t : value) : Q := number (getitem t "profit").

Lemma monitor_loop_settled (cls : methods) (w : world) (trades : list value) :
  forall (g : manager) (sm : summary) (updated : list value) (q : Q),
    Forall stored_trade trades ->
    Forall (fun t => ~ open_position g t) trades ->
    total_profit_loss sm = VNum q ->
    exists q' : Q,
      monitor_loop cls w trades g sm updated
      = (Ret tt,
         (g,
          {| total_positions := total_positions sm;
             total_profit_loss := VNum q';
             open_positions := open_positions sm;
             closed_positions :=
               closed_positions sm ++ List.filter (registered g) trades |},
          updated ++ List.filter (registered g) trades))
      /\ (q' == q + total profit_of (List.filter (registered g) trades))%Q.
Proof.
  induction trades as [|t rest IH]; intros g sm updated q Hwf Hnone Hq.
  { exists q. cbn. rewrite !app_nil_r. destruct sm; cbn in *. subst.
    split; [reflexivity|ring]. }
  apply Forall_cons in Hwf as [(d & sym & status & -> & Hsym & Hst & Hprofit) Hwf].
  apply Forall_cons in Hnone as [Ht Hnone].
  assert (Hr : registered g (VDict d)
               = match strategy_of (trading_strategies g) (VStr sym) with
                 | Some _ => true
                 | None => false
                 end).
  { unfold registered. rewrite (getitem_Some _ _ _ Hsym). reflexivity. }
  cbn [monitor_loop List.filter]. rewrite Hr. clear Hr. unfold monitor_turn.
  rewrite (getitem_Some _ _ _ Hsym), (getitem_Some _ _ _ Hst).
  rewrite bind_Ret. cbn [get_strategy].
  destruct (strategy_of (trading_strategies g) (VStr sym)) as [strategy|] eqn:Hreg.
  2: { apply IH; assumption. }
  rewrite is_str_VStr.
  destruct (String.eqb_spec status "open") as [->|Hne].
  { exfalso. apply Ht. exists d, sym, strategy. auto. }
  destruct (Hprofit Hne) as [p Hp].
  rewrite (getitem_Some _ _ _ Hp). cbn [total_profit_loss]. rewrite Hq.
  py_num.
  edestruct (IH g) as (q' & -> & Hq'); [exact Hwf|exact Hnone|reflexivity|].
  exists q'. cbn [total_positions total_profit_loss open_positions closed_positions].
  rewrite <- !app_assoc. split; [reflexivity|].
  rewrite Hq', total_cons.
  change (profit_of (VDict d)) with (number (getitem (VDict d) "profit")).
  rewrite (getitem_Some _ _ _ Hp). cbn [number].
  rewrite Qred_correct. ring.
Qed.

End Settled.

(** X4.  When no open position of a registered symbol is in the store,
    [monitor_portfolio] returns, whatever the strategy class, and
    rewrites the store: it keeps, in order, the trades whose symbol has
    a registered strategy and drops every other trade, open or closed.
    The kept trades are the closed positions of the summary and their
    profits add up to its total.  A manager without strategies empties
    the store. *)
Theorem monitor_portfolio_drops_unregistered_trades
    (cls : TradingStrategy.methods) (w : PortfolioManager.world)
    (st : PortfolioManager.state)
    (Hstore : Forall stored_trade (PortfolioManager.store st))
    (Hnone : Forall (fun t => ~ open_position (PortfolioManager.self st) t)
                    (PortfolioManager.store st)) :
  let kept := List.filter (registered (PortfolioManager.self st))
                          (PortfolioManager.store st) in
  exists (sm : PortfolioManager.summary) (total_profit : Q),
    PortfolioManager.monitor_portfolio cls w st
    = (Ret sm, {| PortfolioManager.self := PortfolioManager.self st;
                  PortfolioManager.store := kept |})
    /\ PortfolioManager.closed_positions sm = kept
    /\ PortfolioManager.open_positions sm = []
    /\ PortfolioManager.total_positions sm = 0%nat
    /\ PortfolioManager.total_profit_loss sm = VNum total_profit
    /\ (total_profit == total profit_of kept)%Q
    /\ (PortfolioManager.trading_strategies (PortfolioManager.self st) = [] ->
        kept = []).
Proof.
  intros kept. unfold PortfolioManager.monitor_portfolio.
  edestruct (monitor_loop_settled cls w (PortfolioManager.store st))
    as (q' & -> & Hq'); [exact Hstore|exact Hnone|reflexivity|].
  eexists _, q'. split; [reflexivity|].
  cbn [PortfolioManager.closed_positions PortfolioManager.open_positions
       PortfolioManager.total_positions PortfolioManager.total_profit_loss app].
  do 4 (split; [reflexivity|]). split.
  - rewrite Hq', Qred_correct. subst kept. ring.
  - intros Hempty. subst kept. unfold registered. rewrite Hempty.
    clear. induction (PortfolioManager.store st) as [|t rest IH]; [reflexivity|].
    cbn [List.filter]. destruct (getitem t "symbol"); exact IH.
Qed.

Lemma monitor_portfolio_drops_unregistered_trades_witness :
  let st := Examples.holding 100000 Cases.mixed_store in
  let kept := List.filter (registered (PortfolioManager.self st))
                          (PortfolioManager.store st) in
  exists (sm : PortfolioManager.summary) (total_profit : Q),
    PortfolioManager.monitor_portfolio
      (TradingStrategy.class Examples.plain_indicators) Examples.quiet_world st
    = (Ret sm, {| PortfolioManager.self := PortfolioManager.self st;
                  PortfolioManager.store := kept |})
    /\ PortfolioManager.closed_positions sm = kept
    /\ PortfolioManager.open_positions sm = []
    /\ PortfolioManager.total_positions sm = 0%nat
    /\ PortfolioManager.total_profit_loss sm = VNum total_profit
    /\ (total_profit == total profit_of kept)%Q
    /\ (PortfolioManager.trading_strategies (PortfolioManager.self st) = [] ->
        kept = []).
Proof.
  apply (monitor_portfolio_drops_unregistered_trades
           (TradingStrategy.class Examples.plain_indicators) Examples.quiet_world
           (Examples.holding 100000 Cases.mixed_store)).
  - repeat constructor.
    + exists Examples.closed_equity_trade, "AAPL", "closed".
      repeat split. intros _. exists 60%Q. reflexivity.
    + exists (Examples.position_of "TSLA" 100 95 115 4), "TSLA", "open".
      repeat split. intros H. contradiction.
  - repeat constructor.
    + intros (d & sym & s & Heq & _ & _ & Hopen).
      injection Heq as <-. vm_compute in Hopen. discriminate Hopen.
    + intros (d & sym & s & Heq & Hsym & Hreg & _).
      injection Heq as <-. vm_compute in Hsym. injection Hsym as <-.
      vm_compute in Hreg. discriminate Hreg.
Defined.

(** The store of the example loses the open position of TSLA. *)
Example mixed_store_after_monitoring :
  (PortfolioManager.monitor_portfolio
     (TradingStrategy.class Examples.plain_indicators) Examples.quiet_world
     (Examples.holding 100000 Cases.mixed_store)).2
  = Examples.holding 100000 [VDict Examples.closed_equity_trade].
Proof. vm_compute. reflexivity. Qed.

(** ** Checking signals while a position is open *)

Section Blocked.

Import TradingStrategy PortfolioManager.

Lemma with_status_filter (status : string) (trades l : list value) :
  with_status status trades = Ret l ->
  l = List.filter (has_status status) trades.
Proof.
  revert l. induction trades as [|t rest IH]; intros l Hrun.
  { injection Hrun as <-. reflexivity. }
  cbn [with_status List.filter] in *. unfold has_status.
  destruct (getitem t "status") as [s|]; [|discriminate Hrun].
  cbn [mbind py_bind] in Hrun.
  destruct (with_status status rest) as [l'|]; [|discriminate Hrun].
  cbn [mbind py_bind mret py_ret] in Hrun. injection Hrun as <-.
  rewrite (IH l' eq_refl). reflexivity.
Qed.

(** On the snapshot that [get_technical_signals] returns, the loop of
    [get_portfolio_stats] over the open trades raises at the first
    trade of a registered symbol, if not before. *)
Lemma unrealized_stops (ind : indicators) (w : world) (g : manager)
    (open_trades : list value) :
  Exists (open_position g) open_trades ->
  forall pnl : value,
    exists e, unrealized (class ind) w g open_trades pnl = Raise e.
Proof.
  induction open_trades as [|t rest IH]; intros Hex pnl; [inversion Hex|].
  cbn [unrealized].
  destruct (getitem t "symbol") as [symbol|e] eqn:Hsym; [|cbn; eauto].
  rewrite bind_Ret.
  destruct (get_strategy (trading_strategies g) symbol) as [[strategy|]|e] eqn:Hget;
    [| |cbn; eauto]; rewrite bind_Ret.
  - destruct (getitem t "type") as [ty|e]; [|cbn; eauto].
    rewrite bind_Ret. destruct (is_str ty "equity").
    + cbn [class m_get_technical_signals]. rewrite get_technical_signals_null.
      replace (getitem null_snapshot "price") with (Ret VNone : py value)
        by reflexivity.
      rewrite bind_Ret.
      destruct (getitem t "entry_price") as [entry|e]; [|cbn; eauto].
      rewrite bind_Ret. cbn. eauto.
    + cbn. eauto.
  - apply IH.
    apply Exists_cons in Hex as [(d & sym & s & -> & Hd & Hreg & _)|]; [|assumption].
    rewrite (getitem_Some _ _ _ Hd) in Hsym. injection Hsym as <-.
    cbn [get_strategy] in Hget. congruence.
Qed.

Lemma get_portfolio_stats_stops (ind : indicators) (w : world) (st : state) :
  Exists (open_position (self st)) (store st) ->
  exists e : exn, get_portfolio_stats (class ind) w st = Raise e.
Proof.
  intros Hopen. unfold get_portfolio_stats.
  destruct (store st) as [|t0 rest] eqn:Hstore; [inversion Hopen|].
  rewrite <- Hstore in *. clear Hstore t0 rest.
  destruct (with_status "closed" _) as [closed|e]; [|cbn; eauto].
  rewrite bind_Ret.
  destruct (with_status "open" _) as [opened|e] eqn:Ho; [|cbn; eauto].
  rewrite bind_Ret.
  destruct (sum_profit closed (num 0)) as [total|e]; [|cbn; eauto].
  rewrite bind_Ret.
  destruct (count_winning closed) as [n|e]; [|cbn; eauto].
  rewrite bind_Ret.
  destruct (unrealized_stops ind w (self st) opened) with (pnl := num 0)
    as [e He].
  - apply with_status_filter in Ho. subst opened.
    apply Exists_exists in Hopen as (t & Hin & Ht). apply Exists_exists.
    exists t. split; [|assumption].
    apply list_elem_of_In, filter_In. split; [apply list_elem_of_In; assumption|].
    apply (open_position_has_status _ _ Ht).
  - rewrite He. cbn. eauto.
Qed.

Lemma check_signals_stops (ind : indicators) (w : world) (st : state) :
  Exists (open_position (self st)) (store st) ->
  exists e : exn,
    get_portfolio_stats (class ind) w st = Raise e
    /\ check_signals (class ind) w st = (Raise e, st).
Proof.
  intros Hopen. destruct (get_portfolio_stats_stops ind w st Hopen) as [e He].
  exists e. split; [assumption|].
  unfold check_signals. rewrite He. reflexivity.
Qed.

End Blocked.

(** X5.  With the strategy class of the source, [check_signals] raises
    as soon as the store holds one open position of a registered
    symbol: [get_portfolio_stats] runs first and raises in its loop over
    the open trades ([None - entry_price] for an equity position, the
    missing [calculate_options_pnl] otherwise).  No symbol is examined,
    no signal is returned, and the manager and the store are left as
    they were. *)
Theorem check_signals_blocked_by_open_position
    (ind : TradingStrategy.indicators) (w : PortfolioManager.world)
    (st : PortfolioManager.state)
    (Hopen : Exists (open_position (PortfolioManager.self st))
                    (PortfolioManager.store st)) :
  exists e : exn,
    PortfolioManager.get_portfolio_stats (TradingStrategy.class ind) w st = Raise e
    /\ PortfolioManager.check_signals (TradingStrategy.class ind) w st
       = (Raise e, st).
Proof. exact (check_signals_stops ind w st Hopen). Qed.

Lemma check_signals_blocked_by_open_position_witness :
  exists e : exn,
    PortfolioManager.get_portfolio_stats
      (TradingStrategy.class Examples.plain_indicators) Examples.quiet_world
      (Examples.holding 100000 [VDict (Examples.equity_trade 100 95 115 4)])
    = Raise e
    /\ PortfolioManager.check_signals
         (TradingStrategy.class Examples.plain_indicators) Examples.quiet_world
         (Examples.holding 100000 [VDict (Examples.equity_trade 100 95 115 4)])
       = (Raise e, Examples.holding 100000 [VDict (Examples.equity_trade 100 95 115 4)]).
Proof.
  apply (check_signals_blocked_by_open_position
           Examples.plain_indicators Examples.quiet_world
           (Examples.holding 100000 [VDict (Examples.equity_trade 100 95 115 4)])).
  constructor.
  exists (Examples.equity_trade 100 95 115 4), "AAPL",
         (Examples.strategy_with "AAPL" (Qred (100000 * 0.02)) TradingStrategy.MlNone).
  repeat split.
Defined.

(** The exception of the example is the [TypeError] of [None - 100]. *)
Example check_signals_on_open_equity :
  PortfolioManager.check_signals
    (TradingStrategy.class Examples.plain_indicators) Examples.quiet_world
    (Examples.holding 100000 [VDict (Examples.equity_trade 100 95 115 4)])
  = (Raise TypeError,
     Examples.holding 100000 [VDict (Examples.equity_trade 100 95 115 4)]).
Proof. vm_compute. reflexivity. Qed.

(** ** Trading statistics *)

Section Stats.

Import TradingStrategy TradingStrategyMethods PortfolioManager.

(** A trade whose profit is a number. *)
Definition numeric_profit (t : value) : Prop :=
  exists (d : dict) (p : Q), t = VDict d /\ d !! "profit" = Some (VNum p).

Lemma numeric_profit_of (d : dict) (p : Q) :
  d !! "profit" = Some (VNum p) -> profit_of (VDict d) = p.
Proof.
  intros Hp. unfold profit_of, number. rewrite (getitem_Some _ _ _ Hp). reflexivity.
Qed.

Lemma count_winning_numeric (closed : list value) :
  Forall numeric_profit closed ->
  exists n : nat, count_winning closed = Ret n /\ (n <= length closed)%nat.
Proof.
  induction 1 as [|t rest (d & p & -> & Hp) _ (n & IH & Hn)]; [exists 0%nat; auto|].
  cbn [count_winning dict_get]. rewrite Hp. unfold num. py_num. rewrite IH. py_num.
  cbn [mret py_ret length].
  match goal with |- context [Qlt_bool ?a ?b] => destruct (Qlt_bool a b) end;
    eexists; (split; [reflexivity|lia]).
Qed.

Lemma sum_profits_numeric (closed : list value) :
  Forall numeric_profit closed ->
  forall acc : Q,
    exists s : Q, sum_profits closed (VNum acc) = Ret (VNum s)
                  /\ (s == acc + total profit_of closed)%Q.
Proof.
  induction 1 as [|t rest (d & p & -> & Hp) _ IH]; intros acc.
  { exists acc. split; [reflexivity|]. cbn. ring. }
  cbn [sum_profits dict_get]. rewrite Hp. py_num.
  destruct (IH (Qred (acc + p))) as (s & -> & Hs).
  exists s. split; [reflexivity|].
  rewrite Hs, Qred_correct, total_cons, (numeric_profit_of _ _ Hp). ring.
Qed.

Lemma min_from_numeric (rest : list value) :
  Forall numeric_profit rest ->
  forall b : Q,
    exists m : Q,
      min_from (VNum b) rest = Ret (VNum m)
      /\ (m <= b)%Q
      /\ Forall (fun t => (m <= profit_of t)%Q) rest
      /\ (m = b \/ Exists (fun t => m = profit_of t) rest).
Proof.
  induction 1 as [|t rest (d & p & -> & Hp) _ IH]; intros b.
  { exists b. repeat split; [apply Qle_refl|constructor|left; reflexivity]. }
  cbn [min_from dict_get]. rewrite Hp. py_num.
  rewrite (numeric_profit_of _ _ Hp) || idtac.
  destruct (Qlt_bool p b) eqn:E.
  - apply Qlt_bool_iff in E.
    destruct (IH p) as (m & -> & Hmp & Hall & Hin).
    exists m. split; [reflexivity|].
    split; [apply Qlt_le_weak; eapply Qle_lt_trans; eassumption|].
    split; [constructor; [rewrite (numeric_profit_of _ _ Hp); assumption|assumption]|].
    right. destruct Hin as [->|Hin].
    + left. symmetry. apply numeric_profit_of. assumption.
    + right. assumption.
  - apply Qlt_bool_false_iff in E.
    destruct (IH b) as (m & -> & Hmb & Hall & Hin).
    exists m. split; [reflexivity|].
    split; [assumption|].
    split; [constructor; [rewrite (numeric_profit_of _ _ Hp);
                          eapply Qle_trans; eassumption|assumption]|].
    destruct Hin as [->|Hin]; [left; reflexivity|right; right; assumption].
Qed.

Lemma min_profit_numeric (closed : list value) :
  Forall numeric_profit closed -> closed <> [] ->
  exists m : Q,
    min_profit closed = Ret (VNum m)
    /\ Forall (fun t => (m <= profit_of t)%Q) closed
    /\ Exists (fun t => m = profit_of t) closed.
Proof.
  intros Hnum Hne. destruct Hnum as [|t rest (d & p & -> & Hp) Hrest]; [contradiction|].
  cbn [min_profit dict_get]. rewrite Hp. py_num.
  destruct (min_from_numeric rest Hrest p) as (m & -> & Hmp & Hall & Hin).
  exists m. split; [reflexivity|].
  rewrite <- (numeric_profit_of _ _ Hp) in Hmp, Hin.
  split; [constructor; assumption|].
  destruct Hin as [->|Hin]; [left; reflexivity|right; assumption].
Qed.

Lemma of_nat_div (n k : nat) :
  (0 < k)%nat ->
  v_div (of_nat n) (of_nat k)
  = Ret (VNum (Qred (Qred (inject_Z (Z.of_nat n)) / Qred (inject_Z (Z.of_nat k))))).
Proof.
  intros Hk. unfold of_nat, num. apply v_div_num.
  rewrite Qred_correct. intros H.
  unfold Qeq, inject_Z in H. cbn in H. lia.
Qed.

Lemma ratio_bounds (a b : Q) :
  (0 <= a)%Q -> (a <= b)%Q -> (0 < b)%Q ->
  (0 <= a / b * 100 /\ a / b * 100 <= 100)%Q.
Proof.
  intros Ha Hab Hb.
  assert (0 <= a / b)%Q as H0.
  { apply Qle_shift_div_l; [assumption|]. rewrite Qmult_0_l. assumption. }
  assert (a / b <= 1)%Q as H1.
  { apply Qle_shift_div_r; [assumption|]. rewrite Qmult_1_l. assumption. }
  split; lra.
Qed.

Lemma inject_nat_pos (k : nat) : (0 < k)%nat -> (0 < inject_Z (Z.of_nat k))%Q.
Proof. intros Hk. unfold Qlt, inject_Z. cbn. lia. Qed.

Lemma inject_nat_le (n k : nat) :
  (n <= k)%nat -> (inject_Z (Z.of_nat n) <= inject_Z (Z.of_nat k))%Q.
Proof. intros H. unfold Qle, inject_Z. cbn. lia. Qed.

(** The winners counted by [get_trading_stats] are all the closed
    trades exactly when each has a positive profit, and none of them
    exactly when none has. *)
Lemma count_winning_all_or_none (closed : list value) :
  Forall numeric_profit closed ->
  exists n : nat,
    count_winning closed = Ret n
    /\ (n <= length closed)%nat
    /\ (n = length closed <-> Forall (fun t => (0 < profit_of t)%Q) closed)
    /\ (n = 0%nat <-> Forall (fun t => (profit_of t <= 0)%Q) closed).
Proof.
  induction 1 as [|t rest (d & p & -> & Hp) _ (n & IH & Hn & Hall & Hnone)].
  { exists 0%nat. repeat split; constructor. }
  cbn [count_winning dict_get]. rewrite Hp. unfold num. py_num. rewrite IH. py_num.
  cbn [mret py_ret length]. pose proof (numeric_profit_of _ _ Hp) as Hpf.
  match goal with |- context [Qlt_bool ?a ?b] => destruct (Qlt_bool a b) eqn:E end.
  - apply Qlt_bool_iff in E. rewrite Qred_correct in E.
    eexists. split; [reflexivity|]. split; [lia|].
    rewrite !Forall_cons. cbn beta. rewrite Hpf. split; split.
    + intros H. split; [assumption|]. apply Hall. lia.
    + intros [_ H]. apply Hall in H. lia.
    + discriminate.
    + intros [H _]. exfalso. lra.
  - apply Qlt_bool_false_iff in E. rewrite Qred_correct in E.
    eexists. split; [reflexivity|]. split; [lia|].
    rewrite !Forall_cons. cbn beta. rewrite Hpf. split; split.
    + intros H. exfalso. lia.
    + intros [H _]. exfalso. lra.
    + intros H. split; [assumption|]. apply Hnone. assumption.
    + intros [_ H]. apply Hnone. assumption.
Qed.

Lemma total_nonneg (closed : list value) :
  Forall (fun t => (0 <= profit_of t)%Q) closed -> (0 <= total profit_of closed)%Q.
Proof.
  induction 1 as [|t rest Ht _ IH]; [apply Qle_refl|]. rewrite total_cons. lra.
Qed.

Lemma total_nonpos (closed : list value) :
  Forall (fun t => (profit_of t <= 0)%Q) closed -> (total profit_of closed <= 0)%Q.
Proof.
  induction 1 as [|t rest Ht _ IH]; [apply Qle_refl|]. rewrite total_cons. lra.
Qed.

Lemma ratio_full (a b : Q) : (0 < b)%Q -> (a / b * 100 == 100 <-> a == b)%Q.
Proof.
  intros Hb. split; intros H.
  - assert (a / b == 1)%Q as H1 by lra.
    rewrite <- (Qmult_div_r a b) by lra. rewrite H1. ring.
  - rewrite H. field. lra.
Qed.

Lemma ratio_none (a b : Q) : (0 < b)%Q -> (a / b * 100 == 0 <-> a == 0)%Q.
Proof.
  intros Hb. split; intros H.
  - assert (a / b == 0)%Q as H1 by lra.
    rewrite <- (Qmult_div_r a b) by lra. rewrite H1. ring.
  - rewrite H. field. lra.
Qed.

Lemma inject_nat_eq (n k : nat) :
  (inject_Z (Z.of_nat n) == inject_Z (Z.of_nat k))%Q <-> n = k.
Proof.
  unfold Qeq, inject_Z. cbn. split; [lia|intros ->; reflexivity].
Qed.

Lemma sign_of_share (m c : Q) :
  (0 < c)%Q ->
  ((0 <= m -> 0 <= m / c * 100) /\ (m < 0 -> m / c * 100 <= 0)
   /\ (0 < m / c * 100 -> 0 < m) /\ (m / c * 100 < 0 -> m < 0))%Q.
Proof.
  intros Hc.
  assert (Hm : (m == m / c * c)%Q) by (field; lra).
  assert (H0 : (0 <= m -> 0 <= m / c)%Q).
  { intros H. apply Qle_shift_div_l; [assumption|]. lra. }
  assert (H1 : (m < 0 -> m / c < 0)%Q).
  { intros H. apply Qlt_shift_div_r; [assumption|]. lra. }
  repeat split; intros H.
  - specialize (H0 H). lra.
  - specialize (H1 H). lra.
  - destruct (Qlt_le_dec 0 m) as [?|Hle]; [assumption|].
    exfalso. apply Qle_lteq in Hle as [Hlt|Heq].
    + specialize (H1 Hlt). lra.
    + rewrite Heq in H. unfold Qdiv in H. rewrite Qmult_0_l in H. lra.
  - destruct (Qlt_le_dec m 0) as [?|Hle]; [assumption|].
    exfalso. specialize (H0 Hle). lra.
Qed.

End Stats.

(** X6.  [get_trading_stats] reports on the closed trades only.  When
    they carry numeric profits and the strategy has a positive initial
    capital, [total_trades] is their number; the win rate lies between
    0 and 100, is 100 exactly when every closed trade has a positive
    profit and 0 exactly when none has; the average profit is not
    negative when no closed trade lost and not positive when none won.
    [max_drawdown] is taken from the smallest profit of a closed trade,
    not from a fall of the equity: it is not negative when no closed
    trade lost, not positive when one did, positive only if every
    closed trade won and negative only if one lost.  Without a closed
    trade all four figures are 0. *)
Theorem get_trading_stats_figures
    (self : TradingStrategy.strategy) (trades closed : list value)
    (Hclosed : PortfolioManager.with_status "closed" trades = Ret closed)
    (Hnum : Forall numeric_profit closed)
    (Hne : closed <> [])
    (Hcap : (0 < TradingStrategy.initial_capital self)%Q) :
  (exists win_rate avg_profit max_drawdown : Q,
     TradingStrategyMethods.get_trading_stats self trades
     = Ret (mkdict [
         ("total_trades", PortfolioManager.of_nat (length closed));
         ("win_rate", VNum win_rate);
         ("avg_profit", VNum avg_profit);
         ("max_drawdown", VNum max_drawdown)])
     /\ (0 <= win_rate /\ win_rate <= 100)%Q
     /\ ((win_rate == 100)%Q <-> Forall (fun t => (0 < profit_of t)%Q) closed)
     /\ ((win_rate == 0)%Q <-> Forall (fun t => (profit_of t <= 0)%Q) closed)
     /\ (Forall (fun t => (0 <= profit_of t)%Q) closed -> (0 <= avg_profit)%Q)
     /\ (Forall (fun t => (profit_of t <= 0)%Q) closed -> (avg_profit <= 0)%Q)
     /\ (Forall (fun t => (0 <= profit_of t)%Q) closed -> (0 <= max_drawdown)%Q)
     /\ (Exists (fun t => (profit_of t < 0)%Q) closed -> (max_drawdown <= 0)%Q)
     /\ ((0 < max_drawdown)%Q -> Forall (fun t => (0 < profit_of t)%Q) closed)
     /\ ((max_drawdown < 0)%Q -> Exists (fun t => (profit_of t < 0)%Q) closed))
  /\ (forall (self' : TradingStrategy.strategy) (trades' : list value),
        PortfolioManager.with_status "closed" trades' = Ret [] ->
        TradingStrategyMethods.get_trading_stats self' trades'
        = Ret (mkdict [("total_trades", num 0); ("win_rate", num 0);
                       ("avg_profit", num 0); ("max_drawdown", num 0)])).
Proof.
  split.
  2: { intros self' trades' Hnone.
       unfold TradingStrategyMethods.get_trading_stats. rewrite Hnone. reflexivity. }
  unfold TradingStrategyMethods.get_trading_stats. rewrite Hclosed, bind_Ret.
  assert (Hlen : (0 < length closed)%nat).
  { destruct closed; [contradiction|cbn; lia]. }
  destruct (count_winning_all_or_none closed Hnum) as (n & Hn & Hle & Hfull & Hnone).
  destruct (sum_profits_numeric closed Hnum (Qred 0)) as (s & Hs & Hsum).
  destruct (min_profit_numeric closed Hnum Hne) as (m & Hm & Hall & Hin).
  pose proof (inject_nat_pos _ Hlen) as Hpos.
  assert (Hk : ~ (Qred (inject_Z (Z.of_nat (length closed))) == 0)%Q).
  { rewrite Qred_correct. intros H. rewrite H in Hpos.
    apply (Qlt_irrefl 0). assumption. }
  assert (Hic : ~ (Qred (TradingStrategy.initial_capital self) == 0)%Q).
  { rewrite Qred_correct. intros H. rewrite H in Hcap.
    apply (Qlt_irrefl 0). assumption. }
  destruct closed as [|t0 rest] eqn:E; [contradiction|].
  cbv iota. rewrite <- E in *. clear E t0 rest.
  rewrite Hn, bind_Ret.
  replace (0 <? length closed)%nat with true by (symmetry; apply Nat.ltb_lt; assumption).
  unfold num, PortfolioManager.of_nat, num.
  rewrite (v_div_num _ _ Hk), bind_Ret, v_mul_num, bind_Ret.
  rewrite Hs, bind_Ret, (v_div_num _ _ Hk), bind_Ret.
  rewrite Hm, bind_Ret, (v_div_num _ _ Hic), bind_Ret, v_mul_num, bind_Ret.
  eexists _, _, _. split; [reflexivity|].
  rewrite !Qred_correct in *.
  destruct (sign_of_share m _ Hcap) as (Hs0 & Hs1 & Hs2 & Hs3).
  rewrite Forall_forall in Hall. apply Exists_exists in Hin as (worst & Hworst & ->).
  split; [|split; [|split; [|split; [|split; [|split; [|split; [|split]]]]]]].
  - apply ratio_bounds;
      [apply (inject_nat_le 0); lia|apply inject_nat_le; assumption|assumption].
  - rewrite (ratio_full _ _ Hpos), inject_nat_eq. exact Hfull.
  - rewrite (ratio_none _ _ Hpos). change 0%Q with (inject_Z (Z.of_nat 0)).
    rewrite inject_nat_eq. exact Hnone.
  - intros H. apply total_nonneg in H.
    apply Qle_shift_div_l; [assumption|]. lra.
  - intros H. apply total_nonpos in H.
    apply Qle_shift_div_r; [assumption|]. lra.
  - intros H. apply Hs0. rewrite Forall_forall in H. apply H. assumption.
  - intros H. apply Exists_exists in H as (t & Ht & Hlost).
    apply Hs1. specialize (Hall t Ht). lra.
  - intros H. apply Forall_forall. intros t Ht.
    specialize (Hall t Ht). specialize (Hs2 H). lra.
  - intros H. apply Exists_exists. exists worst. split; [assumption|].
    apply Hs3. assumption.
Qed.

Lemma get_trading_stats_figures_witness :
  let closed := [VDict Examples.closed_equity_trade; VDict Cases.closed_loss] in
  (exists win_rate avg_profit max_drawdown : Q,
     TradingStrategyMethods.get_trading_stats Examples.aapl Cases.history_store
     = Ret (mkdict [
         ("total_trades", PortfolioManager.of_nat (length closed));
         ("win_rate", VNum win_rate);
         ("avg_profit", VNum avg_profit);
         ("max_drawdown", VNum max_drawdown)])
     /\ (0 <= win_rate /\ win_rate <= 100)%Q
     /\ ((win_rate == 100)%Q <-> Forall (fun t => (0 < profit_of t)%Q) closed)
     /\ ((win_rate == 0)%Q <-> Forall (fun t => (profit_of t <= 0)%Q) closed)
     /\ (Forall (fun t => (0 <= profit_of t)%Q) closed -> (0 <= avg_profit)%Q)
     /\ (Forall (fun t => (profit_of t <= 0)%Q) closed -> (avg_profit <= 0)%Q)
     /\ (Forall (fun t => (0 <= profit_of t)%Q) closed -> (0 <= max_drawdown)%Q)
     /\ (Exists (fun t => (profit_of t < 0)%Q) closed -> (max_drawdown <= 0)%Q)
     /\ ((0 < max_drawdown)%Q -> Forall (fun t => (0 < profit_of t)%Q) closed)
     /\ ((max_drawdown < 0)%Q -> Exists (fun t => (profit_of t < 0)%Q) closed))
  /\ (forall (self' : TradingStrategy.strategy) (trades' : list value),
        PortfolioManager.with_status "closed" trades' = Ret [] ->
        TradingStrategyMethods.get_trading_stats self' trades'
        = Ret (mkdict [("total_trades", num 0); ("win_rate", num 0);
                       ("avg_profit", num 0); ("max_drawdown", num 0)])).
Proof.
  apply (get_trading_stats_figures Examples.aapl Cases.history_store
           [VDict Examples.closed_equity_trade; VDict Cases.closed_loss]).
  - vm_compute. reflexivity.
  - repeat constructor.
    + exists Examples.closed_equity_trade, 60%Q. split; reflexivity.
    + exists Cases.closed_loss, (-40)%Q. split; reflexivity.
  - discriminate.
  - reflexivity.
Defined.

(** The figures of the example: one winner out of two, an average
    profit of 10, and a worst trade at -2 percent of the capital. *)
Example history_store_stats :
  TradingStrategyMethods.get_trading_stats Examples.aapl Cases.history_store
  = Ret (mkdict [("total_trades", VNum 2); ("win_rate", VNum 50);
                 ("avg_profit", VNum 10); ("max_drawdown", VNum (-2))]).
Proof. vm_compute. reflexivity. Qed.

(** A single closed trade that won 60 on a capital of 2000: the figure
    called [max_drawdown] is 3, a gain. *)
Example drawdown_of_a_winner :
  TradingStrategyMethods.get_trading_stats Examples.aapl
    [VDict Examples.closed_equity_trade]
  = Ret (mkdict [("total_trades", VNum 1); ("win_rate", VNum 100);
                 ("avg_profit", VNum 60); ("max_drawdown", VNum 3)]).
Proof. vm_compute. reflexivity. Qed.

(** ** The options chain *)

Section Chain.

Import OptionsAnalysis.

(** What every row that [get_options_chain] builds satisfies. *)
Definition built_row (expirations : list string) (r : row) : Prop :=
  In (expiration (contract r)) expirations
  /\ (optionType (contract r) = "CALL" \/ optionType (contract r) = "PUT")
  /\ totalValue r = (v ← volume r; Some (v * lastPrice (contract r) * 100)%Q).

Lemma labelled_built (ty exp : string) (expirations : list string) (l : listing) :
  In exp expirations -> ty = "CALL" \/ ty = "PUT" ->
  built_row expirations (labelled ty exp l).
Proof. intros Hin Hty. repeat split; assumption. Qed.

Lemma fetch_built (stock : ticker) (expirations : list string) :
  forall (all_options : list (list row)) (listed : list string),
    fetch stock expirations = Ret all_options ->
    (forall exp, In exp expirations -> In exp listed) ->
    Forall (Forall (built_row listed)) all_options
    /\ (expirations <> [] -> all_options <> []).
Proof.
  induction expirations as [|exp rest IH]; intros all_options listed Hrun Hsub.
  { injection Hrun as <-. split; [constructor|congruence]. }
  cbn [fetch] in Hrun.
  destruct (option_chain stock exp) as [[calls puts]|]; [|discriminate Hrun].
  cbn [mbind py_bind mret py_ret fst snd] in Hrun.
  destruct (fetch stock rest) as [more|] eqn:Hrest; [|discriminate Hrun].
  cbn [mbind py_bind mret py_ret] in Hrun. injection Hrun as <-.
  destruct (IH more listed eq_refl) as [Hmore _].
  { intros e He. apply Hsub. right. assumption. }
  split; [|discriminate].
  assert (Hexp : In exp listed) by (apply Hsub; left; reflexivity).
  repeat constructor; [| |assumption].
  - apply Forall_forall. intros r Hr. apply list_elem_of_In, in_map_iff in Hr as (l & <- & _).
    apply labelled_built; auto.
  - apply Forall_forall. intros r Hr. apply list_elem_of_In, in_map_iff in Hr as (l & <- & _).
    apply labelled_built; auto.
Qed.

Lemma concat_built (listed : list string) (all_options : list (list row)) :
  Forall (Forall (built_row listed)) all_options ->
  Forall (built_row listed) (concat all_options).
Proof.
  induction 1 as [|rows more Hrows _ IH]; [constructor|].
  cbn [concat]. apply Forall_app. split; assumption.
Qed.

Lemma get_options_chain_inv (stock : ticker) (num_expiries : nat) :
  (get_options_chain stock num_expiries = (None, []))
  \/ exists rows expirations,
       get_options_chain stock num_expiries = (Some rows, expirations)
       /\ options stock = Ret expirations
       /\ expirations <> []
       /\ (0 < num_expiries)%nat
       /\ Forall (built_row (take num_expiries expirations)) rows.
Proof.
  unfold get_options_chain.
  destruct (options stock) as [expirations|]; [|left; reflexivity].
  rewrite bind_Ret. destruct expirations as [|first later]; [left; reflexivity|].
  destruct (fetch stock (take num_expiries (first :: later))) as [all_options|] eqn:Hf;
    [|left; reflexivity].
  rewrite bind_Ret.
  destruct (fetch_built stock _ all_options (take num_expiries (first :: later)) Hf)
    as [Hbuilt Hne]; [auto|].
  destruct num_expiries as [|n].
  { injection Hf as <-. left. reflexivity. }
  destruct all_options as [|rows more]; [exfalso; apply Hne; [discriminate|reflexivity]|].
  right. exists (concat (rows :: more)), (first :: later).
  split; [reflexivity|]. split; [reflexivity|]. split; [discriminate|].
  split; [lia|]. apply concat_built. assumption.
Qed.

Lemma find_strike_prices_needs_frame (m : market) (current_price : value)
    (width : Q) (strikes : list Q) :
  options_df m = None ->
  OptionsStrategy.find_strike_prices m current_price width = Ret strikes ->
  False.
Proof.
  intros Hdf Hrun. unfold OptionsStrategy.find_strike_prices, column in Hrun.
  rewrite Hdf in Hrun.
  destruct (v_mul current_price (num (1 - width))); [|discriminate Hrun].
  cbn [mbind py_bind] in Hrun.
  destruct (v_mul current_price (num (1 + width))); discriminate Hrun.
Qed.

End Chain.

(** X7.  [get_options_chain] never raises and answers either the frame
    without columns together with no expiry date, or a frame together
    with every expiry date that the provider lists.  The rows of the
    frame belong to the first [num_expiries] listed dates only, each is
    a call or a put, and its [totalValue] is volume times last price
    times 100, not-a-number when the volume is.  With [num_expiries = 1]
    every row carries the first listed date. *)
Theorem get_options_chain_rows_and_dates
    (stock : OptionsAnalysis.ticker) (num_expiries : nat) :
  let answer := OptionsAnalysis.get_options_chain stock num_expiries in
  (answer.1 = None <-> answer.2 = [])
  /\ (forall rows, answer.1 = Some rows ->
        OptionsAnalysis.options stock = Ret answer.2
        /\ Forall (built_row (take num_expiries answer.2)) rows)
  /\ (num_expiries = 1%nat ->
      forall rows r, answer.1 = Some rows -> In r rows ->
        head answer.2 = Some (expiration (OptionsAnalysis.contract r)))
  /\ (num_expiries = 0%nat -> answer = (None, [])).
Proof.
  intros answer. subst answer.
  destruct (get_options_chain_inv stock num_expiries)
    as [->|(rows & expirations & -> & Hlisted & Hne & Hpos & Hbuilt)]; cbn [fst snd].
  - split; [split; reflexivity|].
    split; [intros rows H; discriminate H|].
    split; [intros _ rows r H; discriminate H|reflexivity].
  - split; [split; [intros H; discriminate H|intros H; contradiction]|].
    split; [intros rows' H; injection H as <-; split; assumption|].
    split; [|intros ->; lia].
    intros -> rows' r H Hin. injection H as <-.
    rewrite Forall_forall in Hbuilt.
    destruct (Hbuilt r) as (Hexp & _); [apply list_elem_of_In; assumption|].
    destruct expirations as [|first later]; [contradiction|].
    cbn in Hexp. destruct Hexp as [<-|[]]. reflexivity.
Qed.

(** The chain of the example ticker: four rows, all at the weekly
    expiry, and both expiry dates. *)
Example ticker_chain :
  (OptionsAnalysis.get_options_chain Cases.ticker 1).2
  = [Examples.nearest; Examples.expiry]
  /\ rows Cases.ticker_market
     = [Examples.weekly 98 "CALL" 3.0; Examples.weekly 102 "CALL" 0.9;
        Examples.weekly 98 "PUT" 0.8; Examples.weekly 102 "PUT" 2.7]
  /\ OptionsStrategy.get_expiry_dates Cases.ticker_market = [Examples.expiry].
Proof. repeat split. Qed.

(** X8.  The engine reads its quotes from the frame of
    [num_expiries=1], which holds the nearest listed expiry only, and
    selects its expiry among the dates 30 to 60 days out.  So when the
    nearest listed expiry is not 30 to 60 days out, the frame has no row
    at the selected date, and every builder that finds enough candidate
    strikes raises [IndexError]: no option structure can be built. *)
Theorem nearest_expiry_out_of_range_breaks_builders
    (stock : OptionsAnalysis.ticker) (days_to_expiry : string -> Z)
    (clock : string) (nearest : string) (later : list string)
    (current_price : value) (width : Q) (strikes : list Q)
    (expiry_date : string) (more : list string)
    (Hlisted : OptionsAnalysis.options stock = Ret (nearest :: later))
    (Hout : ~ (30 <= days_to_expiry nearest <= 60)%Z)
    (Hselected : OptionsStrategy.get_expiry_dates
                   (market_of stock days_to_expiry clock) = expiry_date :: more)
    (Hstrikes : OptionsStrategy.find_strike_prices
                  (market_of stock days_to_expiry clock) current_price width
                = Ret strikes) :
  let m := market_of stock days_to_expiry clock in
  ((2 <= length strikes)%nat ->
     OptionsStrategy.create_vertical_spread m "bull_call" expiry_date current_price width
     = Raise IndexError
     /\ OptionsStrategy.create_vertical_spread m "bear_put" expiry_date current_price width
        = Raise IndexError)
  /\ ((3 <= length strikes)%nat ->
        OptionsStrategy.create_butterfly m expiry_date current_price width
        = Raise IndexError)
  /\ ((4 <= length strikes)%nat ->
        OptionsStrategy.create_iron_condor m expiry_date current_price width
        = Raise IndexError).
Proof.
  intros m.
  assert (Hrange : (30 <= days_to_expiry expiry_date <= 60)%Z).
  { assert (Hin : In expiry_date (OptionsStrategy.get_expiry_dates m)).
    { subst m. rewrite Hselected. left. reflexivity. }
    unfold OptionsStrategy.get_expiry_dates in Hin.
    apply list_elem_of_In, list_elem_of_fmap in Hin as ([d n] & -> & Hin).
    apply list_elem_of_In, filter_In in Hin as [Hin Hok].
    subst m. cbn [market_of expiry_dates] in Hin.
    apply in_map_iff in Hin as (date & Heq & _). injection Heq as <- <-.
    cbn [fst snd] in *. lia. }
  assert (Hne : expiry_date <> nearest) by (intros ->; contradiction).
  destruct (options_df m) as [quotes|] eqn:Hdf.
  2: { exfalso. exact (find_strike_prices_needs_frame _ _ _ _ Hdf Hstrikes). }
  apply (builders_without_rows m expiry_date current_price width quotes strikes Hdf);
    [|exact Hstrikes].
  intros q Hq Hexp.
  subst m. cbn [market_of options_df] in Hdf.
  destruct (get_options_chain_inv stock 1)
    as [Hnone|(rows & expirations & Hsome & Hopts & _ & _ & Hbuilt)].
  { rewrite Hnone in Hdf. discriminate Hdf. }
  rewrite Hsome in Hdf. cbn [fst] in Hdf. injection Hdf as <-.
  rewrite Hlisted in Hopts. injection Hopts as <-.
  apply in_map_iff in Hq as (r & <- & Hr).
  rewrite Forall_forall in Hbuilt.
  destruct (Hbuilt r) as (Hin & _); [apply list_elem_of_In; assumption|].
  cbn in Hin. destruct Hin as [Heq|[]]. congruence.
Qed.

Lemma nearest_expiry_out_of_range_breaks_builders_witness :
  let m := Cases.ticker_market in
  ((2 <= length [98%Q; 102%Q])%nat ->
     OptionsStrategy.create_vertical_spread m "bull_call" Examples.expiry (VNum 100) 0.05
     = Raise IndexError
     /\ OptionsStrategy.create_vertical_spread m "bear_put" Examples.expiry (VNum 100) 0.05
        = Raise IndexError)
  /\ ((3 <= length [98%Q; 102%Q])%nat ->
        OptionsStrategy.create_butterfly m Examples.expiry (VNum 100) 0.05
        = Raise IndexError)
  /\ ((4 <= length [98%Q; 102%Q])%nat ->
        OptionsStrategy.create_iron_condor m Examples.expiry (VNum 100) 0.05
        = Raise IndexError).
Proof.
  apply (nearest_expiry_out_of_range_breaks_builders
           Cases.ticker Cases.days_to_expiry "2026-11-03 10:00:00"
           Examples.nearest [Examples.expiry] (VNum 100) 0.05 [98%Q; 102%Q]
           Examples.expiry []).
  - reflexivity.
  - vm_compute. intros [H _]. apply H. reflexivity.
  - reflexivity.
  - vm_compute. reflexivity.
Defined.

(** ** Options flow signals *)

Section Flow.

Import OptionsAnalysis TradingStrategy TradingStrategyMethods.

(** A run that raises. *)
Definition raises {A : Type} (run : py A) : Prop := exists e, run = Raise e.

Lemma raises_bind {A B : Type} (run : py A) (k : A -> py B) :
  (forall a, raises (k a)) -> raises (run ≫= k).
Proof.
  intros Hk. destruct run as [a|e]; cbn [mbind py_bind]; [apply Hk|].
  eexists. reflexivity.
Qed.

Lemma statistics_of_empty (options_df : frame) :
  empty options_df = true ->
  calculate_options_statistics options_df = mkdict [].
Proof. intros H. unfold calculate_options_statistics. rewrite H. reflexivity. Qed.

Lemma sum_nonneg (cells : list (option Q)) :
  Forall (fun c => forall v, c = Some v -> (0 <= v)%Q) cells ->
  (0 <= sum cells)%Q.
Proof.
  induction 1 as [|c cells Hc _ IH]; [apply Qle_refl|].
  cbn [sum foldr]. fold (sum cells). destruct c as [v|]; [|assumption].
  specialize (Hc v eq_refl). lra.
Qed.

Lemma sum_column_nonneg (column : row -> option Q) (ty : string) (rows : list row) :
  Forall (fun r => forall v, column r = Some v -> (0 <= v)%Q) rows ->
  (0 <= sum (column <$> of_type ty rows))%Q.
Proof.
  intros H. apply sum_nonneg. apply Forall_fmap.
  unfold of_type. rewrite Forall_forall in *. intros r Hr v Hv.
  apply list_elem_of_In, filter_In in Hr as [Hr _].
  apply (H r); [apply list_elem_of_In; assumption|exact Hv].
Qed.

End Flow.

(** X9.  On an empty chain [calculate_options_statistics] returns the
    empty dict, so [get_options_signals] raises [KeyError] at
    ['net_money_flow'].  A strategy fed by it is never told to enter:
    [should_enter_trade] swallows the exception and returns [None], and
    [execute_trade], which has no handler, raises for every trade type,
    snapshot and store. *)
Theorem empty_chain_blocks_entry
    (stock : OptionsAnalysis.ticker)
    (Hempty : OptionsAnalysis.empty (OptionsAnalysis.get_options_chain stock 3).1
              = true) :
  TradingStrategyMethods.get_options_signals stock
  = Raise (KeyError "net_money_flow")
  /\ forall (self : TradingStrategy.strategy) (tech_signals : value)
            (f : TradingStrategy.feed),
       TradingStrategy.options_signals f
       = TradingStrategyMethods.get_options_signals stock ->
       TradingStrategy.should_enter_trade_on self tech_signals f = VNone
       /\ forall (trade_type : value) (trades : list value),
            exists e,
              TradingStrategy.execute_trade_on self tech_signals f trade_type trades
              = Raise e.
Proof.
  assert (Hsignals : TradingStrategyMethods.get_options_signals stock
                     = Raise (KeyError "net_money_flow")).
  { unfold TradingStrategyMethods.get_options_signals.
    rewrite (statistics_of_empty _ Hempty). reflexivity. }
  split; [exact Hsignals|].
  intros self tech_signals f Hfeed. rewrite Hsignals in Hfeed. split.
  - unfold TradingStrategy.should_enter_trade_on,
      TradingStrategy.should_enter_trade_try.
    destruct (getitem tech_signals "price") as [price|]; [|reflexivity].
    rewrite bind_Ret. destruct (is_none price); [reflexivity|].
    rewrite Hfeed. reflexivity.
  - intros trade_type trades. unfold TradingStrategy.execute_trade_on.
    do 2 (apply raises_bind; intros ?).
    apply raises_bind; intros [stop target].
    rewrite Hfeed. eexists. reflexivity.
Qed.

Lemma empty_chain_blocks_entry_witness :
  TradingStrategyMethods.get_options_signals Cases.unlisted
  = Raise (KeyError "net_money_flow")
  /\ forall (self : TradingStrategy.strategy) (tech_signals : value)
            (f : TradingStrategy.feed),
       TradingStrategy.options_signals f
       = TradingStrategyMethods.get_options_signals Cases.unlisted ->
       TradingStrategy.should_enter_trade_on self tech_signals f = VNone
       /\ forall (trade_type : value) (trades : list value),
            exists e,
              TradingStrategy.execute_trade_on self tech_signals f trade_type trades
              = Raise e.
Proof.
  apply (empty_chain_blocks_entry Cases.unlisted). reflexivity.
Defined.

Section FlowSignals.

Import OptionsAnalysis.

Lemma ratio_gt_iff (x t c : Q) :
  (0 < t)%Q -> (c < x / t)%Q <-> (c * t < x)%Q.
Proof.
  intros Ht. rewrite <- (Qmult_lt_r _ _ t Ht).
  setoid_replace (x / t * t)%Q with x using relation Qeq; [reflexivity|].
  field. intros H. rewrite H in Ht. apply (Qlt_irrefl 0). assumption.
Qed.

Lemma Qabs_ratio (x t : Q) : (0 < t)%Q -> (Qabs (x / t) == Qabs x / t)%Q.
Proof.
  intros Ht. unfold Qdiv. rewrite Qabs_Qmult, Qabs_Qinv.
  rewrite (Qabs_pos t); [reflexivity|apply Qlt_le_weak; assumption].
Qed.

End FlowSignals.

(** X10.  On a chain with rows, [get_options_signals] returns its four
    signals, computed from the sums of the columns with not-a-number
    cells skipped: the flow is bullish exactly when the value traded in
    calls exceeds the value traded in puts, it is strong exactly when
    the difference exceeds 30 percent of the sum, the put/call ratio
    lies between 0 and the put volume (the call volume counts for 1 at
    least), and activity is high exactly when more than 1000 contracts
    traded. *)
Theorem options_signals_follow_the_flow
    (stock : OptionsAnalysis.ticker) (rows : list OptionsAnalysis.row)
    (dates : list string)
    (Hchain : OptionsAnalysis.get_options_chain stock 3 = (Some rows, dates))
    (Hrows : rows <> [])
    (Hvalue : Forall (fun r => forall v, OptionsAnalysis.totalValue r = Some v
                                         -> (0 <= v)%Q) rows)
    (Hvolume : Forall (fun r => forall v, OptionsAnalysis.volume r = Some v
                                          -> (0 <= v)%Q) rows) :
  let value ty := OptionsAnalysis.sum
                    (OptionsAnalysis.totalValue <$> OptionsAnalysis.of_type ty rows) in
  let traded ty := OptionsAnalysis.sum
                     (OptionsAnalysis.volume <$> OptionsAnalysis.of_type ty rows) in
  exists (bullish strong active : bool) (ratio : Q),
    TradingStrategyMethods.get_options_signals stock
    = Ret (mkdict [("bullish_flow", VBool bullish);
                   ("strong_flow", VBool strong);
                   ("put_call_ratio", VNum ratio);
                   ("high_activity", VBool active)])
    /\ (bullish = true <-> (value "PUT" < value "CALL")%Q)
    /\ (strong = true <->
        (0.3 * (value "CALL" + value "PUT")
         < Qabs (value "CALL" - value "PUT"))%Q)
    /\ (0 <= ratio /\ ratio <= traded "PUT")%Q
    /\ (active = true <-> (1000 < traded "CALL" + traded "PUT")%Q).
Proof.
  intros value traded. subst value traded. cbv beta.
  unfold TradingStrategyMethods.get_options_signals.
  rewrite Hchain. cbn [fst].
  unfold OptionsAnalysis.calculate_options_statistics.
  replace (OptionsAnalysis.empty (Some rows)) with false
    by (destruct rows; [contradiction|reflexivity]).
  change (default [] (Some rows)) with rows. cbv zeta.
  set (cv := OptionsAnalysis.sum
               (OptionsAnalysis.totalValue <$> OptionsAnalysis.of_type "CALL" rows)).
  set (pv := OptionsAnalysis.sum
               (OptionsAnalysis.totalValue <$> OptionsAnalysis.of_type "PUT" rows)).
  set (cn := OptionsAnalysis.sum
               (OptionsAnalysis.volume <$> OptionsAnalysis.of_type "CALL" rows)).
  set (pn := OptionsAnalysis.sum
               (OptionsAnalysis.volume <$> OptionsAnalysis.of_type "PUT" rows)).
  assert (Hcv : (0 <= cv)%Q) by (apply sum_column_nonneg; assumption).
  assert (Hpv : (0 <= pv)%Q) by (apply sum_column_nonneg; assumption).
  assert (Hcn : (0 <= cn)%Q) by (apply sum_column_nonneg; assumption).
  assert (Hpn : (0 <= pn)%Q) by (apply sum_column_nonneg; assumption).
  clearbody cv pv cn pn.
  match goal with |- context [getitem ?d "net_money_flow"] => set (stats := d) end.
  replace (getitem stats "net_money_flow")
    with (Ret (num (cv - pv)) : py Py.value) by reflexivity.
  replace (getitem stats "money_flow_ratio")
    with (Ret (num (if Qlt_bool 0 (cv + pv) then (cv - pv) / (cv + pv) else 0))
          : py Py.value) by reflexivity.
  replace (getitem stats "put_call_ratio")
    with (Ret (num (pn / Qmax cn 1)) : py Py.value) by reflexivity.
  replace (getitem stats "total_call_volume")
    with (Ret (num cn) : py Py.value) by reflexivity.
  replace (getitem stats "total_put_volume")
    with (Ret (num pn) : py Py.value) by reflexivity.
  clear stats. unfold TradingStrategyMethods.v_abs, num.
  cbn [as_float of_float fmap option_fmap option_map].
  py_num. cbn [mbind py_bind mret py_ret].
  eexists _, _, _, _. split; [reflexivity|].
  split; [|split; [|split]].
  - rewrite Qlt_bool_iff, !Qred_correct. split; intros H; lra.
  - rewrite Qlt_bool_iff, !Qred_correct.
    destruct (Qlt_bool 0 (cv + pv)) eqn:E.
    + apply Qlt_bool_iff in E. rewrite (Qabs_ratio _ _ E).
      apply ratio_gt_iff. assumption.
    + apply Qlt_bool_false_iff in E.
      assert (cv == 0 /\ pv == 0)%Q as [H1 H2] by (split; lra).
      rewrite H1, H2. split; intros H; vm_compute in H; discriminate H.
  - rewrite !Qred_correct.
    assert (Hmax : (1 <= Qmax cn 1)%Q) by apply Q.le_max_r.
    assert (Hpos : (0 < Qmax cn 1)%Q).
    { eapply Qlt_le_trans; [|exact Hmax]. reflexivity. }
    split.
    + apply Qle_shift_div_l; [assumption|]. rewrite Qmult_0_l. assumption.
    + apply Qle_shift_div_r; [assumption|].
      rewrite (Qmult_comm pn (Qmax _ _)).
      apply Qle_trans with (1 * pn)%Q; [rewrite Qmult_1_l; apply Qle_refl|].
      apply Qmult_le_compat_r; assumption.
  - rewrite Qlt_bool_iff, !Qred_correct. reflexivity.
Qed.

Lemma options_signals_follow_the_flow_witness :
  let value ty := OptionsAnalysis.sum
                    (OptionsAnalysis.totalValue
                       <$> OptionsAnalysis.of_type ty Cases.flow_rows) in
  let traded ty := OptionsAnalysis.sum
                     (OptionsAnalysis.volume
                        <$> OptionsAnalysis.of_type ty Cases.flow_rows) in
  exists (bullish strong active : bool) (ratio : Q),
    TradingStrategyMethods.get_options_signals Cases.ticker
    = Ret (mkdict [("bullish_flow", VBool bullish);
                   ("strong_flow", VBool strong);
                   ("put_call_ratio", VNum ratio);
                   ("high_activity", VBool active)])
    /\ (bullish = true <-> (value "PUT" < value "CALL")%Q)
    /\ (strong = true <->
        (0.3 * (value "CALL" + value "PUT")
         < Qabs (value "CALL" - value "PUT"))%Q)
    /\ (0 <= ratio /\ ratio <= traded "PUT")%Q
    /\ (active = true <-> (1000 < traded "CALL" + traded "PUT")%Q).
Proof.
  apply (options_signals_follow_the_flow Cases.ticker Cases.flow_rows
           [Examples.nearest; Examples.expiry]).
  - vm_compute. reflexivity.
  - discriminate.
  - repeat constructor; intros v H; vm_compute in H; try discriminate H;
      injection H as <-; vm_compute; discriminate.
  - repeat constructor; intros v H; vm_compute in H; try discriminate H;
      injection H as <-; vm_compute; discriminate.
Defined.

(** The signals of the example ticker: 420000 traded in calls against
    89500 in puts, 1400 calls and 700 puts, one call without volume. *)
Example ticker_signals :
  TradingStrategyMethods.get_options_signals Cases.ticker
  = Ret (mkdict [("bullish_flow", VBool true); ("strong_flow", VBool true);
                 ("put_call_ratio", VNum (1 # 2)); ("high_activity", VBool true)]).
Proof. vm_compute. reflexivity. Qed.

(** ** The rolling indicators *)

Section Rolling.

Import TechnicalAnalysis.

Lemma rolling_length (agg : list Q -> Q) (w : nat) (data : list cell) :
  length (rolling agg w data) = length data.
Proof. apply length_imap. Qed.

Lemma rolling_lookup (agg : list Q -> Q) (w : nat) (data : list cell) (i : nat) :
  (i < length data)%nat ->
  rolling agg w data !! i
  = Some (if (S i <? w)%nat || (w =? 0)%nat then None
          else agg <$> mapM id (window_at w i data)).
Proof.
  intros Hi. unfold rolling. rewrite list_lookup_imap.
  destruct (lookup_lt_is_Some_2 data i Hi) as [c ->]. reflexivity.
Qed.

Lemma rolling_early (agg : list Q -> Q) (w : nat) (data : list cell) (i : nat) :
  (i < length data)%nat -> (S i < w)%nat -> rolling agg w data !! i = Some None.
Proof.
  intros Hi Hw. rewrite rolling_lookup by assumption.
  replace (S i <? w)%nat with true by (symmetry; apply Nat.ltb_lt; assumption).
  reflexivity.
Qed.



Lemma rolling_numbers (agg : list Q -> Q) (w : nat) (xs : list Q) (i : nat) :
  (0 < w)%nat -> (w <= S i)%nat -> (i < length xs)%nat ->
  rolling agg w (Some <$> xs) !! i
  = Some (Some (agg (take w (drop (S i - w) xs)))).
Proof.
  intros Hpos Hw Hi. rewrite rolling_lookup by (rewrite length_fmap; assumption).
  replace (S i <? w)%nat with false by (symmetry; apply Nat.ltb_ge; assumption).
  replace (w =? 0)%nat with false by (symmetry; apply Nat.eqb_neq; lia).
  cbn [orb].
  unfold window_at. rewrite <- fmap_drop, <- fmap_take.
  rewrite mapM_fmap_Some by reflexivity. reflexivity.
Qed.


Lemma window_last (w i : nat) (xs : list Q) (x : Q) :
  (0 < w)%nat -> (w <= S i)%nat -> xs !! i = Some x ->
  In x (take w (drop (S i - w) xs)).
Proof.
  intros Hpos Hw Hx. apply list_elem_of_In.
  apply (list_elem_of_lookup_2 _ (w - 1)).
  rewrite lookup_take_lt by lia. rewrite lookup_drop.
  replace (S i - w + (w - 1))%nat with i by lia. assumption.
Qed.




Lemma mean_nonneg (xs : list Q) :
  Forall (fun x => (0 <= x)%Q) xs -> (0 <= mean xs)%Q.
Proof.
  intros H. unfold mean.
  assert (0 <= total xs)%Q as Ht.
  { induction H as [|x xs Hx _ IH]; [apply Qle_refl|].
    cbn [total foldr]. fold (total xs). lra. }
  destruct xs as [|x xs'].
  { cbn. apply Qle_refl. }
  apply Qle_shift_div_l; [unfold Qlt, inject_Z; cbn; lia|].
  rewrite Qmult_0_l. assumption.
Qed.

Lemma Qmin_either (a b : Q) : Qmin a b = a \/ Qmin a b = b.
Proof.
  unfold Qmin, GenericMinMax.gmin. destruct (Qcompare a b); auto.
Qed.

Lemma Qmax_either (a b : Q) : Qmax a b = a \/ Qmax a b = b.
Proof.
  unfold Qmax, GenericMinMax.gmax. destruct (Qcompare a b); auto.
Qed.

Lemma minimum_spec (xs : list Q) :
  xs <> [] -> In (minimum xs) xs /\ Forall (fun x => (minimum xs <= x)%Q) xs.
Proof.
  destruct xs as [|x xs]; [contradiction|]. intros _. cbn [minimum].
  induction xs as [|y xs [IHin IHle]].
  { cbn. split; [left; reflexivity|repeat constructor; apply Qle_refl]. }
  cbn [foldr].
  apply Forall_cons in IHle as [Hx Hxs]. split.
  - destruct (Qmin_either y (foldr Qmin x xs)) as [->| ->].
    + right. left. reflexivity.
    + destruct IHin as [Heq|Hin]; [left; assumption|right; right; assumption].
  - pose proof (Q.le_min_r y (foldr Qmin x xs)) as Hr.
    repeat constructor.
    + eapply Qle_trans; eassumption.
    + apply Q.le_min_l.
    + eapply Forall_impl; [exact Hxs|]. intros z Hz. cbn beta in *.
      eapply Qle_trans; eassumption.
Qed.

Lemma maximum_spec (xs : list Q) :
  xs <> [] -> In (maximum xs) xs /\ Forall (fun x => (x <= maximum xs)%Q) xs.
Proof.
  destruct xs as [|x xs]; [contradiction|]. intros _. cbn [maximum].
  induction xs as [|y xs [IHin IHle]].
  { cbn. split; [left; reflexivity|repeat constructor; apply Qle_refl]. }
  cbn [foldr].
  apply Forall_cons in IHle as [Hx Hxs]. split.
  - destruct (Qmax_either y (foldr Qmax x xs)) as [->| ->].
    + right. left. reflexivity.
    + destruct IHin as [Heq|Hin]; [left; assumption|right; right; assumption].
  - pose proof (Q.le_max_r y (foldr Qmax x xs)) as Hr.
    repeat constructor.
    + eapply Qle_trans; eassumption.
    + apply Q.le_max_l.
    + eapply Forall_impl; [exact Hxs|]. intros z Hz. cbn beta in *.
      eapply Qle_trans; eassumption.
Qed.

Lemma window_sub (w i : nat) (data : list cell) (c : cell) :
  c ∈ window_at w i data -> c ∈ data.
Proof.
  unfold window_at. intros Hc.
  apply elem_of_take in Hc as (k & Hk & _). rewrite lookup_drop in Hk.
  apply (list_elem_of_lookup_2 _ _ _ Hk).
Qed.

(** A property of numbers that the mean of a window inherits. *)
Lemma rolling_mean_forall (P : Q -> Prop) (w : nat) (data : list cell) :
  (forall ys, Forall P ys -> P (mean ys)) ->
  Forall (fun c => forall x, c = Some x -> P x) data ->
  Forall (fun c => forall m, c = Some m -> P m) (rolling mean w data).
Proof.
  intros Hmean Hdata. apply Forall_lookup. intros i c Hc m ->.
  assert (Hi : (i < length data)%nat).
  { rewrite <- (rolling_length mean w). apply (lookup_lt_Some _ _ _ Hc). }
  rewrite rolling_lookup in Hc by assumption. injection Hc as Hc.
  destruct ((S i <? w)%nat || (w =? 0)%nat); [discriminate Hc|].
  destruct (mapM id (window_at w i data)) as [ys|] eqn:Hys; [|discriminate Hc].
  injection Hc as <-. apply Hmean.
  apply mapM_Some_1 in Hys. rewrite Forall_forall in Hdata.
  clear -Hys Hdata.
  assert (Hsub : forall c, c ∈ window_at w i data -> c ∈ data)
    by (intros c; apply window_sub).
  induction Hys as [|c y cs ys Hcy _ IH]; [constructor|].
  constructor.
  - apply (Hdata c); [apply Hsub; left|exact Hcy].
  - apply IH. intros c' Hc'. apply Hsub. right. assumption.
Qed.

Lemma mean_zero (ys : list Q) :
  Forall (fun y => (y == 0)%Q) ys -> (mean ys == 0)%Q.
Proof.
  intros H. unfold mean.
  assert (total ys == 0)%Q as ->.
  { induction H as [|y ys Hy _ IH]; [reflexivity|].
    cbn [total foldr]. fold (total ys). rewrite Hy, IH. reflexivity. }
  unfold Qdiv. apply Qmult_0_l.
Qed.

Lemma Forall_zip_with_fmap {A B C : Type} (f : A -> B -> C)
    (P1 : A -> Prop) (P2 : B -> Prop) (R : C -> Prop) (l1 : list A) :
  (forall x y, P1 x -> P2 y -> R (f x y)) ->
  forall l2, Forall P1 l1 -> Forall P2 l2 -> Forall R (zip_with f l1 l2).
Proof.
  intros Hf. induction l1 as [|x l1 IH]; intros l2 H1 H2; [constructor|].
  destruct l2 as [|y l2]; [constructor|].
  apply Forall_cons in H1 as [Hx H1]. apply Forall_cons in H2 as [Hy H2].
  cbn [zip_with]. constructor; [apply Hf; assumption|apply IH; assumption].
Qed.

Lemma diff_length (data : list cell) : length (diff data) = length data.
Proof.
  destruct data as [|c rest]; [reflexivity|].
  cbn [diff length]. rewrite length_zip_with. cbn [length]. lia.
Qed.

(** A cell of the RSI column: not-a-number, or a number from 0 to 100. *)
Definition percentage (c : float) : Prop :=
  c = NaN \/ exists q, c = Finite q /\ (0 <= q /\ q <= 100)%Q.

Definition rsi_cell (gain loss : cell) : float :=
  const_minus 100 (const_over 100 (plus_const 1 (divide gain loss))).

Lemma rsi_cell_percentage (gain loss : cell) :
  (forall a, gain = Some a -> (0 <= a)%Q) ->
  (forall b, loss = Some b -> (0 <= b)%Q) ->
  percentage (rsi_cell gain loss).
Proof.
  intros Hg Hl. unfold rsi_cell, divide.
  destruct gain as [a|]; [|left; reflexivity].
  destruct loss as [b|]; [|left; reflexivity].
  specialize (Hg a eq_refl). specialize (Hl b eq_refl).
  destruct (Qeq_bool b 0) eqn:Eb.
  - destruct (Qeq_bool a 0); [left; reflexivity|].
    right. exists (100 - 0)%Q.
    split; [destruct (Qlt_bool 0 a); reflexivity|split; lra].
  - assert (Hb : (0 < b)%Q).
    { apply Qeq_bool_neq in Eb. apply Qle_lteq in Hl as [?|Heq]; [assumption|].
      exfalso. apply Eb. symmetry. assumption. }
    assert (Hr : (0 <= a / b)%Q).
    { apply Qle_shift_div_l; [assumption|]. rewrite Qmult_0_l. assumption. }
    cbn [plus_const const_over].
    destruct (Qeq_bool (1 + a / b) 0) eqn:E1.
    { apply Qeq_bool_iff in E1. exfalso. lra. }
    right. eexists. split; [reflexivity|].
    assert (0 <= 100 / (1 + a / b) /\ 100 / (1 + a / b) <= 100)%Q as [H0 H1].
    { split.
      - apply Qle_shift_div_l; lra.
      - apply Qle_shift_div_r; lra. }
    split; lra.
Qed.

Lemma rsi_cell_flat (gain loss : cell) :
  (forall a, gain = Some a -> (a == 0)%Q) ->
  (forall b, loss = Some b -> (b == 0)%Q) ->
  rsi_cell gain loss = NaN.
Proof.
  intros Hg Hl. unfold rsi_cell, divide.
  destruct gain as [a|]; [|reflexivity].
  destruct loss as [b|]; [|reflexivity].
  specialize (Hg a eq_refl). specialize (Hl b eq_refl).
  apply Qeq_bool_iff in Hg, Hl. rewrite Hg, Hl. reflexivity.
Qed.

(** The change of a price column from each row to the next, with 0 on
    the first row, where [diff] has not-a-number and [where] leaves 0. *)
Definition steps (xs : list Q) : list Q :=
  match xs with
  | [] => []
  | _ :: rest => 0%Q :: zip_with (fun previous current => (current - previous)%Q) xs rest
  end.

Definition gains (xs : list Q) : list Q :=
  (fun d => if Qlt_bool 0 d then d else 0%Q) <$> steps xs.

Definition losses (xs : list Q) : list Q :=
  Qopp <$> ((fun d => if Qlt_bool d 0 then d else 0%Q) <$> steps xs).

Lemma steps_length (xs : list Q) : length (steps xs) = length xs.
Proof.
  destruct xs as [|x rest]; [reflexivity|].
  cbn [steps length]. rewrite length_zip_with. cbn [length]. lia.
Qed.

Lemma steps_lookup (xs : list Q) (k : nat) (x y : Q) :
  xs !! k = Some x -> xs !! S k = Some y -> steps xs !! S k = Some (y - x)%Q.
Proof.
  destruct xs as [|x0 rest]; [discriminate|]. intros Hx Hy.
  cbn [steps]. change ((0%Q :: ?l) !! S k) with (l !! k).
  change ((x0 :: rest) !! S k) with (rest !! k) in Hy.
  rewrite lookup_zip_with, Hx, Hy. reflexivity.
Qed.

Lemma steps_lookup_inv (xs : list Q) (j : nat) (d : Q) :
  steps xs !! j = Some d ->
  (j = 0%nat /\ d = 0%Q)
  \/ exists k x y, j = S k /\ xs !! k = Some x /\ xs !! S k = Some y
                   /\ d = (y - x)%Q.
Proof.
  destruct xs as [|x0 rest]; [discriminate|]. cbn [steps].
  destruct j as [|k]; [intros H; injection H as <-; left; split; reflexivity|].
  change ((0%Q :: ?l) !! S k) with (l !! k).
  rewrite lookup_zip_with. intros H.
  destruct ((x0 :: rest) !! k) as [x|] eqn:Hx; [|discriminate H].
  destruct (rest !! k) as [y|] eqn:Hy; [|discriminate H].
  injection H as <-. right. exists k, x, y. repeat split; assumption.
Qed.

Lemma where_changes (cond : Q -> bool) (l rest : list Q) :
  where_ cond (zip_with (fun previous current : cell =>
                           x ← current; y ← previous; Some (x - y)%Q)
                        (Some <$> l) (Some <$> rest))
  = Some <$> ((fun d => if cond d then d else 0%Q)
                <$> zip_with (fun previous current => (current - previous)%Q) l rest).
Proof.
  revert rest. induction l as [|x l IH]; intros [|y rest]; try reflexivity.
  unfold where_ in *. cbn [fmap list_fmap zip_with]. f_equal; [|apply IH].
  cbn. destruct (cond (y - x)%Q); reflexivity.
Qed.

Lemma where_steps (cond : Q -> bool) (xs : list Q) :
  where_ cond (diff (Some <$> xs))
  = Some <$> ((fun d => if cond d then d else 0%Q) <$> steps xs).
Proof.
  destruct xs as [|x0 rest]; [reflexivity|].
  pose proof (where_changes cond (x0 :: rest) rest) as H.
  unfold where_ in *. cbn [fmap list_fmap diff steps] in *. f_equal.
  { destruct (cond 0%Q); reflexivity. }
  exact H.
Qed.

Lemma negated_numbers (l : list Q) :
  negated (Some <$> l) = Some <$> (Qopp <$> l).
Proof. unfold negated. rewrite <- !list_fmap_compose. reflexivity. Qed.

(** The RSI cell of a row of a column of numbers. *)
Lemma calculate_rsi_numbers (xs : list Q) (periods i : nat) :
  (0 < periods)%nat -> (periods <= S i)%nat -> (i < length xs)%nat ->
  calculate_rsi (Some <$> xs) periods !! i
  = Some (rsi_cell (Some (mean (take periods (drop (S i - periods) (gains xs)))))
                   (Some (mean (take periods (drop (S i - periods) (losses xs)))))).
Proof.
  intros Hpos Hfull Hi. unfold calculate_rsi. cbv zeta.
  rewrite list_lookup_fmap, lookup_zip_with, !where_steps, negated_numbers.
  fold (gains xs). fold (losses xs).
  assert (Hg : (i < length (gains xs))%nat)
    by (unfold gains; rewrite length_fmap, steps_length; assumption).
  assert (Hl : (i < length (losses xs))%nat)
    by (unfold losses; rewrite !length_fmap, steps_length; assumption).
  rewrite !rolling_numbers by assumption.
  reflexivity.
Qed.

Lemma window_forall (P : Q -> Prop) (w i : nat) (l : list Q) :
  (w <= S i)%nat ->
  (forall j d, (j <= i)%nat -> l !! j = Some d -> P d) ->
  Forall P (take w (drop (S i - w) l)).
Proof.
  intros Hw H. apply Forall_lookup. intros n d Hn.
  apply lookup_take_Some in Hn as [Hn Hlt]. rewrite lookup_drop in Hn.
  apply (H (S i - w + n)%nat d); [lia|assumption].
Qed.

Lemma window_exists (P : Q -> Prop) (w i j : nat) (l : list Q) (d : Q) :
  (S i <= j + w)%nat -> (j <= i)%nat -> l !! j = Some d -> P d ->
  Exists P (take w (drop (S i - w) l)).
Proof.
  intros Hin Hji Hj Hd. apply Exists_exists. exists d. split; [|assumption].
  apply (list_elem_of_lookup_2 _ (j - (S i - w))).
  rewrite lookup_take_lt by lia. rewrite lookup_drop.
  replace (S i - w + (j - (S i - w)))%nat with j by lia. assumption.
Qed.

Lemma total_pos (ys : list Q) :
  Forall (fun y => (0 <= y)%Q) ys -> Exists (fun y => (0 < y)%Q) ys ->
  (0 < total ys)%Q.
Proof.
  intros Hall Hone.
  assert (Hnn : forall zs, Forall (fun y => (0 <= y)%Q) zs -> (0 <= total zs)%Q).
  { intros zs Hzs. induction Hzs as [|z zs Hz _ IH]; [apply Qle_refl|].
    cbn [total foldr]. fold (total zs). lra. }
  induction Hone as [y ys Hy|y ys _ IH];
    apply Forall_cons in Hall as [Hy0 Hall];
    cbn [total foldr]; fold (total ys).
  - specialize (Hnn ys Hall). lra.
  - specialize (IH Hall). lra.
Qed.

Lemma mean_pos (ys : list Q) :
  Forall (fun y => (0 <= y)%Q) ys -> Exists (fun y => (0 < y)%Q) ys ->
  (0 < mean ys)%Q.
Proof.
  intros Hall Hone. pose proof (total_pos ys Hall Hone) as Ht.
  unfold mean. apply Qlt_shift_div_l; [|lra].
  destruct ys as [|y ys]; [inversion Hone|]. unfold Qlt, inject_Z. cbn. lia.
Qed.

Lemma rsi_cell_all_gain (a b : Q) :
  (0 < a)%Q -> (b == 0)%Q -> rsi_cell (Some a) (Some b) = Finite (100 - 0).
Proof.
  intros Ha Hb. unfold rsi_cell, divide.
  apply Qeq_bool_iff in Hb. rewrite Hb.
  destruct (Qeq_bool a 0) eqn:Ea.
  { apply Qeq_bool_iff in Ea. exfalso. lra. }
  apply Qlt_bool_iff in Ha. rewrite Ha. reflexivity.
Qed.

Lemma rsi_cell_all_loss (a b : Q) :
  (a == 0)%Q -> (0 < b)%Q ->
  exists q, rsi_cell (Some a) (Some b) = Finite q /\ (q == 0)%Q.
Proof.
  intros Ha Hb. unfold rsi_cell, divide.
  destruct (Qeq_bool b 0) eqn:Eb.
  { apply Qeq_bool_iff in Eb. exfalso. lra. }
  cbn [plus_const const_over].
  assert (Hr : (a / b == 0)%Q) by (rewrite Ha; unfold Qdiv; apply Qmult_0_l).
  destruct (Qeq_bool (1 + a / b) 0) eqn:E1.
  { apply Qeq_bool_iff in E1. exfalso. lra. }
  eexists. split; [reflexivity|]. rewrite Hr. reflexivity.
Qed.

End Rolling.


(** The moving average of five prices over three rows. *)
Example sma_of_five_prices :
  TechnicalAnalysis.calculate_sma [Some 10; Some 11; Some 12; Some 13; Some 17]%Q 3
  = [None; None; Some (33 / 3); Some (36 / 3); Some (42 / 3)]%Q
  /\ TechnicalAnalysis.calculate_sma [Some 10; None; Some 12; Some 13; Some 17]%Q 2
     = [None; None; None; Some (25 / 2); Some (30 / 2)]%Q.
Proof. split; reflexivity. Qed.

(** X12.  [calculate_rsi] keeps the length of its column, and every
    cell is not-a-number or a number from 0 to 100, never an infinite
    cell.  The first [periods - 1] cells are not-a-number.  On a column
    of numbers, from row [periods - 1] on: where the prices up to the
    row never fell and rose at least once within the last [periods]
    rows, the average loss is zero and the average gain positive, the
    division yields an infinity and the cell is 100; where they never
    rose and fell at least once within the last [periods] rows the cell
    is 0.  On prices that never change every cell is not-a-number (the
    average gain and the average loss are both zero, and a zero average
    loss does not yield 100 there), which is the case that
    [get_technical_signals] reports as "RSI calculation failed". *)
Theorem calculate_rsi_is_a_percentage
    (data : list (option Q)) (periods : nat) :
  length (TechnicalAnalysis.calculate_rsi data periods) = length data
  /\ Forall percentage (TechnicalAnalysis.calculate_rsi data periods)
  /\ (forall i, (i < length data)%nat -> (S i < periods)%nat ->
        TechnicalAnalysis.calculate_rsi data periods !! i
        = Some TechnicalAnalysis.NaN)
  /\ (forall (n : nat) (x : Q),
        Forall (fun c => c = TechnicalAnalysis.NaN)
               (TechnicalAnalysis.calculate_rsi (replicate n (Some x)) periods))
  /\ (forall (xs : list Q) (i : nat),
        data = Some <$> xs ->
        (0 < periods)%nat -> (periods <= S i)%nat -> (i < length xs)%nat ->
        (forall k x y, (S k <= i)%nat ->
           xs !! k = Some x -> xs !! S k = Some y -> (x <= y)%Q) ->
        (exists k x y, (S i <= S k + periods)%nat /\ (S k <= i)%nat
           /\ xs !! k = Some x /\ xs !! S k = Some y /\ (x < y)%Q) ->
        exists q : Q,
          TechnicalAnalysis.calculate_rsi data periods !! i
          = Some (TechnicalAnalysis.Finite q)
          /\ (q == 100)%Q)
  /\ (forall (xs : list Q) (i : nat),
        data = Some <$> xs ->
        (0 < periods)%nat -> (periods <= S i)%nat -> (i < length xs)%nat ->
        (forall k x y, (S k <= i)%nat ->
           xs !! k = Some x -> xs !! S k = Some y -> (y <= x)%Q) ->
        (exists k x y, (S i <= S k + periods)%nat /\ (S k <= i)%nat
           /\ xs !! k = Some x /\ xs !! S k = Some y /\ (y < x)%Q) ->
        exists q : Q,
          TechnicalAnalysis.calculate_rsi data periods !! i
          = Some (TechnicalAnalysis.Finite q)
          /\ (q == 0)%Q).
Proof.
  split; [|split; [|split; [|split; [|split]]]].
  5: { intros xs i -> Hpos Hfull Hi Hmono (k & x & y & Hin & Hki & Hx & Hy & Hxy).
       rewrite calculate_rsi_numbers by assumption.
       exists (100 - 0)%Q. split; [|reflexivity]. f_equal.
       apply rsi_cell_all_gain.
       - apply mean_pos.
         + apply window_forall; [assumption|]. intros j d Hj Hd.
           unfold gains in Hd. rewrite list_lookup_fmap in Hd.
           destruct (steps xs !! j) as [e|]; [|discriminate Hd].
           injection Hd as <-.
           destruct (Qlt_bool 0 e) eqn:E; [|apply Qle_refl].
           apply Qlt_le_weak, Qlt_bool_iff. assumption.
         + apply (window_exists _ _ _ (S k) _ (y - x)%Q); try assumption.
           * unfold gains. rewrite list_lookup_fmap.
             rewrite (steps_lookup _ _ _ _ Hx Hy). cbn [fmap option_fmap option_map].
             replace (Qlt_bool 0 (y - x)) with true; [reflexivity|].
             symmetry. apply Qlt_bool_iff. lra.
           * lra.
       - apply mean_zero. apply window_forall; [assumption|]. intros j d Hj Hd.
         unfold losses in Hd. rewrite !list_lookup_fmap in Hd.
         destruct (steps xs !! j) as [e|] eqn:He; [|discriminate Hd].
         injection Hd as <-.
         destruct (Qlt_bool e 0) eqn:E; [|reflexivity].
         exfalso. apply Qlt_bool_iff in E.
         apply steps_lookup_inv in He as [[_ ->]|(k' & x' & y' & -> & Hx' & Hy' & ->)].
         + lra.
         + specialize (Hmono k' x' y' Hj Hx' Hy'). lra. }
  5: { intros xs i -> Hpos Hfull Hi Hmono (k & x & y & Hin & Hki & Hx & Hy & Hxy).
       rewrite calculate_rsi_numbers by assumption.
       destruct (rsi_cell_all_loss
                   (TechnicalAnalysis.mean (take periods (drop (S i - periods) (gains xs))))
                   (TechnicalAnalysis.mean (take periods (drop (S i - periods) (losses xs)))))
         as (q & Hq & Hq0).
       - apply mean_zero. apply window_forall; [assumption|]. intros j d Hj Hd.
         unfold gains in Hd. rewrite list_lookup_fmap in Hd.
         destruct (steps xs !! j) as [e|] eqn:He; [|discriminate Hd].
         injection Hd as <-.
         destruct (Qlt_bool 0 e) eqn:E; [|reflexivity].
         exfalso. apply Qlt_bool_iff in E.
         apply steps_lookup_inv in He as [[_ ->]|(k' & x' & y' & -> & Hx' & Hy' & ->)].
         + lra.
         + specialize (Hmono k' x' y' Hj Hx' Hy'). lra.
       - apply mean_pos.
         + apply window_forall; [assumption|]. intros j d Hj Hd.
           unfold losses in Hd. rewrite !list_lookup_fmap in Hd.
           destruct (steps xs !! j) as [e|]; [|discriminate Hd].
           injection Hd as <-.
           destruct (Qlt_bool e 0) eqn:E; [|apply Qle_refl].
           apply Qlt_bool_iff in E. lra.
         + apply (window_exists _ _ _ (S k) _ (- (y - x))%Q); try assumption.
           * unfold losses. rewrite !list_lookup_fmap.
             rewrite (steps_lookup _ _ _ _ Hx Hy). cbn [fmap option_fmap option_map].
             replace (Qlt_bool (y - x) 0) with true; [reflexivity|].
             symmetry. apply Qlt_bool_iff. lra.
           * lra.
       - exists q. split; [rewrite Hq; reflexivity|assumption]. }
  all: unfold TechnicalAnalysis.calculate_rsi; cbv zeta.
  - rewrite length_fmap, length_zip_with, !rolling_length.
    unfold TechnicalAnalysis.negated, TechnicalAnalysis.where_.
    rewrite !length_fmap, diff_length. lia.
  - apply Forall_fmap.
    apply (Forall_zip_with_fmap _
             (fun c => forall a, c = Some a -> (0 <= a)%Q)
             (fun c => forall b, c = Some b -> (0 <= b)%Q)).
    + intros g l Hg Hl. apply (rsi_cell_percentage g l Hg Hl).
    + apply (rolling_mean_forall (fun x => (0 <= x)%Q)); [apply mean_nonneg|].
      unfold TechnicalAnalysis.where_. apply Forall_fmap, Forall_true.
      intros [d|] x; cbn beta iota.
      * destruct (Qlt_bool 0 d) eqn:E; intros H; injection H as <-;
          [apply Qlt_le_weak, Qlt_bool_iff; assumption|apply Qle_refl].
      * intros H. injection H as <-. apply Qle_refl.
    + apply (rolling_mean_forall (fun x => (0 <= x)%Q)); [apply mean_nonneg|].
      unfold TechnicalAnalysis.negated, TechnicalAnalysis.where_.
      apply Forall_fmap, Forall_fmap, Forall_true.
      intros [d|] x; cbn.
      * destruct (Qlt_bool d 0) eqn:E; intros H; injection H as <-.
        -- apply Qlt_bool_iff in E. lra.
        -- lra.
      * intros H. injection H as <-. lra.
  - intros i Hi Hearly.
    rewrite list_lookup_fmap, lookup_zip_with.
    rewrite (rolling_early _ _ (TechnicalAnalysis.where_ _ _)); [|  |assumption].
    2: { unfold TechnicalAnalysis.where_. rewrite length_fmap, diff_length.
         assumption. }
    rewrite (rolling_early _ _ (TechnicalAnalysis.negated _)); [|  |assumption].
    2: { unfold TechnicalAnalysis.negated, TechnicalAnalysis.where_.
         rewrite !length_fmap, diff_length. assumption. }
    reflexivity.
  - intros n x. apply Forall_fmap.
    assert (Hdelta : Forall (fun c => forall d, c = Some d -> (d == 0)%Q)
                            (TechnicalAnalysis.diff (replicate n (Some x)))).
    { destruct n as [|n]; [constructor|].
      cbn [replicate TechnicalAnalysis.diff]. constructor; [discriminate|].
      apply (Forall_zip_with_fmap _ (fun c => c = Some x) (fun c => c = Some x)).
      - intros c1 c2 -> -> d H. injection H as <-. ring.
      - constructor; [reflexivity|]. apply Forall_replicate. reflexivity.
      - apply Forall_replicate. reflexivity. }
    apply (Forall_zip_with_fmap _
             (fun c => forall a, c = Some a -> (a == 0)%Q)
             (fun c => forall b, c = Some b -> (b == 0)%Q)).
    + intros g l Hg Hl. apply (rsi_cell_flat g l Hg Hl).
    + apply (rolling_mean_forall (fun x => (x == 0)%Q)); [apply mean_zero|].
      unfold TechnicalAnalysis.where_. apply Forall_fmap.
      eapply Forall_impl; [exact Hdelta|]. intros [d|] Hd a; cbn beta iota.
      * specialize (Hd d eq_refl).
        destruct (Qlt_bool 0 d) eqn:E; intros H; injection H as <-;
          [assumption|reflexivity].
      * intros H. injection H as <-. reflexivity.
    + apply (rolling_mean_forall (fun x => (x == 0)%Q)); [apply mean_zero|].
      unfold TechnicalAnalysis.negated, TechnicalAnalysis.where_.
      apply Forall_fmap, Forall_fmap.
      eapply Forall_impl; [exact Hdelta|]. intros [d|] Hd a; cbn.
      * specialize (Hd d eq_refl).
        destruct (Qlt_bool d 0) eqn:E; intros H; injection H as <-;
          [rewrite Hd; reflexivity|reflexivity].
      * intros H. injection H as <-. reflexivity.
Qed.

(** Three periods on six prices: two not-a-number cells, then 50, 75
    and 75, and 100 after three rises in a row. *)
Example rsi_of_six_prices :
  exists a b c : Q,
    TechnicalAnalysis.calculate_rsi
      [Some 10; Some 11; Some 10; Some 12; Some 13; Some 14]%Q 3
    = [TechnicalAnalysis.NaN; TechnicalAnalysis.NaN;
       TechnicalAnalysis.Finite a; TechnicalAnalysis.Finite b;
       TechnicalAnalysis.Finite c; TechnicalAnalysis.Finite (100 - 0)]
    /\ (a == 50 /\ b == 75 /\ c == 75)%Q.
Proof. eexists _, _, _. split; [reflexivity|]. repeat split. Qed.

(** Four falls in a row: 0 from the row on whose three last steps are
    all falls. *)
Example rsi_of_falling_prices :
  exists a b c : Q,
    TechnicalAnalysis.calculate_rsi [Some 14; Some 13; Some 12; Some 11; Some 9]%Q 3
    = [TechnicalAnalysis.NaN; TechnicalAnalysis.NaN;
       TechnicalAnalysis.Finite a; TechnicalAnalysis.Finite b;
       TechnicalAnalysis.Finite c]
    /\ (a == 0 /\ b == 0 /\ c == 0)%Q.
Proof. eexists _, _, _. split; [reflexivity|]. repeat split. Qed.

(** X13.  On a frame whose highs and lows are all numbers, with each
    low at most the high of its row, [calculate_support_resistance]
    gives from row [window - 1] on a support that is the lowest low and
    a resistance that is the highest high of the last [window] rows:
    both are prices of the window, the support is at most the low of
    the current row and the resistance at least its high, so the
    support never exceeds the resistance. *)
Theorem support_never_exceeds_resistance
    (highs lows : list Q) (closes : list (option Q)) (window i : nat)
    (low high : Q)
    (Hrows : Forall2 Qle lows highs)
    (Hpos : (0 < window)%nat) (Hfull : (window <= S i)%nat)
    (Hlow : lows !! i = Some low) (Hhigh : highs !! i = Some high) :
  let df := {| TechnicalAnalysis.High := Some <$> highs;
               TechnicalAnalysis.Low := Some <$> lows;
               TechnicalAnalysis.Close := closes |} in
  exists support resistance : Q,
    (TechnicalAnalysis.calculate_support_resistance df window).1 !! i
    = Some (Some support)
    /\ (TechnicalAnalysis.calculate_support_resistance df window).2 !! i
       = Some (Some resistance)
    /\ In support (take window (drop (S i - window) lows))
    /\ In resistance (take window (drop (S i - window) highs))
    /\ Forall (fun x => (support <= x)%Q) (take window (drop (S i - window) lows))
    /\ Forall (fun x => (x <= resistance)%Q) (take window (drop (S i - window) highs))
    /\ (support <= low /\ low <= high /\ high <= resistance)%Q.
Proof.
  intros df. subst df.
  unfold TechnicalAnalysis.calculate_support_resistance.
  cbn [fst snd TechnicalAnalysis.High TechnicalAnalysis.Low].
  assert (Hil : (i < length lows)%nat) by (apply (lookup_lt_Some _ _ _ Hlow)).
  assert (Hih : (i < length highs)%nat) by (apply (lookup_lt_Some _ _ _ Hhigh)).
  rewrite !rolling_numbers by assumption.
  set (wl := take window (drop (S i - window) lows)).
  set (wh := take window (drop (S i - window) highs)).
  assert (Hwl : In low wl) by (apply window_last; assumption).
  assert (Hwh : In high wh) by (apply window_last; assumption).
  destruct (minimum_spec wl) as [Hmin_in Hmin_le].
  { intros Hnil. rewrite Hnil in Hwl. destruct Hwl. }
  destruct (maximum_spec wh) as [Hmax_in Hmax_le].
  { intros Hnil. rewrite Hnil in Hwh. destruct Hwh. }
  exists (TechnicalAnalysis.minimum wl), (TechnicalAnalysis.maximum wh).
  do 6 (split; [first [reflexivity|assumption]|]).
  rewrite Forall_forall in Hmin_le, Hmax_le.
  split; [apply Hmin_le, list_elem_of_In; assumption|].
  split; [|apply Hmax_le, list_elem_of_In; assumption].
  apply (Forall2_lookup_lr _ _ _ _ _ _ Hrows Hlow Hhigh).
Qed.

Lemma support_never_exceeds_resistance_witness :
  let df := {| TechnicalAnalysis.High := Some <$> [11; 12; 13; 12]%Q;
               TechnicalAnalysis.Low := Some <$> [9; 10; 11; 11]%Q;
               TechnicalAnalysis.Close := [] |} in
  exists support resistance : Q,
    (TechnicalAnalysis.calculate_support_resistance df 3).1 !! 3%nat
    = Some (Some support)
    /\ (TechnicalAnalysis.calculate_support_resistance df 3).2 !! 3%nat
       = Some (Some resistance)
    /\ In support (take 3 (drop (4 - 3) [9; 10; 11; 11]%Q))
    /\ In resistance (take 3 (drop (4 - 3) [11; 12; 13; 12]%Q))
    /\ Forall (fun x => (support <= x)%Q) (take 3 (drop (4 - 3) [9; 10; 11; 11]%Q))
    /\ Forall (fun x => (x <= resistance)%Q)
              (take 3 (drop (4 - 3) [11; 12; 13; 12]%Q))
    /\ (support <= 11 /\ 11 <= 12 /\ 12 <= resistance)%Q.
Proof.
  apply (support_never_exceeds_resistance
           [11; 12; 13; 12]%Q [9; 10; 11; 11]%Q [] 3 3 11 12).
  - repeat constructor; vm_compute; discriminate.
  - lia.
  - lia.
  - reflexivity.
  - reflexivity.
Defined.

(** Support 10 and resistance 13 on the last row of the example. *)
Example support_and_resistance_of_four_rows :
  TechnicalAnalysis.calculate_support_resistance
    {| TechnicalAnalysis.High := Some <$> [11; 12; 13; 12]%Q;
       TechnicalAnalysis.Low := Some <$> [9; 10; 11; 11]%Q;
       TechnicalAnalysis.Close := [] |} 3
  = ([None; None; Some 9; Some 10]%Q, [None; None; Some 13; Some 13]%Q).
Proof. reflexivity. Qed.

(** ** Fetching the price history *)

Section History.

Import TradingStrategy StockData.

(** A frame that passes the checks of [get_historical_data]. *)
Definition validated (df : DataFrame) : Prop :=
  df_empty df = false
  /\ (forall col, In col required_columns -> is_Some (columns df !! col))
  /\ (50 <= df_len df)%nat.

(** The attempt made after [j] failures fails. *)
Definition failed (symbol : string) (history : nat -> outcome) (j : nat) : Prop :=
  exists message, attempt symbol (history j) = Failed message.

Definition rate_limited (message : string) : bool :=
  contains "Too Many Requests" message.

Lemma attempt_fetched (symbol : string) (answer : outcome) (df : DataFrame) :
  attempt symbol answer = Fetched df -> answer = Fetched df /\ validated df.
Proof.
  unfold attempt. destruct answer as [df'|message]; [|discriminate].
  destruct (df_empty df') eqn:He; [discriminate|].
  destruct (forallb _ required_columns) eqn:Hc; [|discriminate].
  destruct (df_len df' <? 50)%nat eqn:Hl; [discriminate|].
  cbn [negb]. intros H. injection H as <-. split; [reflexivity|].
  split; [assumption|]. split.
  - intros col Hin. rewrite forallb_forall in Hc.
    specialize (Hc col Hin). apply bool_decide_eq_true in Hc. assumption.
  - apply Nat.ltb_ge. assumption.
Qed.

Lemma retry_spec (symbol : string) (history : nat -> outcome)
    (max_retries : nat) (delay : Q) (turns : nat) :
  forall (retries : nat) (slept : list Q),
    (turns + retries = max_retries)%nat ->
    exists (result : option DataFrame) (extra : list Q),
      retry turns symbol history max_retries delay retries slept
      = (result, slept ++ extra)
      /\ (forall j, (retries <= j)%nat -> (j < retries + length extra)%nat ->
            failed symbol history j)
      /\ ((exists df,
             result = Some df
             /\ (retries + length extra < max_retries)%nat
             /\ attempt symbol (history (retries + length extra)) = Fetched df)
          \/ (result = Some no_data
              /\ (retries + length extra + 1 = max_retries)%nat
              /\ exists message,
                   attempt symbol (history (retries + length extra))
                   = Failed message
                   /\ rate_limited message = false)
          \/ (result = None
              /\ (retries + length extra = max_retries)%nat
              /\ (length extra = 0%nat
                  \/ exists message,
                       attempt symbol (history (max_retries - 1)) = Failed message
                       /\ rate_limited message = true))).
Proof.
  induction turns as [|turns IH]; intros retries slept Hsum.
  { exists None, []. cbn [retry length]. rewrite app_nil_r.
    split; [reflexivity|]. split; [intros j ? ?; lia|].
    right. right. split; [reflexivity|]. split; [lia|]. left. reflexivity. }
  cbn [retry].
  replace (retries <? max_retries)%nat with true
    by (symmetry; apply Nat.ltb_lt; lia).
  cbn [negb].
  destruct (attempt symbol (history retries)) as [df|message] eqn:Ha.
  { exists (Some df), []. cbn [length]. rewrite app_nil_r, Nat.add_0_r.
    split; [reflexivity|]. split; [intros j ? ?; lia|].
    left. exists df. split; [reflexivity|]. split; [lia|assumption]. }
  assert (Hstep : forall x result extra,
            retry turns symbol history max_retries delay (S retries) (slept ++ [x])
            = (result, (slept ++ [x]) ++ extra) ->
            (forall j, (S retries <= j)%nat -> (j < S retries + length extra)%nat ->
               failed symbol history j) ->
            forall j, (retries <= j)%nat ->
                      (j < retries + length (x :: extra))%nat ->
                      failed symbol history j).
  { intros x result extra _ Hlater j Hj1 Hj2. cbn [length] in Hj2.
    destruct (Nat.eq_dec j retries) as [->|Hne]; [eexists; exact Ha|].
    apply Hlater; lia. }
  fold (rate_limited message).
  destruct (rate_limited message) eqn:Hrl.
  - destruct (IH (S retries)
                (slept ++ [(delay * inject_Z (2 ^ Z.of_nat (S retries - 1)))%Q]))
      as (result & extra & Hrun & Hfailed & Hcases); [lia|].
    exists result, ((delay * inject_Z (2 ^ Z.of_nat (S retries - 1)))%Q :: extra).
    rewrite Hrun, <- app_assoc. split; [reflexivity|].
    split; [eapply Hstep; eassumption|].
    cbn [length]. replace (retries + S (length extra))%nat
      with (S retries + length extra)%nat by lia.
    destruct Hcases as [Hc|[Hc|(-> & Hmax & Hlast)]]; [left; exact Hc|right; left; exact Hc|].
    right. right. split; [reflexivity|]. split; [assumption|]. right.
    destruct Hlast as [Hzero|Hlast]; [|assumption].
    exists message. replace (max_retries - 1)%nat with retries by lia. auto.
  - destruct (S retries <? max_retries)%nat eqn:Hmore.
    + apply Nat.ltb_lt in Hmore.
      destruct (IH (S retries) (slept ++ [delay]))
        as (result & extra & Hrun & Hfailed & Hcases); [lia|].
      exists result, (delay :: extra).
      rewrite Hrun, <- app_assoc. split; [reflexivity|].
      split; [eapply Hstep; eassumption|].
      cbn [length]. replace (retries + S (length extra))%nat
        with (S retries + length extra)%nat by lia.
      destruct Hcases as [Hc|[Hc|(-> & Hmax & Hlast)]];
        [left; exact Hc|right; left; exact Hc|].
      right. right. split; [reflexivity|]. split; [assumption|]. right.
      destruct Hlast as [Hzero|Hlast]; [lia|assumption].
    + apply Nat.ltb_ge in Hmore.
      exists (Some no_data), []. cbn [length]. rewrite app_nil_r, Nat.add_0_r.
      split; [reflexivity|]. split; [intros j ? ?; lia|].
      right. left. split; [reflexivity|]. split; [lia|].
      exists message. auto.
Qed.

End History.

(** X14.  [get_historical_data] never raises and makes at most
    [max_retries] attempts.  It returns the first frame that passes its
    checks (not empty, the five price columns, at least 50 rows), after
    one sleep for each failed attempt.  When every attempt fails it
    returns the empty frame, unless the last failure was a rate limit:
    then it sleeps once more, falls out of the loop and returns [None]. *)
Theorem get_historical_data_outcomes
    (symbol : string) (history : nat -> StockData.outcome)
    (max_retries : nat) (delay : Q) :
  exists (result : option TradingStrategy.DataFrame) (slept : list Q),
    StockData.get_historical_data symbol history max_retries delay
    = (result, slept)
    /\ (forall j, (j < length slept)%nat -> failed symbol history j)
    /\ ((exists df,
           result = Some df
           /\ (length slept < max_retries)%nat
           /\ history (length slept) = StockData.Fetched df
           /\ validated df)
        \/ (result = Some StockData.no_data
            /\ (length slept + 1 = max_retries)%nat
            /\ exists message,
                 StockData.attempt symbol (history (length slept))
                 = StockData.Failed message
                 /\ rate_limited message = false)
        \/ (result = None
            /\ length slept = max_retries
            /\ (max_retries = 0%nat
                \/ exists message,
                     StockData.attempt symbol (history (max_retries - 1))
                     = StockData.Failed message
                     /\ rate_limited message = true))).
Proof.
  unfold StockData.get_historical_data.
  destruct (retry_spec symbol history max_retries delay max_retries 0 [])
    as (result & extra & Hrun & Hfailed & Hcases); [lia|].
  exists result, extra. cbn [app] in Hrun. split; [exact Hrun|].
  cbn [Nat.add] in *.
  split; [intros j Hj; apply Hfailed; lia|].
  destruct Hcases as [(df & -> & Hlt & Ha)|[Hc|(-> & Hlen & Hlast)]].
  - left. exists df. apply attempt_fetched in Ha as [Hh Hv]. auto.
  - right. left. destruct Hc as (-> & Hlen & Hmsg).
    split; [reflexivity|]. split; [lia|assumption].
  - right. right. split; [reflexivity|]. split; [assumption|].
    destruct Hlast as [Hzero|Hlast]; [left; lia|right; assumption].
Qed.

(** Three attempts with a delay of 5 seconds: a frame after two rate
    limits, the empty frame when the provider has no data, and [None]
    after 35 seconds of sleep when every attempt is rate limited. *)
Example three_attempts :
  StockData.get_historical_data "AAPL"
    (fun k => if (k <? 2)%nat then StockData.Failed "429 Too Many Requests"
              else StockData.Fetched Examples.ohlcv) 3 5
  = (Some Examples.ohlcv, [5; 10]%Q)
  /\ StockData.get_historical_data "AAPL"
       (fun _ => StockData.Fetched StockData.no_data) 3 5
     = (Some StockData.no_data, [5; 5]%Q)
  /\ StockData.get_historical_data "AAPL"
       (fun _ => StockData.Failed "429 Too Many Requests") 3 5
     = (None, [5; 10; 20]%Q)
  /\ StockData.attempt "AAPL" (StockData.Fetched StockData.no_data)
     = StockData.Failed "No data available for AAPL".
Proof. repeat split; vm_compute; reflexivity. Qed.

(** ** Manual paper trades *)

Section Paper.

Import TradingStrategy PaperTrading.

Lemma filter_none {A : Type} (keep : A -> bool) (l : list A) :
  (forall x, In x l -> keep x = false) -> List.filter keep l = [].
Proof.
  induction l as [|x l IH]; intros H; [reflexivity|].
  cbn [List.filter]. rewrite (H x) by (left; reflexivity).
  apply IH. intros y Hy. apply H. right. assumption.
Qed.

(** The rows that [get_options_chain] labels never carry a lower-case
    option type. *)
Lemma market_of_rows (stock : OptionsAnalysis.ticker) (days : string -> Z)
    (clock : string) (q : quote) :
  In q (rows (market_of stock days clock)) ->
  optionType q = "CALL" \/ optionType q = "PUT".
Proof.
  unfold rows. cbn [market_of options_df].
  destruct (get_options_chain_inv stock 1)
    as [->|(chain & expirations & -> & _ & _ & _ & Hbuilt)]; cbn [fst].
  - intros [].
  - intros Hq. apply in_map_iff in Hq as (r & <- & Hr).
    rewrite Forall_forall in Hbuilt.
    destruct (Hbuilt r) as (_ & Hty & _); [apply list_elem_of_In|]; assumption.
Qed.

End Paper.

(** X15.  A manual trade is appended to the store as the last trade,
    priced at the current price when it is an equity trade.  A manual
    option trade is priced from the chain: with an empty chain it is
    stored at the placeholder price 0; with rows in the chain it is
    stored only if a row matches its strike, option type and expiration
    exactly, and refused, with the store untouched, otherwise.  The
    chain labels its rows ['CALL'] and ['PUT'] and dates them with
    strings, so the option types ['call'] and ['put'] and an expiration
    that is not a string are always refused. *)
Theorem manual_trade_outcomes
    (self : PaperTrading.paper) (stock : OptionsAnalysis.ticker)
    (days_to_expiry : string -> Z) (clock : string)
    (action quantity stop_loss take_profit strike expiration option_type : value)
    (trades : list value) :
  let m := market_of stock days_to_expiry clock in
  let option_trade :=
    PaperTrading.execute_trade self m action quantity stop_loss take_profit
      (VStr "option") strike expiration option_type trades in
  (exists t : dict,
     PaperTrading.execute_trade self m action quantity stop_loss take_profit
       (VStr "equity") strike expiration option_type trades
     = (VDict t, trades ++ [VDict t])
     /\ t !! "entry_price" = Some (PaperTrading.current_price self)
     /\ t !! "status" = Some (VStr "open"))
  /\ (rows m = [] ->
      exists t : dict,
        option_trade = (VDict t, trades ++ [VDict t])
        /\ t !! "entry_price" = Some (num 0)
        /\ t !! "status" = Some (VStr "open"))
  /\ (forall r rest,
        List.filter (TradingStrategy.matches strike option_type expiration) (rows m)
        = r :: rest ->
        exists t : dict,
          option_trade = (VDict t, trades ++ [VDict t])
          /\ t !! "entry_price" = Some (num (lastPrice r)))
  /\ (rows m <> [] ->
      List.filter (TradingStrategy.matches strike option_type expiration) (rows m)
      = [] ->
      option_trade = (VNone, trades))
  /\ (rows m <> [] ->
      option_type = VStr "call" \/ option_type = VStr "put"
      \/ (forall s, expiration <> VStr s) ->
      option_trade = (VNone, trades)).
Proof.
  intros m option_trade.
  assert (Hrefused : rows m <> [] ->
            List.filter (TradingStrategy.matches strike option_type expiration)
                        (rows m) = [] ->
            option_trade = (VNone, trades)).
  { intros Hrows Hnone. subst option_trade. unfold PaperTrading.execute_trade.
    cbn [is_str String.eqb Ascii.eqb Bool.eqb]. rewrite Hnone.
    destruct (rows m); [contradiction|reflexivity]. }
  split; [|split; [|split; [|split]]].
  - eexists. split; [reflexivity|]. split; reflexivity.
  - intros Hrows. subst option_trade. unfold PaperTrading.execute_trade.
    cbn [is_str String.eqb Ascii.eqb Bool.eqb]. rewrite Hrows.
    eexists. split; [reflexivity|]. split; reflexivity.
  - intros r rest Hmatch. subst option_trade. unfold PaperTrading.execute_trade.
    cbn [is_str String.eqb Ascii.eqb Bool.eqb]. rewrite Hmatch.
    destruct (rows m) eqn:Hrows; [discriminate Hmatch|].
    eexists. split; [reflexivity|]. reflexivity.
  - exact Hrefused.
  - intros Hrows Hui. apply Hrefused; [assumption|].
    apply filter_none. intros q Hq.
    unfold TradingStrategy.matches.
    destruct (market_of_rows stock days_to_expiry clock q Hq) as [Hty|Hty].
    all: destruct Hui as [->|[->|Hdate]].
    all: try (rewrite Hty; cbn [is_str String.eqb Ascii.eqb Bool.eqb];
              rewrite andb_false_r; reflexivity).
    all: destruct expiration as [| | | |s| |]; try (cbn [is_str]; apply andb_false_r).
    all: exfalso; apply (Hdate s); reflexivity.
Qed.

(** X16.  A paper-trading session that [PaperTrading(symbol)] has built
    quotes the last cell of the ['Close'] column as its current price
    and owns a strategy to which no model is attached.  Its
    [check_automated_signals] therefore returns [None] and leaves the
    trade store as it is, whatever the indicators, the price history
    and the signals of the collaborators. *)
Theorem check_automated_signals_finds_nothing
    (ind : TradingStrategy.indicators) (symbol : string)
    (data : option TradingStrategy.DataFrame) (self : PaperTrading.paper)
    (f : TradingStrategy.feed) (trades : list value)
    (Hbuilt : PaperTrading.init symbol data = Ret self) :
  (exists (df : TradingStrategy.DataFrame) (close : TradingStrategy.series),
     data = Some df
     /\ TradingStrategy.columns df !! "Close" = Some close
     /\ last close = Some (PaperTrading.current_price self))
  /\ PaperTrading.symbol self = symbol
  /\ TradingStrategy.has_model (PaperTrading.strategy self) = false
  /\ PaperTrading.check_automated_signals ind self f trades = Ret (VNone, trades).
Proof.
  unfold PaperTrading.init in Hbuilt.
  destruct data as [df|]; [|discriminate Hbuilt].
  unfold TradingStrategy.df_getitem, TradingStrategy.iloc_last in Hbuilt.
  destruct (TradingStrategy.columns df !! "Close") as [close|] eqn:Hclose;
    [|discriminate Hbuilt].
  rewrite bind_Ret in Hbuilt.
  destruct (last close) as [price|] eqn:Hlast; [|discriminate Hbuilt].
  rewrite bind_Ret in Hbuilt. injection Hbuilt as <-.
  split; [exists df, close; auto|].
  split; [reflexivity|]. split; [reflexivity|].
  unfold PaperTrading.check_automated_signals, TradingStrategy.should_enter_trade.
  cbn [PaperTrading.strategy].
  rewrite should_enter_trade_on_no_model by reflexivity.
  reflexivity.
Qed.

Lemma check_automated_signals_finds_nothing_witness :
  let self := {| PaperTrading.symbol := "AAPL";
                 PaperTrading.current_price := VNum 100;
                 PaperTrading.strategy := TradingStrategy.init "AAPL" 100000 |} in
  (exists (df : TradingStrategy.DataFrame) (close : TradingStrategy.series),
     Some Examples.ohlcv = Some df
     /\ TradingStrategy.columns df !! "Close" = Some close
     /\ last close = Some (PaperTrading.current_price self))
  /\ PaperTrading.symbol self = "AAPL"
  /\ TradingStrategy.has_model (PaperTrading.strategy self) = false
  /\ PaperTrading.check_automated_signals Examples.plain_indicators self
       (Examples.live_feed Examples.unchanged_chain) [] = Ret (VNone, []).
Proof.
  apply (check_automated_signals_finds_nothing
           Examples.plain_indicators "AAPL" (Some Examples.ohlcv)).
  vm_compute. reflexivity.
Defined.

(** Without a price history, or with a history that lacks the column or
    has no row, the session is not built. *)
Example paper_trading_needs_a_close :
  PaperTrading.init "AAPL" None = Raise TypeError
  /\ PaperTrading.init "AAPL" (Some StockData.no_data) = Raise (KeyError "Close")
  /\ PaperTrading.init "AAPL"
       (Some {| TradingStrategy.index_length := 0;
                TradingStrategy.columns := {["Close" := []]} |})
     = Raise IndexError.
Proof. repeat split. Qed.

(** ** The automated trading loop *)

Section Loop.

Import TradingStrategy PortfolioManager AutoTrade.

(** A turn of the start-up loop that ends the loop with [break]. *)
Definition ready (s : startup) : bool :=
  match s with
  | Constructed _ true => true
  | _ => false
  end.

Lemma trading_cycle_stops (ind : indicators) (w : world) (st : state) :
  Exists (open_position (self st)) (store st) ->
  exists e : exn, trading_cycle (class ind) w st = (Raise e, st).
Proof.
  intros Hopen. destruct (check_signals_stops ind w st Hopen) as (e & _ & He).
  exists e. unfold trading_cycle. rewrite He. reflexivity.
Qed.

(** Without strategies the loop of [get_portfolio_stats] over the open
    trades skips every trade. *)
Lemma unrealized_unregistered (cls : methods) (w : world) (g : manager)
    (open_trades : list value) (pnl : value) :
  trading_strategies g = [] ->
  Forall stored_trade open_trades ->
  unrealized cls w g open_trades pnl = Ret pnl.
Proof.
  intros Hnone. induction 1 as [|t rest (d & sym & s & -> & Hsym & _) _ IH];
    [reflexivity|].
  cbn [unrealized]. rewrite (getitem_Some _ _ _ Hsym), bind_Ret.
  cbn [get_strategy]. rewrite Hnone. cbn [strategy_of]. rewrite bind_Ret.
  exact IH.
Qed.

Lemma filter_stored_trades (status : string) (trades : list value) :
  Forall stored_trade trades ->
  Forall stored_trade (List.filter (has_status status) trades).
Proof.
  intros H. apply Forall_forall. intros t Hin.
  apply list_elem_of_In, filter_In in Hin as [Hin _].
  apply (proj1 (Forall_forall _ _) H). apply list_elem_of_In. exact Hin.
Qed.

(** Without strategies [get_portfolio_stats] returns a dict whose
    capital is a number. *)
Lemma get_portfolio_stats_unregistered (cls : methods) (w : world) (st : state) :
  trading_strategies (self st) = [] ->
  Forall stored_trade (store st) ->
  exists (d : dict) (c : Q),
    get_portfolio_stats cls w st = Ret (VDict d)
    /\ d !! "current_capital" = Some (VNum c).
Proof.
  intros Hnone Hwf. unfold get_portfolio_stats.
  destruct (store st) as [|t0 rest] eqn:Hstore.
  { eexists _, _. split; reflexivity. }
  rewrite <- Hstore in *. clear Hstore t0 rest.
  rewrite !with_status_stored by assumption. rewrite !bind_Ret.
  destruct (sum_profit_closed _ (filter_stored "closed" _ Hwf) (Qred 0))
    as [total Htotal].
  change (VNum (Qred 0)) with (num 0) in Htotal. rewrite Htotal, bind_Ret.
  destruct (count_winning_closed _ (filter_stored "closed" _ Hwf)) as [n Hn].
  rewrite Hn, bind_Ret.
  rewrite (unrealized_unregistered cls w (self st) _ (num 0) Hnone
             (filter_stored_trades "open" _ Hwf)), bind_Ret.
  assert (Hrate : exists r : Q,
            match List.filter (has_status "closed") (store st) with
            | [] => mret (num 0)
            | _ => r ← v_div (of_nat n)
                        (of_nat (length (List.filter (has_status "closed") (store st))));
                   v_mul r (num 100)
            end = Ret (VNum r)).
  { destruct (List.filter (has_status "closed") (store st)) as [|c closed].
    - eexists. reflexivity.
    - rewrite of_nat_div by (cbn [length]; lia). rewrite bind_Ret.
      eexists. reflexivity. }
  destruct Hrate as [r ->]. rewrite bind_Ret.
  unfold num. py_num. eexists _, _. split; reflexivity.
Qed.

(** Without strategies a turn of the trading loop returns and leaves an
    empty store; the manager changes in [max_position_size] only. *)
Lemma trading_cycle_unregistered (cls : methods) (w : world) (st : state) (a : Q) :
  trading_strategies (self st) = [] ->
  available_capital (self st) = VNum a ->
  Forall stored_trade (store st) ->
  exists size : Q,
    trading_cycle cls w st
    = (Ret tt, {| self := set_max_position_size (self st) (VNum size);
                  store := [] |}).
Proof.
  intros Hnone Ha Hwf.
  destruct (get_portfolio_stats_unregistered cls w st Hnone Hwf)
    as (d & c & Hstats & Hc).
  unfold trading_cycle, check_signals.
  rewrite Hstats, bind_Ret, (getitem_Some _ _ _ Hc), bind_Ret.
  unfold num. rewrite v_mul_num.
  cbn [self store set_max_position_size trading_strategies].
  rewrite Hnone. cbn [check_loop log_signals mret py_ret].
  set (g := set_max_position_size (self st) _).
  assert (Hfree : Forall (fun t => ~ open_position g t) (store st)).
  { apply Forall_forall. intros t _ (d' & sym & s & _ & _ & Hreg & _).
    subst g. cbn [set_max_position_size trading_strategies] in Hreg.
    rewrite Hnone in Hreg. discriminate Hreg. }
  unfold monitor_portfolio. cbn [self store].
  edestruct (monitor_loop_settled cls w (store st) g) as (q' & -> & _);
    [exact Hwf|exact Hfree|reflexivity|].
  assert (Hkept : List.filter (registered g) (store st) = []).
  { subst g. unfold registered. cbn [set_max_position_size trading_strategies].
    rewrite Hnone. clear.
    induction (store st) as [|t rest IH]; [reflexivity|].
    cbn [List.filter]. destruct (getitem t "symbol"); exact IH. }
  rewrite Hkept. cbn [app open_positions closed_positions].
  unfold get_portfolio_stats. cbn [store self]. rewrite bind_Ret.
  subst g. cbn [set_max_position_size available_capital initial_capital].
  rewrite Ha. eexists. reflexivity.
Qed.

End Loop.

(** X17.  The start-up loop of [run_automated_trading] never reaches the
    trading loop without a portfolio bound.  It makes the function
    return exactly when none of the first two turns succeeded and the
    third raised; the first turn that succeeds starts the trading loop
    on its portfolio; and a third turn in which [initialize_portfolio]
    returned [False] after two failures also starts the trading loop,
    on the portfolio whose initialisation failed. *)
Theorem start_up_outcomes (turn : nat -> AutoTrade.startup) :
  AutoTrade.initialize turn <> AutoTrade.Trading None
  /\ (AutoTrade.initialize turn = AutoTrade.Exited
      <-> ready (turn 0%nat) = false /\ ready (turn 1%nat) = false
          /\ turn 2%nat = AutoTrade.Crashed)
  /\ (forall g, turn 0%nat = AutoTrade.Constructed g true ->
        AutoTrade.initialize turn = AutoTrade.Trading (Some g))
  /\ (forall g, ready (turn 0%nat) = false ->
        turn 1%nat = AutoTrade.Constructed g true ->
        AutoTrade.initialize turn = AutoTrade.Trading (Some g))
  /\ (forall g initialized, ready (turn 0%nat) = false ->
        ready (turn 1%nat) = false ->
        turn 2%nat = AutoTrade.Constructed g initialized ->
        AutoTrade.initialize turn = AutoTrade.Trading (Some g)).
Proof.
  unfold AutoTrade.initialize.
  cbn [AutoTrade.start_up Nat.ltb Nat.leb negb].
  destruct (turn 0%nat) as [|g0 [|]]; cbn [ready Nat.ltb Nat.leb negb];
    destruct (turn 1%nat) as [|g1 [|]]; cbn [ready Nat.ltb Nat.leb negb];
      destruct (turn 2%nat) as [|g2 [|]]; cbn [ready Nat.ltb Nat.leb negb].
  all: split; [discriminate|].
  all: split; [split; [try discriminate; intros _; repeat split
                      |intros (H0 & H1 & H2); try discriminate; reflexivity]|].
  all: repeat split; intros; simplify_eq; reflexivity.
Qed.

(** Two turns that raise and a third in which [initialize_portfolio]
    returns [False] start the trading loop; the same failures in the
    opposite order end the program. *)
Example start_up_depends_on_the_order :
  let g := PortfolioManager.init 100000 [] TradingStrategy.MlNone in
  AutoTrade.initialize
    (fun k => if (k <? 2)%nat then AutoTrade.Crashed
              else AutoTrade.Constructed g false)
  = AutoTrade.Trading (Some g)
  /\ AutoTrade.initialize
       (fun k => if (k <? 2)%nat then AutoTrade.Constructed g false
                 else AutoTrade.Crashed)
     = AutoTrade.Exited.
Proof. split; reflexivity. Qed.

(** X18.  With the strategy class of the source, an open position of a
    registered symbol stalls the trading loop: every turn ends in the
    exception that [check_signals] raises before anything is monitored,
    and after any number of turns the manager and the store are what
    they were. *)
Theorem trading_loop_stalls_on_open_position
    (ind : TradingStrategy.indicators) (worlds : list PortfolioManager.world)
    (st : PortfolioManager.state)
    (Hopen : Exists (open_position (PortfolioManager.self st))
                    (PortfolioManager.store st)) :
  (forall w : PortfolioManager.world,
     exists e : exn,
       AutoTrade.trading_cycle (TradingStrategy.class ind) w st = (Raise e, st))
  /\ AutoTrade.trading_loop (TradingStrategy.class ind) worlds st = st.
Proof.
  split; [intros w; apply trading_cycle_stops; exact Hopen|].
  unfold AutoTrade.trading_loop.
  induction worlds as [|w rest IH]; [reflexivity|].
  cbn [foldl]. destruct (trading_cycle_stops ind w st Hopen) as [e ->].
  exact IH.
Qed.

Lemma trading_loop_stalls_on_open_position_witness :
  let st := Examples.holding 100000 [VDict (Examples.equity_trade 100 95 115 4)] in
  (forall w : PortfolioManager.world,
     exists e : exn,
       AutoTrade.trading_cycle
         (TradingStrategy.class Examples.plain_indicators) w st = (Raise e, st))
  /\ AutoTrade.trading_loop
       (TradingStrategy.class Examples.plain_indicators)
       [Examples.quiet_world; Examples.live_world] st = st.
Proof.
  apply (trading_loop_stalls_on_open_position
           Examples.plain_indicators [Examples.quiet_world; Examples.live_world]
           (Examples.holding 100000 [VDict (Examples.equity_trade 100 95 115 4)])).
  constructor.
  exists (Examples.equity_trade 100 95 115 4), "AAPL",
         (Examples.strategy_with "AAPL" (Qred (100000 * 0.02)) TradingStrategy.MlNone).
  repeat split.
Defined.

(** X19.  On a portfolio without strategies, which is what the start-up
    loop hands over when [initialize_portfolio] found no stock list,
    every turn of the trading loop returns, whatever the strategy
    class, and the first one writes an empty trade store: all recorded
    trades, open and closed, are lost.  The manager still has no
    strategies and its available capital is unchanged. *)
Theorem trading_loop_without_strategies_empties_store
    (cls : TradingStrategy.methods) (w : PortfolioManager.world)
    (worlds : list PortfolioManager.world) (st : PortfolioManager.state) (a : Q)
    (Hnone : PortfolioManager.trading_strategies (PortfolioManager.self st) = [])
    (Havailable : PortfolioManager.available_capital (PortfolioManager.self st)
                  = VNum a)
    (Hstore : Forall stored_trade (PortfolioManager.store st)) :
  (exists after : PortfolioManager.state,
     AutoTrade.trading_cycle cls w st = (Ret tt, after)
     /\ PortfolioManager.store after = [])
  /\ let final := AutoTrade.trading_loop cls (w :: worlds) st in
     PortfolioManager.store final = []
     /\ PortfolioManager.trading_strategies (PortfolioManager.self final) = []
     /\ PortfolioManager.available_capital (PortfolioManager.self final) = VNum a.
Proof.
  split.
  { destruct (trading_cycle_unregistered cls w st a Hnone Havailable Hstore)
      as [size ->].
    eexists. split; reflexivity. }
  unfold AutoTrade.trading_loop.
  revert w st Hnone Havailable Hstore.
  induction worlds as [|w' rest IH]; intros w st Hnone Havailable Hstore;
    destruct (trading_cycle_unregistered cls w st a Hnone Havailable Hstore)
      as [size Hturn].
  - cbn [foldl]. rewrite Hturn. cbn. auto.
  - change (foldl ?f st (w :: w' :: rest))
      with (foldl f (f st w) (w' :: rest)).
    cbn beta. rewrite Hturn. cbn [snd].
    apply IH; [exact Hnone|exact Havailable|constructor].
Qed.

Lemma trading_loop_without_strategies_empties_store_witness :
  let st := {| PortfolioManager.self :=
                 PortfolioManager.init 100000 [] TradingStrategy.MlNone;
               PortfolioManager.store := Cases.mixed_store |} in
  (exists after : PortfolioManager.state,
     AutoTrade.trading_cycle
       (TradingStrategy.class Examples.plain_indicators) Examples.quiet_world st
     = (Ret tt, after)
     /\ PortfolioManager.store after = [])
  /\ let final := AutoTrade.trading_loop
                    (TradingStrategy.class Examples.plain_indicators)
                    [Examples.quiet_world; Examples.live_world] st in
     PortfolioManager.store final = []
     /\ PortfolioManager.trading_strategies (PortfolioManager.self final) = []
     /\ PortfolioManager.available_capital (PortfolioManager.self final)
        = VNum 100000.
Proof.
  apply (trading_loop_without_strategies_empties_store
           (TradingStrategy.class Examples.plain_indicators) Examples.quiet_world
           [Examples.live_world]
           {| PortfolioManager.self :=
                PortfolioManager.init 100000 [] TradingStrategy.MlNone;
              PortfolioManager.store := Cases.mixed_store |} 100000).
  - reflexivity.
  - reflexivity.
  - repeat constructor.
    + exists Examples.closed_equity_trade, "AAPL", "closed".
      repeat split. intros _. exists 60%Q. reflexivity.
    + exists (Examples.position_of "TSLA" 100 95 115 4), "TSLA", "open".
      repeat split. intros H. contradiction.
Defined.

(** The store of the example after one turn, and the position size the
    turn computed from the closed profit of 60. *)
Example mixed_store_after_one_turn :
  AutoTrade.trading_cycle
    (TradingStrategy.class Examples.plain_indicators) Examples.quiet_world
    {| PortfolioManager.self :=
         PortfolioManager.init 100000 [] TradingStrategy.MlNone;
       PortfolioManager.store := Cases.mixed_store |}
  = (Ret tt,
     {| PortfolioManager.self :=
          PortfolioManager.set_max_position_size
            (PortfolioManager.init 100000 [] TradingStrategy.MlNone)
            (VNum (10006 # 5));
        PortfolioManager.store := [] |}).
Proof. vm_compute. reflexivity. Qed.
